(** * Result aggregator (results_parser.py): key parser, loaders, merge and summary

    A shallow embedding of [results_parser.py].  Python values are modelled
    by the data the script really handles:

    - [str] is [string]; a character is a code point below 256, which
      covers every character that the pattern of the key parser names;
    - [int] is [Z];
    - a [dict] is an association list in insertion order with one binding
      per key, because the summary enumerates dictionaries in that order;
    - a raised exception and the lines written by [print] are explicit:
      a computation yields an outcome together with the lines it printed;
    - [open] followed by [json.load] is a function from paths to the decoded
      value or the exception raised.

    The statements of the module run in the order of the file, and a [def]
    binds its name when it is reached.  The main block stands before the
    definitions of the two loaders and of [print_data_summary]: the names
    that the block can use are those bound before it, and the evaluation of
    any other name raises [NameError].  The loops of the main block take
    the names bound when they run as a parameter; the functions themselves
    are modelled as they can be called once the module is imported. *)

From Stdlib Require Import List String Ascii ZArith Lia Bool Arith.
From Stdlib Require Import Sorted Permutation.
Import ListNotations.

Local Open Scope string_scope.
Local Open Scope list_scope.
Local Open Scope Z_scope.

Set Implicit Arguments.

(* ================================================================== *)
(** * Exceptions and printed lines *)

(** The exception classes that the script names or that its statements can
    raise. *)
Inductive exn : Type :=
| FileNotFoundError
| JSONDecodeError
| OSError
| ValueError
| TypeError
| AttributeError
| IndexError
| KeyError
| NameError.

Inductive outcome (A : Type) : Type :=
| Ok (a : A)
| Raise (e : exn).

Arguments Ok {A} a.
Arguments Raise {A} e.

(** [except ValueError], [except (IndexError, TypeError)], [except Exception]. *)
Definition is_ValueError (e : exn) : bool :=
  match e with ValueError => true | _ => false end.
Definition is_TypeError (e : exn) : bool :=
  match e with TypeError => true | _ => false end.
Definition is_FileNotFoundError (e : exn) : bool :=
  match e with FileNotFoundError => true | _ => false end.
Definition is_JSONDecodeError (e : exn) : bool :=
  match e with JSONDecodeError => true | _ => false end.
Definition is_IndexError_or_TypeError (e : exn) : bool :=
  match e with IndexError | TypeError => true | _ => false end.
Definition is_Exception (e : exn) : bool := true.

(* ================================================================== *)
(** * Calendar dates: [datetime.date] *)

Record date : Type := mkdate { year : Z; month : Z; day : Z }.

Definition MINYEAR : Z := 1.
Definition MAXYEAR : Z := 9999.

Definition is_leap (y : Z) : bool :=
  (y mod 4 =? 0) && (negb (y mod 100 =? 0) || (y mod 400 =? 0)).

Definition days_in_month (y m : Z) : Z :=
  if (m =? 2) && is_leap y then 29
  else nth (Z.to_nat m) [0; 31; 28; 31; 30; 31; 30; 31; 31; 30; 31; 30; 31] 0.

(** The range checks of the [date] constructor. *)
Definition check_date_fields (y m d : Z) : bool :=
  (MINYEAR <=? y) && (y <=? MAXYEAR) &&
  (1 <=? m) && (m <=? 12) &&
  (1 <=? d) && (d <=? days_in_month y m).

Definition datetime_date (y m d : Z) : outcome date :=
  if check_date_fields y m d then Ok (mkdate y m d) else Raise ValueError.

Definition date_eqb (a b : date) : bool :=
  (year a =? year b) && (month a =? month b) && (day a =? day b).

(** Dates compare as the triples (year, month, day). *)
Definition date_ltb (a b : date) : bool :=
  (year a <? year b)
  || ((year a =? year b)
      && ((month a <? month b)
          || ((month a =? month b) && (day a <? day b)))).

(* ================================================================== *)
(** * Characters and the classes of the pattern *)

Definition code (c : ascii) : N := N_of_ascii c.

(** [\d] on code points below 256: the ten decimal digits. *)
Definition is_digit (c : ascii) : bool :=
  ((48 <=? code c) && (code c <=? 57))%N.

(** [\s] on code points below 256: tab to carriage return, the four
    separators 28 to 31, the space, NEL (133) and the no-break space (160). *)
Definition is_space (c : ascii) : bool :=
  (((9 <=? code c) && (code c <=? 13))
   || ((28 <=? code c) && (code c <=? 32))
   || (code c =? 133) || (code c =? 160))%N.

(** [[^']]. *)
Definition not_quote (c : ascii) : bool := negb (Ascii.eqb c "'").

Definition digit_value (c : ascii) : Z := Z.of_N (code c) - 48.

Fixpoint str_forall (p : ascii -> bool) (s : string) : bool :=
  match s with
  | EmptyString => true
  | String a s' => p a && str_forall p s'
  end.

(** [int(s)] on the strings that reach it here: a non-empty run of decimal
    digits is read in base ten; anything else raises [ValueError]. *)
Fixpoint int_digits (acc : Z) (s : string) : Z :=
  match s with
  | EmptyString => acc
  | String a s' => int_digits (10 * acc + digit_value a) s'
  end.

Definition py_int (s : string) : outcome Z :=
  match s with
  | EmptyString => Raise ValueError
  | _ => if str_forall is_digit s then Ok (int_digits 0 s) else Raise ValueError
  end.

(** [str(n)] for a non-negative [int]: its decimal digits, no padding. *)
Definition digit_char (d : Z) : ascii := ascii_of_N (Z.to_N (48 + d)).

Fixpoint digits_fuel (fuel : nat) (n : Z) (acc : string) : string :=
  match fuel with
  | O => acc
  | S f =>
      let acc' := String (digit_char (n mod 10)) acc in
      if n <? 10 then acc' else digits_fuel f (n / 10) acc'
  end.

Definition py_str_int (n : Z) : string :=
  digits_fuel (S (Z.to_nat n)) n "".

(* ================================================================== *)
(** * Regular expressions of the shape the script uses

    The pattern of the key parser is a sequence of literal characters and of
    greedy repetitions of one character class, some of them capturing.  The
    matcher is the backtracking one of [re]: a repetition first takes as
    many characters as it may, and gives them back one at a time while the
    rest of the pattern fails. *)

Inductive atom : Type :=
| Lit (c : ascii)
| Rep (cls : ascii -> bool) (lo : nat) (hi : option nat) (capture : bool).

Definition exhausted (hi : option nat) : bool :=
  match hi with Some O => true | _ => false end.

Definition dec_hi (hi : option nat) : option nat :=
  match hi with Some n => Some (pred n) | None => None end.

Section Rep.
Variable A : Type.
Variable cls : ascii -> bool.
Variable k : string -> option A.

(** [rep lo hi s]: the text taken by the repetition and the result of the
    continuation [k] on what is left, longest repetition first. *)
Fixpoint rep (lo : nat) (hi : option nat) (s : string) : option (string * A) :=
  let stop :=
    match lo with
    | O => match k s with Some r => Some (EmptyString, r) | None => None end
    | S _ => None
    end in
  match s with
  | String a s' =>
      if cls a && negb (exhausted hi) then
        match rep (pred lo) (dec_hi hi) s' with
        | Some (txt, r) => Some (String a txt, r)
        | None => stop
        end
      else stop
  | EmptyString => stop
  end.
End Rep.

(** [re_match p s]: the groups captured when [p] matches a prefix of [s]. *)
Fixpoint re_match (p : list atom) : string -> option (list string) :=
  match p with
  | [] => fun _ => Some []
  | Lit c :: p' =>
      fun s =>
        match s with
        | String a s' => if Ascii.eqb a c then re_match p' s' else None
        | EmptyString => None
        end
  | Rep cls lo hi capture :: p' =>
      fun s =>
        match rep cls (re_match p') lo hi s with
        | Some (txt, gs) => Some (if capture then txt :: gs else gs)
        | None => None
        end
  end.

(** [re.search]: the match at the leftmost position that has one. *)
Fixpoint re_search (p : list atom) (s : string) : option (list string) :=
  match re_match p s with
  | Some gs => Some gs
  | None =>
      match s with
      | String _ s' => re_search p s'
      | EmptyString => None
      end
  end.

(** [match.group(i)] for [i >= 1]. *)
Definition group (gs : list string) (i : nat) : string :=
  nth (pred i) gs "".

Fixpoint lits (s : string) : list atom :=
  match s with
  | EmptyString => []
  | String a s' => Lit a :: lits s'
  end.

(** [\s*] *)
Definition ws : atom := Rep is_space 0 None false.

(** The pattern of [parse_datetime_from_string_key], atom by atom: an
    opening parenthesis, spaces, a quote, group 1 (any run of characters
    other than the quote), a quote, spaces, a comma, spaces, the text
    datetime.date, spaces, an opening parenthesis, spaces, group 2 (exactly
    four digits), spaces, a comma, spaces, group 3 (one or two digits),
    spaces, a comma, spaces, group 4 (one or two digits), spaces, a closing
    parenthesis, spaces, a closing parenthesis. *)
Definition pattern : list atom :=
  [Lit "("; ws; Lit "'"; Rep not_quote 0 None true; Lit "'"; ws; Lit ","; ws]
  ++ lits "datetime.date"
  ++ [ws; Lit "("; ws; Rep is_digit 4 (Some 4%nat) true;
      ws; Lit ","; ws; Rep is_digit 1 (Some 2%nat) true;
      ws; Lit ","; ws; Rep is_digit 1 (Some 2%nat) true;
      ws; Lit ")"; ws; Lit ")"].

(* ================================================================== *)
(** * Dictionaries

    A [dict] keeps its bindings in insertion order; assigning to a key that
    is bound replaces the value in place, assigning to a new key appends. *)

Section Dict.
Variables K V : Type.
Variable eqb : K -> K -> bool.

Definition dict : Type := list (K * V).

Fixpoint dict_get (d : dict) (k : K) : option V :=
  match d with
  | [] => None
  | (k', v) :: d' => if eqb k' k then Some v else dict_get d' k
  end.

(** [k in d] *)
Definition dict_mem (d : dict) (k : K) : bool :=
  match dict_get d k with Some _ => true | None => false end.

(** [d[k]] read: [KeyError] on a key that is not bound. *)
Definition getitem (d : dict) (k : K) : outcome V :=
  match dict_get d k with Some v => Ok v | None => Raise KeyError end.

(** [d[k] = v] *)
Fixpoint dict_set (d : dict) (k : K) (v : V) : dict :=
  match d with
  | [] => [(k, v)]
  | (k', v') :: d' =>
      if eqb k' k then (k', v) :: d' else (k', v') :: dict_set d' k v
  end.

(** [d.update(other)] *)
Definition dict_update (d other : dict) : dict :=
  fold_left (fun acc kv => dict_set acc (fst kv) (snd kv)) other d.

Definition dict_keys (d : dict) : list K := map fst d.

(** [len(d)] *)
Definition dict_len (d : dict) : Z := Z.of_nat (List.length d).
End Dict.

(** [s.add(x)] and [len(s)] on a set of strings, kept as a list without
    repetition. *)
Definition set_add (x : string) (s : list string) : list string :=
  if existsb (String.eqb x) s then s else s ++ [x].

(* ================================================================== *)
(** * JSON values, dictionary keys of the history mapping *)

(** A float is kept as the finite value [mantissa * 2 ^ exponent]; the
    script never computes on the values it stores. *)
#[warnings="-register-all"]
Inductive json : Type :=
| JNull
| JBool (b : bool)
| JInt (n : Z)
| JFloat (mantissa : Z) (exponent : Z)
| JStr (s : string)
| JArr (items : list json)
| JObj (members : list (string * json)).

(** The keys found in the innermost dictionaries.  The loader only ever
    puts dates there; the summary is written for any key. *)
Inductive pykey : Type :=
| KDate (d : date)
| KStr (s : string).

Definition pykey_eqb (a b : pykey) : bool :=
  match a, b with
  | KDate x, KDate y => date_eqb x y
  | KStr x, KStr y => String.eqb x y
  | _, _ => false
  end.

(** [a < b]: dates compare with dates and strings with strings; a date
    against a string is a [TypeError]. *)
Definition py_lt (a b : pykey) : outcome bool :=
  match a, b with
  | KDate x, KDate y => Ok (date_ltb x y)
  | KStr x, KStr y => Ok (String.ltb x y)
  | _, _ => Raise TypeError
  end.

(** [sorted(keys)]: the ascending arrangement, found by insertion; a
    comparison that raises makes the whole call raise.  A list of fewer than
    two keys is returned without any comparison. *)
Fixpoint insert_sorted (x : pykey) (l : list pykey) : outcome (list pykey) :=
  match l with
  | [] => Ok [x]
  | y :: l' =>
      match py_lt x y with
      | Raise e => Raise e
      | Ok true => Ok (x :: y :: l')
      | Ok false =>
          match insert_sorted x l' with
          | Ok r => Ok (y :: r)
          | Raise e => Raise e
          end
      end
  end.

Fixpoint sorted (l : list pykey) : outcome (list pykey) :=
  match l with
  | [] => Ok []
  | x :: l' =>
      match sorted l' with
      | Ok r => insert_sorted x r
      | Raise e => Raise e
      end
  end.

(** symbol -> data type -> date -> value *)
Definition by_date : Type := dict pykey json.
Definition by_type : Type := dict string by_date.
Definition history : Type := dict string by_type.

(** symbol -> details *)
Definition details : Type := dict string json.
Definition other_data : Type := dict string details.

(* ================================================================== *)
(** * Printed lines

    A line is kept as the message it is and the values formatted into it. *)

Inductive line : Type :=
| ErrDateComponents (key_string year_str month_str day_str : string)
| ErrHistoryNotFound (file_path : string)
| ErrOtherNotFound (file_path : string)
| ErrDecodeJSON (file_path : string)
| ErrUnexpectedRead (file_path : string)
| WarnExpectedDict (data_type_key file_path : string)
| WarnKeySkipped (key_string file_path : string)
| ErrExpectedList (file_path : string)
| ErrExpectedInnerList (file_path : string)
| ErrSymbolNotStr (file_path : string)
| ErrDetailsNotDict (file_path : string)
| ErrUnexpectedStructure (file_path : string)
| ErrValidation (file_path : string)
| ParsingHistoryFile (hf_path : string)
| LoadedHistory (sym_count item_count : Z) (hf_path : string)
| FailedHistory (hf_path : string)
| ParsingOtherFile (ojf_path : string)
| LoadedOther (symbol ojf_path : string)
| FailedOther (ojf_path : string)
| SummaryBanner
| HistoryHeader
| HistoryFilesProcessed (n : Z)
| HistoryFound (symbols total_items : Z)
| MoreSymbols (n : Z)
| SymbolLine (symbol : string)
| TypeLine (data_type_key : string)
| CouldNotSort (data_type_key : string)
| MoreEntries (n : Z) (data_type_key : string)
| EntryLine (k : pykey) (v : json)
| OtherHeader
| OtherFilesProcessed (n : Z)
| OtherFound (symbols : Z)
| SummaryDetailLine
| PreviousCloseLine (v : json)
| OpenLine (v : json)
| VolumeLine (v : json)
| QuoteTypeLine
| ShortNameLine (v : json)
| ExchangeLine (v : json)
| SummaryFooter.

(* ================================================================== *)
(** * Computations that print and may raise *)

Definition io (A : Type) : Type := (outcome A * list line)%type.

Definition ret {A} (a : A) : io A := (Ok a, []).

Definition bind {A B} (m : io A) (f : A -> io B) : io B :=
  match m with
  | (Ok a, out) => let (r, out') := f a in (r, out ++ out')
  | (Raise e, out) => (Raise e, out)
  end.

Definition print (l : line) : io unit := (Ok tt, [l]).

Definition lift {A} (o : outcome A) : io A := (o, []).

(** [try: m  except c1: h1  except c2: h2 ...]: the first clause whose
    class holds the exception runs; an exception no clause names goes on. *)
Fixpoint select_handler {A} (e : exn) (clauses : list ((exn -> bool) * io A))
  : option (io A) :=
  match clauses with
  | [] => None
  | (handles, h) :: rest => if handles e then Some h else select_handler e rest
  end.

Definition try_except {A} (m : io A) (clauses : list ((exn -> bool) * io A))
  : io A :=
  match m with
  | (Raise e, out) =>
      match select_handler e clauses with
      | Some h => let (r, out') := h in (r, out ++ out')
      | None => m
      end
  | _ => m
  end.

Declare Scope io_scope.
Delimit Scope io_scope with io.
Notation "x <- m ;; k" := (bind m (fun x => k))
  (at level 61, m at next level, right associativity) : io_scope.
Notation "m ;;; k" := (bind m (fun _ => k))
  (at level 61, right associativity) : io_scope.
Local Open Scope io_scope.

(** [for x in xs: body], the loop variables threaded as a state. *)
Fixpoint for_each {A S} (xs : list A) (body : A -> S -> io S) (s : S) : io S :=
  match xs with
  | [] => ret s
  | x :: xs' => s' <- body x s ;; for_each xs' body s'
  end.

(** [for i, x in enumerate(xs): body] where the body may [break]: it
    answers [true] when it does. *)
Fixpoint for_enumerate {A} (i : Z) (xs : list A) (body : Z -> A -> io bool)
  : io unit :=
  match xs with
  | [] => ret tt
  | x :: xs' =>
      stop <- body i x ;;
      if stop then ret tt else for_enumerate (i + 1) xs' body
  end.

(* ================================================================== *)
(** * [parse_datetime_from_string_key] *)

(** The pair the parser returns: [(symbol, date_obj)] or [(None, None)]. *)
Definition parsed_key : Type := (option string * option date)%type.

Definition parse_datetime_from_string_key (key_string : string) : io parsed_key :=
  match re_search pattern key_string with
  | Some m =>
      let symbol := group m 1 in
      let year_str := group m 2 in
      let month_str := group m 3 in
      let day_str := group m 4 in
      try_except
        (year <- lift (py_int year_str) ;;
         month <- lift (py_int month_str) ;;
         day <- lift (py_int day_str) ;;
         date_obj <- lift (datetime_date year month day) ;;
         ret (Some symbol, Some date_obj))
        [(is_ValueError,
          print (ErrDateComponents key_string year_str month_str day_str) ;;;
          ret (None, None))]
  | None => ret (None, None)
  end.

(** The key as Python writes the pair of a string without quote and a
    date: [repr((symbol, datetime.date(y, m, d)))]. *)
Definition repr_key (symbol : string) (y m d : Z) : string :=
  "('" ++ symbol ++ "', datetime.date(" ++ py_str_int y ++ ", "
       ++ py_str_int m ++ ", " ++ py_str_int d ++ "))".

(* ================================================================== *)
(** * The loaders *)

(** [isinstance(x, dict)], [isinstance(x, list)], truth of a JSON value,
    [x.items()], [len(x)], [x[i]]. *)
Definition is_dict (j : json) : bool :=
  match j with JObj _ => true | _ => false end.

Definition is_list (j : json) : bool :=
  match j with JArr _ => true | _ => false end.

Definition json_truthy (j : json) : bool :=
  match j with
  | JNull => false
  | JBool b => b
  | JInt n => negb (n =? 0)
  | JFloat m _ => negb (m =? 0)
  | JStr s => negb (String.eqb s "")
  | JArr l => match l with [] => false | _ => true end
  | JObj o => match o with [] => false | _ => true end
  end.

Definition json_items (j : json) : outcome (list (string * json)) :=
  match j with JObj o => Ok o | _ => Raise AttributeError end.

Definition json_len (j : json) : outcome Z :=
  match j with
  | JArr l => Ok (Z.of_nat (List.length l))
  | JObj o => Ok (Z.of_nat (List.length o))
  | JStr s => Ok (Z.of_nat (String.length s))
  | _ => Raise TypeError
  end.

Definition json_index (j : json) (i : nat) : outcome json :=
  match j with
  | JArr l => match nth_error l i with Some x => Ok x | None => Raise IndexError end
  | JObj _ => Raise KeyError
  | JStr s => match String.get i s with
              | Some c => Ok (JStr (String c EmptyString))
              | None => Raise IndexError
              end
  | _ => Raise TypeError
  end.

(** The truth of [symbol] and of [date_obj] in [if symbol and date_obj]:
    [None] and the empty string are false, a date is always true. *)
Definition truthy_symbol (o : option string) : bool :=
  match o with Some s => negb (String.eqb s "") | None => false end.

Definition truthy_date (o : option date) : bool :=
  match o with Some _ => true | None => false end.

(** The variables of [parse_history_file]. *)
Record loader_state : Type := mkstate {
  parsed_data : history;
  symbols_in_file : list string;
  items_in_file : Z
}.

Section Loaders.
(** [open(file_path)] followed by [json.load]: the decoded value, or the
    exception the two raise. *)
Variable read_json : string -> outcome json.

Section HistoryFile.
Variable file_path : string.
Variable datetime_parser_func : string -> io parsed_key.

(** The body of the inner loop, for one [(key_string, value)].  The test
    is [if symbol and date_obj]: [None] in either place is false, and so is
    an empty symbol. *)
Definition history_entry (data_type_key : string) (kv : string * json)
           (st : loader_state) : io loader_state :=
  let (key_string, value) := kv in
  r <- datetime_parser_func key_string ;;
  match r with
  | (Some symbol, Some date_obj) =>
      if truthy_symbol (Some symbol) && truthy_date (Some date_obj) then
        let pd :=
          if dict_mem String.eqb (parsed_data st) symbol
          then parsed_data st
          else dict_set String.eqb (parsed_data st) symbol [] in
        let syms := set_add symbol (symbols_in_file st) in
        types <- lift (getitem String.eqb pd symbol) ;;
        let types1 :=
          if dict_mem String.eqb types data_type_key
          then types
          else dict_set String.eqb types data_type_key [] in
        dates <- lift (getitem String.eqb types1 data_type_key) ;;
        let dates1 := dict_set pykey_eqb dates (KDate date_obj) value in
        ret (mkstate
               (dict_set String.eqb pd symbol
                  (dict_set String.eqb types1 data_type_key dates1))
               syms
               (items_in_file st + 1))
      else
        print (WarnKeySkipped key_string file_path) ;;; ret st
  | _ =>
      print (WarnKeySkipped key_string file_path) ;;; ret st
  end.

(** The body of the outer loop, for one [(data_type_key, data_dict)]. *)
Definition history_category (kd : string * json) (st : loader_state)
  : io loader_state :=
  let (data_type_key, data_dict) := kd in
  match data_dict with
  | JObj entries => for_each entries (history_entry data_type_key) st
  | _ => print (WarnExpectedDict data_type_key file_path) ;;; ret st
  end.

Definition parse_history_file : io (option history * Z * Z) :=
  match read_json file_path with
  | Raise e =>
      if is_FileNotFoundError e then
        print (ErrHistoryNotFound file_path) ;;; ret (None, 0, 0)
      else if is_JSONDecodeError e then
        print (ErrDecodeJSON file_path) ;;; ret (None, 0, 0)
      else
        print (ErrUnexpectedRead file_path) ;;; ret (None, 0, 0)
  | Ok raw_data =>
      categories <- lift (json_items raw_data) ;;
      st <- for_each categories history_category (mkstate [] [] 0) ;;
      ret (Some (parsed_data st),
           Z.of_nat (List.length (symbols_in_file st)),
           items_in_file st)
  end.
End HistoryFile.

(** The structure checks of [parse_other_json_file], inside its second
    [try].  In [not isinstance(inner_list, list) or len(inner_list) < 2] the
    length is taken only when the first test is false. *)
Definition validate_other (file_path : string) (raw_data : json)
  : io (option (string * details)) :=
  if negb (is_list raw_data) || negb (json_truthy raw_data) then
    print (ErrExpectedList file_path) ;;; ret None
  else
    inner_list <- lift (json_index raw_data 0) ;;
    short <- (if is_list inner_list
              then n <- lift (json_len inner_list) ;; ret (n <? 2)
              else ret true) ;;
    if negb (is_list inner_list) || short then
      print (ErrExpectedInnerList file_path) ;;; ret None
    else
      symbol <- lift (json_index inner_list 0) ;;
      details_dict <- lift (json_index inner_list 1) ;;
      match symbol with
      | JStr sym =>
          match details_dict with
          | JObj det => ret (Some (sym, det))
          | _ => print (ErrDetailsNotDict file_path) ;;; ret None
          end
      | _ => print (ErrSymbolNotStr file_path) ;;; ret None
      end.

Definition parse_other_json_file (file_path : string)
  : io (option (string * details)) :=
  match read_json file_path with
  | Raise e =>
      if is_FileNotFoundError e then
        print (ErrOtherNotFound file_path) ;;; ret None
      else if is_JSONDecodeError e then
        print (ErrDecodeJSON file_path) ;;; ret None
      else
        print (ErrUnexpectedRead file_path) ;;; ret None
  | Ok raw_data =>
      try_except (validate_other file_path raw_data)
        [(is_IndexError_or_TypeError,
          print (ErrUnexpectedStructure file_path) ;;; ret None);
         (is_Exception,
          print (ErrValidation file_path) ;;; ret None)]
  end.

(* ---------------------------------------------------------------- *)
(** ** The two loops of the main block

    The loops stand at module level.  They call the functions of the file
    by name, and a name is looked up when the call is evaluated: [globals]
    lists the functions of the file whose [def] has run by then.  (The
    variables of the block are assigned before they are used, and the
    imports stand at the head of the file.) *)

Variable globals : list string.

Definition is_defined (name : string) : bool :=
  existsb (String.eqb name) globals.

(** The evaluation of a global name. *)
Definition lookup_global (name : string) : io unit :=
  if is_defined name then ret tt else lift (Raise NameError).

Record history_totals : Type := mktotals {
  all_history_data : history;
  total_history_items_overall : Z;
  successfully_processed_history_files : Z
}.

(** [all_history_data[symbol][data_type_key].update(type_data_dict)],
    after the dictionary for [data_type_key] is made when missing. *)
Definition merge_type (symbol : string) (td : string * by_date)
           (all : history) : io history :=
  let (data_type_key, type_data_dict) := td in
  types <- lift (getitem String.eqb all symbol) ;;
  let types1 :=
    if dict_mem String.eqb types data_type_key
    then types
    else dict_set String.eqb types data_type_key [] in
  dates <- lift (getitem String.eqb types1 data_type_key) ;;
  ret (dict_set String.eqb all symbol
         (dict_set String.eqb types1 data_type_key
            (dict_update pykey_eqb dates type_data_dict))).

Definition merge_symbol (sd : string * by_type) (all : history) : io history :=
  let (symbol, symbol_data) := sd in
  let all1 :=
    if dict_mem String.eqb all symbol
    then all
    else dict_set String.eqb all symbol [] in
  for_each symbol_data (merge_type symbol) all1.

Definition history_file_step (hf_path : string) (acc : history_totals)
  : io history_totals :=
  print (ParsingHistoryFile hf_path) ;;;
  lookup_global "parse_history_file" ;;;
  lookup_global "parse_datetime_from_string_key" ;;;
  r <- parse_history_file hf_path parse_datetime_from_string_key ;;
  let '(parsed_data_from_file, sym_count_in_file, item_count_in_file) := r in
  match parsed_data_from_file with
  | Some parsed =>
      print (LoadedHistory sym_count_in_file item_count_in_file hf_path) ;;;
      all <- for_each parsed merge_symbol (all_history_data acc) ;;
      ret (mktotals all
             (total_history_items_overall acc + item_count_in_file)
             (successfully_processed_history_files acc + 1))
  | None =>
      print (FailedHistory hf_path) ;;; ret acc
  end.

Definition parse_history_files (history_files : list string)
  : io history_totals :=
  for_each history_files history_file_step (mktotals [] 0 0).

Record other_totals : Type := mkother {
  all_other_data : other_data;
  successfully_parsed_other_files : Z
}.

Definition other_file_step (ojf_path : string) (acc : other_totals)
  : io other_totals :=
  print (ParsingOtherFile ojf_path) ;;;
  lookup_global "parse_other_json_file" ;;;
  parsed_content <- parse_other_json_file ojf_path ;;
  match parsed_content with
  | Some (symbol, details_dict) =>
      let all := dict_set String.eqb (all_other_data acc) symbol details_dict in
      print (LoadedOther symbol ojf_path) ;;;
      ret (mkother all (successfully_parsed_other_files acc + 1))
  | None =>
      print (FailedOther ojf_path) ;;; ret acc
  end.

Definition parse_other_files (other_json_files : list string)
  : io other_totals :=
  for_each other_json_files other_file_step (mkother [] 0).
End Loaders.

(* ================================================================== *)
(** * [print_data_summary] *)

Definition max_symbols_to_print : Z := 3.
Definition max_entries_per_type : Z := 2.

Definition print_entry (data_type_key : string) (type_data_dict : by_date)
           (entry_idx : Z) (date_obj : pykey) : io bool :=
  if max_entries_per_type <=? entry_idx then
    print (MoreEntries (dict_len type_data_dict - max_entries_per_type)
             data_type_key) ;;;
    ret true
  else
    v <- lift (getitem pykey_eqb type_data_dict date_obj) ;;
    print (EntryLine date_obj v) ;;;
    ret false.

Definition print_type (td : string * by_date) (_ : unit) : io unit :=
  let (data_type_key, type_data_dict) := td in
  print (TypeLine data_type_key) ;;;
  sorted_dates <-
    try_except (lift (sorted (dict_keys type_data_dict)))
      [(is_TypeError,
        print (CouldNotSort data_type_key) ;;;
        ret (dict_keys type_data_dict))] ;;
  for_enumerate 0 sorted_dates (print_entry data_type_key type_data_dict).

Definition print_symbol (all_history_data : history) (i : Z)
           (ss : string * by_type) : io bool :=
  let (symbol, symbol_data) := ss in
  if max_symbols_to_print <=? i then
    print (MoreSymbols (dict_len all_history_data - max_symbols_to_print)) ;;;
    ret true
  else
    print (SymbolLine symbol) ;;;
    for_each symbol_data print_type tt ;;;
    ret false.

(** [d.get(k, 'N/A')] *)
Definition get_or_na (d : details) (k : string) : json :=
  match dict_get String.eqb d k with Some v => v | None => JStr "N/A" end.

Definition print_other_symbol (all_other_data : other_data) (i : Z)
           (sd : string * details) : io bool :=
  let (symbol, details_dict) := sd in
  if max_symbols_to_print <=? i then
    print (MoreSymbols (dict_len all_other_data - max_symbols_to_print)) ;;;
    ret true
  else
    print (SymbolLine symbol) ;;;
    match dict_get String.eqb details_dict "summaryDetail" with
    | Some (JObj sd) =>
        print SummaryDetailLine ;;;
        print (PreviousCloseLine (get_or_na sd "previousClose")) ;;;
        print (OpenLine (get_or_na sd "open")) ;;;
        print (VolumeLine (get_or_na sd "volume"))
    | _ => ret tt
    end ;;;
    match dict_get String.eqb details_dict "quoteType" with
    | Some (JObj qt) =>
        print QuoteTypeLine ;;;
        print (ShortNameLine (get_or_na qt "shortName")) ;;;
        print (ExchangeLine (get_or_na qt "exchange"))
    | _ => ret tt
    end ;;;
    ret false.

Definition print_history_section (all_history_data : history) : io unit :=
  for_enumerate 0 all_history_data (print_symbol all_history_data).

Definition print_data_summary (all_history_data : history)
           (total_history_items : Z) (all_other_data : other_data)
           (num_history_files_processed num_other_files_processed : Z)
  : io unit :=
  print SummaryBanner ;;;
  print HistoryHeader ;;;
  print (HistoryFilesProcessed num_history_files_processed) ;;;
  print (HistoryFound (dict_len all_history_data) total_history_items) ;;;
  print_history_section all_history_data ;;;
  print OtherHeader ;;;
  print (OtherFilesProcessed num_other_files_processed) ;;;
  print (OtherFound (dict_len all_other_data)) ;;;
  for_enumerate 0 all_other_data (print_other_symbol all_other_data) ;;;
  print SummaryFooter.

(* ================================================================== *)
(** * The module and the names that its main block can use *)

(** The statements at the top level of [results_parser.py] after the
    imports, in the order of the file: three definitions (lines 10, 21 and
    46), the block under [if __name__ == "__main__":] (line 74), three more
    definitions (lines 254, 313 and 357). *)
Inductive statement : Type :=
| Def (name : string)
| MainBlock.

Definition module_statements : list statement :=
  [Def "parse_arguments";
   Def "parse_datetime_from_string_key";
   Def "identify_files";
   MainBlock;
   Def "print_data_summary";
   Def "parse_history_file";
   Def "parse_other_json_file"].

(** The functions bound when the main block is reached: those of the
    definitions that stand before it. *)
Fixpoint bound_before_main (statements : list statement) : list string :=
  match statements with
  | [] => []
  | MainBlock :: _ => []
  | Def name :: rest => name :: bound_before_main rest
  end.

Definition globals_at_main : list string := bound_before_main module_statements.

(** The functions bound once the whole module has run, as after an import:
    all those that the file defines. *)
Definition globals_of_module : list string :=
  flat_map (fun s => match s with Def name => [name] | MainBlock => [] end)
    module_statements.

(* ================================================================== *)
(** * Notions used to state the properties *)

(** All 256 characters, to settle a property of characters by evaluation. *)
Definition all_ascii : list ascii := map ascii_of_nat (seq 0 256).

(** The first character of [s] exists and lies in [cls]. *)
Definition first_in (cls : ascii -> bool) (s : string) : bool :=
  match s with String a _ => cls a | EmptyString => false end.

(** A character on which a match of [p] may begin. *)
Fixpoint can_start (p : list atom) (a : ascii) : bool :=
  match p with
  | [] => true
  | Lit c :: _ => Ascii.eqb a c
  | Rep cls lo hi _ :: p' =>
      (cls a && negb (exhausted hi))
      || match lo with O => can_start p' a | S _ => false end
  end.

(** No character of [cls] can begin a match of [p]: a repetition of [cls]
    followed by [p] never gains by giving a character back. *)
Definition follow_ok (cls : ascii -> bool) (p : list atom) : bool :=
  forallb (fun a => negb (cls a) || negb (can_start p a)) all_ascii.

Definition fits (hi : option nat) (n : nat) : bool :=
  match hi with None => true | Some h => (n <=? h)%nat end.

Definition no_quote (s : string) : bool := str_forall not_quote s.
Definition all_digits (s : string) : bool := str_forall is_digit s.
Definition all_spaces (s : string) : bool := str_forall is_space s.
Definition no_paren (s : string) : bool :=
  str_forall (fun a => negb (Ascii.eqb a "(")) s.

Fixpoint quotes (s : string) : nat :=
  match s with
  | EmptyString => O
  | String a s' => ((if Ascii.eqb a "'" then 1 else 0) + quotes s')%nat
  end.

(** The part of the pattern that follows the symbol and its closing quote,
    and the part that follows the opening parenthesis of the date. *)
Definition after_symbol : list atom :=
  [ws; Lit ","; ws] ++ lits "datetime.date"
  ++ [ws; Lit "("; ws; Rep is_digit 4 (Some 4%nat) true;
      ws; Lit ","; ws; Rep is_digit 1 (Some 2%nat) true;
      ws; Lit ","; ws; Rep is_digit 1 (Some 2%nat) true;
      ws; Lit ")"; ws; Lit ")"].

Definition year_on : list atom :=
  [Rep is_digit 4 (Some 4%nat) true;
   ws; Lit ","; ws; Rep is_digit 1 (Some 2%nat) true;
   ws; Lit ","; ws; Rep is_digit 1 (Some 2%nat) true;
   ws; Lit ")"; ws; Lit ")"].

Definition month_on : list atom :=
  [Rep is_digit 1 (Some 2%nat) true;
   ws; Lit ","; ws; Rep is_digit 1 (Some 2%nat) true;
   ws; Lit ")"; ws; Lit ")"].

Definition day_on : list atom :=
  [Rep is_digit 1 (Some 2%nat) true; ws; Lit ")"; ws; Lit ")"].

(** A key written with the texts [ys], [ms], [ds] where the three integers
    go, spaced as Python writes a pair. *)
Definition key_text (symbol ys ms ds : string) : string :=
  "('" ++ symbol ++ "', datetime.date(" ++ ys ++ ", " ++ ms ++ ", " ++ ds ++ "))".

(** A key with free spacing: text before, the pair with any run of spaces
    wherever the pattern has [\s*], text after. *)
Record spacing : Type := mkspacing {
  sp1 : string; sp2 : string; sp3 : string; sp4 : string; sp5 : string;
  sp6 : string; sp7 : string; sp8 : string; sp9 : string; sp10 : string;
  sp11 : string
}.

Definition spaces_only (w : spacing) : bool :=
  all_spaces (sp1 w) && all_spaces (sp2 w) && all_spaces (sp3 w)
  && all_spaces (sp4 w) && all_spaces (sp5 w) && all_spaces (sp6 w)
  && all_spaces (sp7 w) && all_spaces (sp8 w) && all_spaces (sp9 w)
  && all_spaces (sp10 w) && all_spaces (sp11 w).

Definition spaced_pair (w : spacing) (symbol ys ms ds post : string) : string :=
  String "(" (sp1 w ++ String "'" (symbol ++ String "'" (sp2 w ++ String ","
    (sp3 w ++ "datetime.date" ++ sp4 w ++ String "(" (sp5 w ++ ys ++ sp6 w
      ++ String "," (sp7 w ++ ms ++ sp8 w ++ String "," (sp9 w ++ ds ++ sp10 w
        ++ String ")" (sp11 w ++ String ")" post)))))))).

(** The spacing of [key_text]. *)
Definition python_spacing : spacing :=
  mkspacing "" "" " " "" "" "" " " "" " " "" "".

Definition in_bounds (lo hi n : nat) : bool := ((lo <=? n) && (n <=? hi))%nat.

(** A character that is no digit, no space, none of the two separators of
    the date and no quote. *)
Definition non_numeric (c : ascii) : bool :=
  negb (is_digit c) && negb (is_space c) && negb (Ascii.eqb c ",")
  && negb (Ascii.eqb c ")") && negb (Ascii.eqb c "'").

(** The dictionary bound to a key, empty when the key is not bound. *)
Definition types_of (h : history) (s : string) : by_type :=
  match dict_get String.eqb h s with Some t => t | None => [] end.

Definition dates_of (t : by_type) (c : string) : by_date :=
  match dict_get String.eqb t c with Some m => m | None => [] end.

(** [h[s][c][k]] when the three keys are bound. *)
Definition lookup3 (h : history) (s c : string) (k : pykey) : option json :=
  dict_get pykey_eqb (dates_of (types_of h s) c) k.

(** [h[s][c][k] = v], the two outer dictionaries made when missing. *)
Definition record (h : history) (s c : string) (k : pykey) (v : json) : history :=
  dict_set String.eqb h s
    (dict_set String.eqb (types_of h s) c
       (dict_set pykey_eqb (dates_of (types_of h s) c) k v)).

(** [h[s][c].update(m)], the two outer dictionaries made when missing. *)
Definition merge_dates (h : history) (s c : string) (m : by_date) : history :=
  dict_set String.eqb h s
    (dict_set String.eqb (types_of h s) c
       (dict_update pykey_eqb (dates_of (types_of h s) c) m)).

Definition merge_types (h : history) (s : string) (t : by_type) : history :=
  fold_left (fun h cm => merge_dates h s (fst cm) (snd cm)) t
    (if dict_mem String.eqb h s then h else dict_set String.eqb h s []).

Definition merge_all (h fm : history) : history :=
  fold_left (fun h st => merge_types h (fst st) (snd st)) fm h.

(** One binding per key, at the three levels. *)
Definition wf_types (t : by_type) : Prop :=
  NoDup (dict_keys t) /\ Forall (fun x => NoDup (dict_keys (snd x))) t.

Definition wf_history (h : history) : Prop :=
  NoDup (dict_keys h) /\ Forall (fun x => wf_types (snd x)) h.

(** The (symbol, category, date) triples that hold a value, and their
    number. *)
Definition triple : Type := (string * string * pykey)%type.

Definition leaf_keys (h : history) : list triple :=
  flat_map (fun st =>
    flat_map (fun cm => map (fun kv => (fst st, fst cm, fst kv)) (snd cm))
      (snd st)) h.

Definition leaf_count (h : history) : Z := Z.of_nat (List.length (leaf_keys h)).

(** The symbol and date that the loader takes from a key: the answer of the
    parser when both parts are true in the sense of [if symbol and
    date_obj]. *)
Definition accepted (r : parsed_key) : option (string * date) :=
  match r with
  | (Some symbol, Some date_obj) =>
      if truthy_symbol (Some symbol) && truthy_date (Some date_obj)
      then Some (symbol, date_obj) else None
  | _ => None
  end.

Definition accepted_key (key_string : string) : option (string * date) :=
  match fst (parse_datetime_from_string_key key_string) with
  | Ok r => accepted r
  | Raise _ => None
  end.

(** The entries that a history file records, in the order of the file: one
    per key that the loader takes, with its triple and its value. *)
Definition entry_of (data_type_key : string) (kv : string * json)
  : list (triple * json) :=
  match accepted_key (fst kv) with
  | Some (symbol, date_obj) => [((symbol, data_type_key, KDate date_obj), snd kv)]
  | None => []
  end.

Definition category_entries (kd : string * json) : list (triple * json) :=
  match snd kd with
  | JObj entries => flat_map (entry_of (fst kd)) entries
  | _ => []
  end.

Definition file_entries (raw_data : json) : list (triple * json) :=
  match raw_data with
  | JObj categories => flat_map category_entries categories
  | _ => []
  end.

(** The state of the loader after one recorded entry. *)
Definition apply_entry (st : loader_state) (e : triple * json) : loader_state :=
  let '((s, c, k), v) := e in
  mkstate (record (parsed_data st) s c k v)
          (set_add s (symbols_in_file st))
          (items_in_file st + 1).

Definition triple_eqb (a b : triple) : bool :=
  let '(s, c, k) := a in
  let '(s', c', k') := b in
  String.eqb s s' && String.eqb c c' && pykey_eqb k k'.

(** The value of the last entry of [es] written under the triple [t]. *)
Fixpoint last_write (es : list (triple * json)) (t : triple) : option json :=
  match es with
  | [] => None
  | e :: es' =>
      match last_write es' t with
      | Some v => Some v
      | None => if triple_eqb (fst e) t then Some (snd e) else None
      end
  end.

Definition lookup_triple (h : history) (t : triple) : option json :=
  let '(s, c, k) := t in lookup3 h s c k.

(** The entries recorded from a list of history files: those of every file
    that decodes to an object, in the order of the list. *)
Definition recorded (read_json : string -> outcome json) (files : list string)
  : list (triple * json) :=
  flat_map (fun f =>
    match read_json f with Ok raw => file_entries raw | Raise _ => [] end) files.

(** A history file that the loader can go through: it cannot be read, or it
    decodes to an object. *)
Definition loadable (read_json : string -> outcome json) (f : string) : bool :=
  match read_json f with Ok raw => is_dict raw | Raise _ => true end.

(** What one turn of the history loop does to the totals when the loader
    is bound and can go through the file. *)
Definition history_step (read_json : string -> outcome json)
           (acc : history_totals) (f : string) : history_totals :=
  match read_json f with
  | Ok (JObj categories) =>
      let st := fold_left apply_entry (file_entries (JObj categories))
                  (mkstate [] [] 0) in
      mktotals (merge_all (all_history_data acc) (parsed_data st))
               (total_history_items_overall acc + items_in_file st)
               (successfully_processed_history_files acc + 1)
  | _ => acc
  end.

(** What one turn of the other-file loop does to the totals when the
    loader is bound. *)
Definition other_step (read_json : string -> outcome json)
           (acc : other_totals) (f : string) : other_totals :=
  match fst (parse_other_json_file read_json f) with
  | Ok (Some (symbol, det)) =>
      mkother (dict_set String.eqb (all_other_data acc) symbol det)
              (successfully_parsed_other_files acc + 1)
  | _ => acc
  end.

(** Sample directories.  In the first, two history files write the same
    triple and a third cannot be decoded; two other files name the same
    symbol.  In the second, one history file has two keys that differ by a
    space and give the same triple. *)
Definition sample_read_json (p : string) : outcome json :=
  if String.eqb p "a_history.json" then
    Ok (JObj [("close", JObj [("('AAPL', datetime.date(2023, 1, 1))", JFloat 150 0);
                              ("('AAPL', datetime.date(2023, 1, 2))", JFloat 305 (-1))])])
  else if String.eqb p "b_history.json" then
    Ok (JObj [("close", JObj [("('AAPL', datetime.date(2023, 1, 1))", JFloat 151 0)]);
              ("open", JObj [("('MSFT', datetime.date(2023, 1, 1))", JInt 250)])])
  else if String.eqb p "c_history.json" then Raise JSONDecodeError
  else if String.eqb p "info_1.json" then
    Ok (JArr [JArr [JStr "AAPL"; JObj [("name", JStr "Apple")]]])
  else if String.eqb p "info_2.json" then
    Ok (JArr [JArr [JStr "AAPL"; JObj [("name", JStr "Apple Inc.")]]])
  else Raise FileNotFoundError.

Definition twice_read_json (p : string) : outcome json :=
  if String.eqb p "a_history.json" then
    Ok (JObj [("close", JObj [("('AAPL', datetime.date(2023,1,1))", JInt 1);
                              ("('AAPL', datetime.date(2023, 1, 1))", JInt 2)])])
  else Raise FileNotFoundError.

(** A history file whose only key has the empty symbol. *)
Definition empty_symbol_read_json (p : string) : outcome json :=
  if String.eqb p "e_history.json" then
    Ok (JObj [("close", JObj [("('', datetime.date(2023, 1, 1))", JFloat 1 0)])])
  else Raise FileNotFoundError.

(** What the section on the reporter of the specification says: a list is
    shown up to a cap, then only the number of elements left is told. *)
Definition capped {A : Type} (cap : nat) (xs : list A) (show : A -> list line)
           (more : Z -> line) : list line :=
  flat_map show (firstn cap xs)
  ++ (if (cap <? List.length xs)%nat
      then [more (Z.of_nat (List.length xs) - Z.of_nat cap)%Z]
      else []).

Definition value_at (m : by_date) (k : pykey) : json :=
  match dict_get pykey_eqb m k with Some v => v | None => JNull end.

(** The entries of a category in the order [order], two at most. *)
Definition entries_spec (data_type_key : string) (m : by_date)
           (order : list pykey) : list line :=
  capped 2 order (fun k => [EntryLine k (value_at m k)])
         (fun n => MoreEntries n data_type_key).

(** A category: its dates ascending when they can be sorted, else the
    warning and the dates as the dictionary has them. *)
Definition type_spec (cm : string * by_date) : list line :=
  TypeLine (fst cm)
  :: match sorted (dict_keys (snd cm)) with
     | Ok order => entries_spec (fst cm) (snd cm) order
     | Raise _ =>
         CouldNotSort (fst cm)
         :: entries_spec (fst cm) (snd cm) (dict_keys (snd cm))
     end.

Definition symbol_spec (st : string * by_type) : list line :=
  SymbolLine (fst st) :: flat_map type_spec (snd st).

(** The history part of the summary: three symbols at most. *)
Definition history_summary_spec (h : history) : list line :=
  capped 3 h symbol_spec MoreSymbols.

(** What the section on the other-file loader of the specification says:
    the top level is a non-empty list, its first element a list of at least
    two items, the first a string, the second an object; the first check
    that fails is reported. *)
Definition other_spec (file_path : string) (raw_data : json)
  : io (option (string * details)) :=
  match raw_data with
  | JArr (first :: _) =>
      match first with
      | JArr (JStr symbol :: JObj det :: _) => (Ok (Some (symbol, det)), [])
      | JArr (JStr symbol :: _ :: _) => (Ok None, [ErrDetailsNotDict file_path])
      | JArr (_ :: _ :: _) => (Ok None, [ErrSymbolNotStr file_path])
      | _ => (Ok None, [ErrExpectedInnerList file_path])
      end
  | _ => (Ok None, [ErrExpectedList file_path])
  end.

Definition is_date (k : pykey) : bool :=
  match k with KDate _ => true | KStr _ => false end.

(** All the keys of [l] are dates, or all are strings. *)
Definition same_kind (l : list pykey) : Prop :=
  forall a b, In a l -> In b l -> is_date a = is_date b.

(** Ascending order of two keys of one kind: the second is not below the
    first. *)
Definition pykey_le (a b : pykey) : Prop :=
  match a, b with
  | KDate x, KDate y => date_ltb y x = false
  | KStr x, KStr y => String.ltb y x = false
  | _, _ => False
  end.

(* ================================================================== *)
(** * [identify_files]

    The directory is seen through the three calls that the function makes:
    [os.path.isdir], [os.listdir] and [os.path.isfile].  The first and the
    last answer with a boolean and never raise; [os.listdir] gives the
    names of the entries or raises.  Paths are joined as on a POSIX
    system. *)

(** [s.endswith(suffix)] *)
Fixpoint endswith (s suffix : string) : bool :=
  String.eqb s suffix
  || match s with
     | String _ s' => endswith s' suffix
     | EmptyString => false
     end.

(** [b.startswith('/')] *)
Definition starts_with_sep (b : string) : bool :=
  match b with String a _ => Ascii.eqb a "/" | EmptyString => false end.

(** [os.path.join(a, b)]: a second component that starts with the
    separator replaces the first; else the two are put together, with a
    separator unless the first is empty or ends with one. *)
Definition os_path_join (a b : string) : string :=
  if starts_with_sep b then b
  else if String.eqb a "" || endswith a "/" then (a ++ b)%string
  else (a ++ "/" ++ b)%string.

(** The three messages of [identify_files]. *)
Inductive identify_line : Type :=
| ErrIdentifyNoDirectory (directory_path : string)
| ErrIdentifyPathNotFound (directory_path : string)
| ErrIdentifyUnexpected (e : exn).

Section Directory.
Variable isdir : string -> bool.
Variable listdir : string -> outcome (list string).
Variable isfile : string -> bool.

(** The body of the loop over the entries; the two lists are the loop
    state. *)
Definition identify_entry (directory_path : string)
           (acc : list string * list string) (entry : string)
  : list string * list string :=
  let (history_files, other_json_files) := acc in
  let full_path := os_path_join directory_path entry in
  if isfile full_path then
    if endswith entry "_history.json" then
      (history_files ++ [full_path], other_json_files)
    else if endswith entry ".json" then
      (history_files, other_json_files ++ [full_path])
    else acc
  else acc.

(** Inside the [try] only [os.listdir] can raise; [FileNotFoundError] has
    a clause of its own, every other exception goes to the last clause.
    Both clauses return two fresh empty lists. *)
Definition identify_files (directory_path : string)
  : (list string * list string) * list identify_line :=
  if negb (isdir directory_path) then
    (([], []), [ErrIdentifyNoDirectory directory_path])
  else
    match listdir directory_path with
    | Ok entries =>
        (fold_left (identify_entry directory_path) entries ([], []), [])
    | Raise e =>
        if is_FileNotFoundError e then
          (([], []), [ErrIdentifyPathNotFound directory_path])
        else
          (([], []), [ErrIdentifyUnexpected e])
    end.

(** The entries that go to each list. *)
Definition is_history_entry (directory_path entry : string) : bool :=
  isfile (os_path_join directory_path entry)
  && endswith entry "_history.json".

Definition is_other_entry (directory_path entry : string) : bool :=
  isfile (os_path_join directory_path entry)
  && negb (endswith entry "_history.json") && endswith entry ".json".
End Directory.

Definition no_sep (s : string) : bool :=
  str_forall (fun a => negb (Ascii.eqb a "/")) s.

(** A directory with a history file, two other files, a text file and a
    subdirectory whose name ends like a history file. *)
Definition sample_isdir (p : string) : bool :=
  String.eqb p "results" || String.eqb p "results/old_history.json".

Definition sample_listdir (p : string) : outcome (list string) :=
  if String.eqb p "results" then
    Ok ["info_1.json"; "a_history.json"; "notes.txt"; "old_history.json";
        "info_2.json"]
  else Raise FileNotFoundError.

Definition sample_isfile (p : string) : bool :=
  String.eqb p "results/info_1.json" || String.eqb p "results/a_history.json"
  || String.eqb p "results/notes.txt" || String.eqb p "results/info_2.json".

(* ================================================================== *)
(** * Notions used to state what the loaders print and count *)

Definition is_WarnKeySkipped (l : line) : bool :=
  match l with WarnKeySkipped _ _ => true | _ => false end.

Definition is_WarnExpectedDict (l : line) : bool :=
  match l with WarnExpectedDict _ _ => true | _ => false end.

Definition count_lines (p : line -> bool) (out : list line) : nat :=
  List.length (filter p out).

(** The values of a history file that are dictionaries, and the keys that
    these hold: the keys that the loader hands to the parser. *)
Definition dict_categories (categories : list (string * json))
  : list (string * json) :=
  filter (fun kd => is_dict (snd kd)) categories.

Definition offered_keys (categories : list (string * json))
  : list (string * json) :=
  flat_map (fun kd => match snd kd with JObj entries => entries | _ => [] end)
    categories.

(** The lines that the loader prints for a key, for a category and for a
    file: what the parser prints, then the warning when the key is not
    taken; one warning for a category that is no dictionary. *)
Definition entry_lines (file_path : string) (kv : string * json) : list line :=
  snd (parse_datetime_from_string_key (fst kv))
  ++ match accepted_key (fst kv) with
     | Some _ => []
     | None => [WarnKeySkipped (fst kv) file_path]
     end.

Definition category_lines (file_path : string) (kd : string * json)
  : list line :=
  match snd kd with
  | JObj entries => flat_map (entry_lines file_path) entries
  | _ => [WarnExpectedDict (fst kd) file_path]
  end.

(** A history file with a category that is no dictionary, a key with an
    impossible date, a key without date and two keys that are taken. *)
Definition mixed_read_json (p : string) : outcome json :=
  if String.eqb p "m_history.json" then
    Ok (JObj [("close", JObj [("('MSFT', datetime.date(2023, 1, 1))", JFloat 250 0);
                              ("('MSFT', datetime.date(2023, 2, 30))", JFloat 251 0);
                              ("('MSFT', 123)", JInt 7)]);
              ("meta", JStr "daily");
              ("open", JObj [("('AAPL', datetime.date(2023, 1, 1))", JInt 149)])])
  else Raise FileNotFoundError.

(** The lines of the summary for one symbol of the other data: the symbol,
    then the selected fields of [summaryDetail] and of [quoteType] when
    these are bound to dictionaries. *)
Definition detail_lines (details_dict : details) : list line :=
  match dict_get String.eqb details_dict "summaryDetail" with
  | Some (JObj sd) =>
      [SummaryDetailLine;
       PreviousCloseLine (get_or_na sd "previousClose");
       OpenLine (get_or_na sd "open");
       VolumeLine (get_or_na sd "volume")]
  | _ => []
  end
  ++ match dict_get String.eqb details_dict "quoteType" with
     | Some (JObj qt) =>
         [QuoteTypeLine;
          ShortNameLine (get_or_na qt "shortName");
          ExchangeLine (get_or_na qt "exchange")]
     | _ => []
     end.

Definition other_symbol_lines (sd : string * details) : list line :=
  SymbolLine (fst sd) :: detail_lines (snd sd).

(** The innermost keys of a mapping are all dates. *)
Definition keys_are_dates (h : history) : Prop :=
  forall s t c m, In (s, t) h -> In (c, m) t ->
    Forall (fun k => is_date k = true) (dict_keys m).

(** The symbol of a recorded entry. *)
Definition entry_symbol (e : triple * json) : string := fst (fst (fst e)).

(** The different elements of a list in the order in which they first
    appear: what the keys of a dictionary are after assigning to the
    elements one after the other. *)
Definition first_seen_from (l xs : list string) : list string :=
  fold_left (fun l x => set_add x l) xs l.

Definition first_seen (xs : list string) : list string := first_seen_from [] xs.

(* ================================================================== *)
(** * Strings and characters *)

Unset Implicit Arguments.
Local Open Scope string_scope.

Lemma append_nil_r (s : string) : s ++ "" = s.
Proof. induction s as [|a s IH]; simpl; [reflexivity | now rewrite IH]. Qed.

Lemma append_assoc (a b c : string) : (a ++ b) ++ c = a ++ (b ++ c).
Proof. induction a as [|x a IH]; simpl; [reflexivity | now rewrite IH]. Qed.

Lemma str_forall_app (p : ascii -> bool) (a b : string) :
  str_forall p (a ++ b) = str_forall p a && str_forall p b.
Proof.
  induction a as [|x a IH]; simpl; [reflexivity|].
  now rewrite IH, andb_assoc.
Qed.

Lemma quotes_app (a b : string) : quotes (a ++ b) = (quotes a + quotes b)%nat.
Proof. induction a as [|x a IH]; simpl; [reflexivity | rewrite IH; lia]. Qed.

Lemma no_quote_quotes (s : string) : no_quote s = true -> quotes s = O.
Proof.
  unfold no_quote, not_quote.
  induction s as [|a s IH]; simpl; [reflexivity|].
  intros H. apply andb_true_iff in H as [Ha Hs].
  apply negb_true_iff in Ha. rewrite Ha. now rewrite IH.
Qed.

Lemma all_ascii_complete (a : ascii) : In a all_ascii.
Proof.
  unfold all_ascii. rewrite <- (ascii_nat_embedding a).
  apply in_map, in_seq. pose proof (nat_ascii_bounded a). lia.
Qed.

(** A property of characters that holds on the 256 of them holds. *)
Lemma by_cases_on_ascii (P : ascii -> bool) :
  forallb P all_ascii = true -> forall a, P a = true.
Proof.
  intros H a. rewrite forallb_forall in H. apply H, all_ascii_complete.
Qed.

Lemma digit_not_space (a : ascii) : is_digit a = true -> is_space a = false.
Proof.
  intros H.
  pose proof (by_cases_on_ascii (fun a => negb (is_digit a) || negb (is_space a))
                eq_refl a) as C.
  cbv beta in C. rewrite H in C. simpl in C. now apply negb_true_iff.
Qed.

Lemma space_not_digit (a : ascii) : is_space a = true -> is_digit a = false.
Proof.
  intros H. destruct (is_digit a) eqn:E; [|reflexivity].
  apply digit_not_space in E. congruence.
Qed.

Lemma first_in_app (cls : ascii -> bool) (w s : string) :
  first_in cls (w ++ s) =
  match w with EmptyString => first_in cls s | String a _ => cls a end.
Proof. destruct w; reflexivity. Qed.

(** After a run of characters none of which is in [cls], or right at a
    string that does not begin in [cls], nothing begins in [cls]. *)
Lemma first_in_other (cls other : ascii -> bool) (w s : string) :
  (forall a, other a = true -> cls a = false) ->
  str_forall other w = true -> first_in cls s = false ->
  first_in cls (w ++ s) = false.
Proof.
  intros D Hw Hs. rewrite first_in_app. destruct w as [|a w]; [exact Hs|].
  simpl in Hw. apply andb_true_iff in Hw as [Ha _]. now apply D.
Qed.

(* ================================================================== *)
(** * The matcher *)

Lemma re_match_lit (c : ascii) (p : list atom) (s : string) :
  re_match (Lit c :: p) (String c s) = re_match p s.
Proof. simpl. now rewrite Ascii.eqb_refl. Qed.

Lemma re_match_lit_other (c a : ascii) (p : list atom) (s : string) :
  Ascii.eqb a c = false -> re_match (Lit c :: p) (String a s) = None.
Proof. intros H. simpl. now rewrite H. Qed.

Lemma re_match_lit_inv (c : ascii) (p : list atom) (s : string) gs :
  re_match (Lit c :: p) s = Some gs ->
  exists s', s = String c s' /\ re_match p s' = Some gs.
Proof.
  simpl. destruct s as [|a s]; [discriminate|].
  destruct (Ascii.eqb a c) eqn:E; [|discriminate].
  apply Ascii.eqb_eq in E. subst a. intros H. now exists s.
Qed.

Section RepFacts.
Variable A : Type.
Variable cls : ascii -> bool.
Variable k : string -> option A.

(** What a repetition takes is a run of its class within its bounds, and
    the continuation succeeded on the rest. *)
Lemma rep_sound (s : string) : forall lo hi w r,
  rep cls k lo hi s = Some (w, r) ->
  exists s', s = w ++ s' /\ k s' = Some r /\ str_forall cls w = true
             /\ (lo <=? String.length w)%nat = true
             /\ fits hi (String.length w) = true.
Proof.
  induction s as [|a s IH]; intros lo hi w r H; simpl in H.
  - destruct lo; [|discriminate].
    destruct (k "") eqn:E; [|discriminate]. inversion H; subst.
    exists "". repeat split; auto. now destruct hi.
  - assert (Stop :
      match lo with
      | O => match k (String a s) with
             | Some r0 => Some ("", r0) | None => None end
      | S _ => None
      end = Some (w, r) ->
      exists s', String a s = w ++ s' /\ k s' = Some r
                 /\ str_forall cls w = true
                 /\ (lo <=? String.length w)%nat = true
                 /\ fits hi (String.length w) = true).
    { destruct lo; [|discriminate].
      destruct (k (String a s)) eqn:E; [|discriminate].
      intros X; inversion X; subst.
      exists (String a s). repeat split; auto. now destruct hi. }
    destruct (cls a && negb (exhausted hi)) eqn:C; [|now apply Stop].
    destruct (rep cls k (pred lo) (dec_hi hi) s) as [[txt r0]|] eqn:R;
      [|now apply Stop].
    inversion H; subst. apply IH in R as (s' & -> & K & F & L & B).
    apply andb_true_iff in C as [Ca Ch].
    exists s'. simpl. rewrite Ca, F. repeat split; auto.
    + destruct lo; [reflexivity|]. exact L.
    + destruct hi as [[|h]|]; simpl in *; try discriminate; auto.
Qed.

(** When no character of the class can begin what follows, a repetition
    takes the whole run in front of it, or fails. *)
Lemma rep_maximal :
  (forall a s, cls a = true -> k (String a s) = None) ->
  forall w lo hi s',
    str_forall cls w = true -> first_in cls s' = false ->
    rep cls k lo hi (w ++ s') =
    if (lo <=? String.length w)%nat && fits hi (String.length w)
    then match k s' with Some r => Some (w, r) | None => None end
    else None.
Proof.
  intros Hk w. induction w as [|a w IH]; intros lo hi s' Hw Hs.
  - simpl String.length. simpl append.
    assert (F : fits hi 0 = true) by now destruct hi.
    rewrite F, andb_true_r.
    destruct s' as [|b s']; simpl.
    + destruct lo; reflexivity.
    + simpl in Hs. rewrite Hs. simpl. destruct lo; reflexivity.
  - simpl in Hw. apply andb_true_iff in Hw as [Ha Hw].
    simpl append. simpl rep. rewrite Ha. simpl andb.
    destruct (exhausted hi) eqn:E; simpl negb; cbv iota.
    + destruct hi as [[|h]|]; try discriminate. simpl.
      rewrite andb_false_r. destruct lo; [|reflexivity].
      now rewrite Hk.
    + rewrite (IH (pred lo) (dec_hi hi) s' Hw Hs).
      assert (C1 : (pred lo <=? String.length w)%nat
                   = (lo <=? S (String.length w))%nat)
        by (destruct lo; reflexivity).
      assert (C2 : fits (dec_hi hi) (String.length w)
                   = fits hi (S (String.length w)))
        by (destruct hi as [[|h]|]; try discriminate; reflexivity).
      rewrite C1, C2. clear C1 C2. simpl String.length.
      generalize ((lo <=? S (String.length w))%nat
                  && fits hi (S (String.length w))).
      intros [|].
      * destruct (k s') eqn:K; [reflexivity|].
        destruct lo; [|reflexivity]. now rewrite Hk.
      * destruct lo; [|reflexivity]. now rewrite Hk.
Qed.
End RepFacts.

Lemma can_start_false (p : list atom) (a : ascii) (s : string) :
  can_start p a = false -> re_match p (String a s) = None.
Proof.
  revert a s. induction p as [|[c|cls lo hi cap] p IH]; intros a s H.
  - discriminate.
  - simpl in H. now apply re_match_lit_other.
  - simpl in H. apply orb_false_iff in H as [H1 H2].
    simpl. rewrite H1.
    destruct lo; [|reflexivity]. now rewrite IH.
Qed.

Lemma follow_ok_spec (cls : ascii -> bool) (p : list atom) :
  follow_ok cls p = true ->
  forall a s, cls a = true -> re_match p (String a s) = None.
Proof.
  intros F a s Ha. apply can_start_false.
  pose proof (by_cases_on_ascii _ F a) as C. cbv beta in C.
  rewrite Ha in C. simpl in C. now apply negb_true_iff.
Qed.

(** One step of the matcher at a repetition that takes the run [w]. *)
Lemma re_match_rep (cls : ascii -> bool) lo hi cap (p : list atom) (w s' : string) :
  follow_ok cls p = true ->
  str_forall cls w = true -> first_in cls s' = false ->
  re_match (Rep cls lo hi cap :: p) (w ++ s') =
  if (lo <=? String.length w)%nat && fits hi (String.length w)
  then match re_match p s' with
       | Some gs => Some (if cap then w :: gs else gs)
       | None => None
       end
  else None.
Proof.
  intros F Hw Hs. simpl.
  rewrite (rep_maximal _ cls (re_match p) (follow_ok_spec cls p F) w lo hi s' Hw Hs).
  destruct ((lo <=? String.length w)%nat && fits hi (String.length w));
    [|reflexivity].
  now destruct (re_match p s').
Qed.

(** The same step for a run of spaces, which is never captured and has no
    bounds. *)
Lemma re_match_ws (p : list atom) (w s' : string) :
  follow_ok is_space p = true ->
  all_spaces w = true -> first_in is_space s' = false ->
  re_match (ws :: p) (w ++ s') = re_match p s'.
Proof.
  intros F Hw Hs. unfold ws. rewrite re_match_rep by assumption.
  simpl. now destruct (re_match p s').
Qed.

Lemma re_match_ws_none (p : list atom) (s' : string) :
  follow_ok is_space p = true -> first_in is_space s' = false ->
  re_match (ws :: p) s' = re_match p s'.
Proof. intros F Hs. now apply (re_match_ws p "" s'). Qed.

(* ================================================================== *)
(** * The pattern of the key parser, piece by piece *)

Lemma pattern_head :
  pattern =
  Lit "(" :: ws :: Lit "'" :: Rep not_quote 0 None true :: Lit "'" :: after_symbol.
Proof. reflexivity. Qed.

Lemma after_symbol_eq :
  after_symbol =
  ws :: Lit "," :: ws :: lits "datetime.date" ++ ws :: Lit "(" :: ws :: year_on.
Proof. reflexivity. Qed.

Lemma year_on_eq :
  year_on = Rep is_digit 4 (Some 4%nat) true :: ws :: Lit "," :: ws :: month_on.
Proof. reflexivity. Qed.

Lemma month_on_eq :
  month_on = Rep is_digit 1 (Some 2%nat) true :: ws :: Lit "," :: ws :: day_on.
Proof. reflexivity. Qed.

Lemma day_on_eq :
  day_on = [Rep is_digit 1 (Some 2%nat) true; ws; Lit ")"; ws; Lit ")"].
Proof. reflexivity. Qed.

(** Side conditions of a step: the follow check by evaluation, the class of
    a run from the context, the first character by evaluation or because a
    run of spaces or a digit cannot begin in the other class. *)
Ltac first_char :=
  solve
    [ reflexivity
    | assumption
    | simpl; assumption
    | apply first_in_other with (other := is_space);
      [exact space_not_digit | assumption | first_char]
    | apply first_in_other with (other := is_digit);
      [exact digit_not_space | assumption | first_char ] ].

Ltac side :=
  solve [ vm_compute; reflexivity | assumption | first_char ].

Lemma head_match (w1 symbol t : string) :
  all_spaces w1 = true -> no_quote symbol = true ->
  re_match pattern (String "(" (w1 ++ String "'" (symbol ++ String "'" t))) =
  match re_match after_symbol t with
  | Some gs => Some (symbol :: gs)
  | None => None
  end.
Proof.
  intros H1 Hs. rewrite pattern_head, re_match_lit.
  rewrite re_match_ws by side. rewrite re_match_lit.
  rewrite re_match_rep by side. simpl andb. cbv iota.
  rewrite re_match_lit. reflexivity.
Qed.

Lemma after_symbol_match (w2 w3 w4 w5 t : string) :
  all_spaces w2 = true -> all_spaces w3 = true ->
  all_spaces w4 = true -> all_spaces w5 = true ->
  first_in is_space t = false ->
  re_match after_symbol
    (w2 ++ String "," (w3 ++ "datetime.date" ++ w4 ++ String "(" (w5 ++ t))) =
  re_match year_on t.
Proof.
  intros H2 H3 H4 H5 Ht. rewrite after_symbol_eq.
  rewrite re_match_ws by side. rewrite re_match_lit.
  rewrite re_match_ws by side.
  cbn [lits app append]. rewrite !re_match_lit.
  rewrite re_match_ws by side. rewrite re_match_lit.
  rewrite re_match_ws by side. reflexivity.
Qed.

Lemma year_on_match (ys w6 w7 t : string) :
  all_digits ys = true -> all_spaces w6 = true -> all_spaces w7 = true ->
  first_in is_space t = false ->
  re_match year_on (ys ++ w6 ++ String "," (w7 ++ t)) =
  if in_bounds 4 4 (String.length ys)
  then match re_match month_on t with
       | Some gs => Some (ys :: gs)
       | None => None
       end
  else None.
Proof.
  intros Hy H6 H7 Ht. rewrite year_on_eq.
  rewrite re_match_rep by side. unfold in_bounds, fits.
  destruct ((4 <=? String.length ys)%nat && (String.length ys <=? 4)%nat);
    [|reflexivity].
  rewrite re_match_ws by side. rewrite re_match_lit.
  rewrite re_match_ws by side. reflexivity.
Qed.

Lemma month_on_match (ms w8 w9 t : string) :
  all_digits ms = true -> all_spaces w8 = true -> all_spaces w9 = true ->
  first_in is_space t = false ->
  re_match month_on (ms ++ w8 ++ String "," (w9 ++ t)) =
  if in_bounds 1 2 (String.length ms)
  then match re_match day_on t with
       | Some gs => Some (ms :: gs)
       | None => None
       end
  else None.
Proof.
  intros Hm H8 H9 Ht. rewrite month_on_eq.
  rewrite re_match_rep by side. unfold in_bounds, fits.
  destruct ((1 <=? String.length ms)%nat && (String.length ms <=? 2)%nat);
    [|reflexivity].
  rewrite re_match_ws by side. rewrite re_match_lit.
  rewrite re_match_ws by side. reflexivity.
Qed.

Lemma day_on_match (ds w10 w11 post : string) :
  all_digits ds = true -> all_spaces w10 = true -> all_spaces w11 = true ->
  re_match day_on (ds ++ w10 ++ String ")" (w11 ++ String ")" post)) =
  if in_bounds 1 2 (String.length ds) then Some [ds] else None.
Proof.
  intros Hd H10 H11. rewrite day_on_eq.
  rewrite re_match_rep by side. unfold in_bounds, fits.
  destruct ((1 <=? String.length ds)%nat && (String.length ds <=? 2)%nat);
    [|reflexivity].
  rewrite re_match_ws by side. rewrite re_match_lit.
  rewrite re_match_ws by side. rewrite re_match_lit. reflexivity.
Qed.

(** Where a number is due, a run of digits, then spaces, then a character
    that is neither a digit, nor a space, nor the separator that the
    pattern wants next, ends the match. *)
Lemma year_on_bad (ds w : string) (b : ascii) (rest : string) :
  all_digits ds = true -> all_spaces w = true ->
  is_digit b = false -> is_space b = false -> Ascii.eqb b "," = false ->
  re_match year_on (ds ++ w ++ String b rest) = None.
Proof.
  intros Hd Hw Hb Hs Hc. rewrite year_on_eq.
  rewrite re_match_rep by side.
  destruct ((4 <=? String.length ds)%nat && fits (Some 4%nat) (String.length ds));
    [|reflexivity].
  rewrite re_match_ws by side.
  now rewrite re_match_lit_other.
Qed.

Lemma month_on_bad (ds w : string) (b : ascii) (rest : string) :
  all_digits ds = true -> all_spaces w = true ->
  is_digit b = false -> is_space b = false -> Ascii.eqb b "," = false ->
  re_match month_on (ds ++ w ++ String b rest) = None.
Proof.
  intros Hd Hw Hb Hs Hc. rewrite month_on_eq.
  rewrite re_match_rep by side.
  destruct ((1 <=? String.length ds)%nat && fits (Some 2%nat) (String.length ds));
    [|reflexivity].
  rewrite re_match_ws by side.
  now rewrite re_match_lit_other.
Qed.

Lemma day_on_bad (ds w : string) (b : ascii) (rest : string) :
  all_digits ds = true -> all_spaces w = true ->
  is_digit b = false -> is_space b = false -> Ascii.eqb b ")" = false ->
  re_match day_on (ds ++ w ++ String b rest) = None.
Proof.
  intros Hd Hw Hb Hs Hc. rewrite day_on_eq.
  rewrite re_match_rep by side.
  destruct ((1 <=? String.length ds)%nat && fits (Some 2%nat) (String.length ds));
    [|reflexivity].
  rewrite re_match_ws by side.
  now rewrite re_match_lit_other.
Qed.

(** The same with spaces in front, which the pattern allows before each
    number. *)
Lemma ws_number_bad (p : list atom) (w1 dg w2 : string) (c : ascii)
      (rest : string) :
  follow_ok is_space p = true ->
  (forall ds w, all_digits ds = true -> all_spaces w = true ->
     re_match p (ds ++ w ++ String c rest) = None) ->
  all_spaces w1 = true -> all_digits dg = true -> all_spaces w2 = true ->
  is_space c = false ->
  re_match (ws :: p) (w1 ++ dg ++ w2 ++ String c rest) = None.
Proof.
  intros F Bad H1 Hd H2 Hc. destruct dg as [|d dg].
  - change (w1 ++ "" ++ w2 ++ String c rest) with (w1 ++ w2 ++ String c rest).
    rewrite <- append_assoc. rewrite re_match_ws.
    + exact (Bad "" "" eq_refl eq_refl).
    + exact F.
    + unfold all_spaces in *. now rewrite str_forall_app, H1, H2.
    + exact Hc.
  - rewrite re_match_ws.
    + now apply Bad.
    + exact F.
    + exact H1.
    + simpl in Hd. apply andb_true_iff in Hd as [Dd _].
      simpl. now apply digit_not_space.
Qed.

(* ------------------------------------------------------------------ *)
(** ** Searching *)

Lemma re_search_eq (p : list atom) (s : string) :
  re_search p s =
  match re_match p s with
  | Some gs => Some gs
  | None => match s with
            | String _ s' => re_search p s'
            | EmptyString => None
            end
  end.
Proof. destruct s; reflexivity. Qed.

Lemma search_hit (p : list atom) (s : string) gs :
  re_match p s = Some gs -> re_search p s = Some gs.
Proof. intros H. rewrite re_search_eq. now rewrite H. Qed.

(** Text without an opening parenthesis in front of a key is passed over. *)
Lemma search_skip (pre s : string) :
  no_paren pre = true -> re_search pattern (pre ++ s) = re_search pattern s.
Proof.
  induction pre as [|a pre IH]; intros H; [reflexivity|].
  simpl in H. apply andb_true_iff in H as [Ha Hp].
  apply negb_true_iff in Ha.
  simpl append. rewrite re_search_eq.
  rewrite pattern_head at 1. rewrite re_match_lit_other by assumption.
  now apply IH.
Qed.

(** A match holds the two quotes around the symbol. *)
Lemma match_two_quotes (s : string) gs :
  re_match pattern s = Some gs -> (2 <= quotes s)%nat.
Proof.
  rewrite pattern_head. intros H.
  apply re_match_lit_inv in H as (s1 & -> & H).
  simpl in H.
  destruct (rep is_space _ 0 None s1) as [[w r]|] eqn:R; [|discriminate].
  apply rep_sound in R as (s2 & -> & K & _).
  destruct s2 as [|a s2]; [discriminate|].
  destruct (Ascii.eqb a "'") eqn:Ea; [|discriminate].
  destruct (rep not_quote _ 0 None s2) as [[w' r']|] eqn:R'; [|discriminate].
  apply rep_sound in R' as (s3 & -> & K' & _).
  destruct s3 as [|b s3]; [discriminate|].
  destruct (Ascii.eqb b "'") eqn:Eb; [|discriminate].
  simpl. rewrite quotes_app. simpl. rewrite Ea. rewrite quotes_app. simpl.
  rewrite Eb. lia.
Qed.

Lemma search_few_quotes (s : string) :
  (quotes s < 2)%nat -> re_search pattern s = None.
Proof.
  induction s as [|a s IH]; intros H; rewrite re_search_eq.
  - destruct (re_match pattern "") eqn:E; [|reflexivity].
    apply match_two_quotes in E. simpl in E. lia.
  - destruct (re_match pattern (String a s)) eqn:E.
    + apply match_two_quotes in E. lia.
    + apply IH. simpl in H. lia.
Qed.

(** In a key that opens with the parenthesis and the quoted symbol and has
    no further quote, only the first position can match. *)
Lemma search_at_front (symbol t : string) :
  no_quote symbol = true -> quotes t = O ->
  re_search pattern (String "(" (String "'" (symbol ++ String "'" t))) =
  re_match pattern (String "(" (String "'" (symbol ++ String "'" t))).
Proof.
  intros Hs Ht. rewrite re_search_eq.
  destruct (re_match pattern (String "(" _)); [reflexivity|].
  rewrite re_search_eq. rewrite pattern_head at 1.
  rewrite re_match_lit_other by reflexivity.
  apply search_few_quotes. rewrite quotes_app. simpl.
  rewrite (no_quote_quotes _ Hs), Ht. lia.
Qed.

(* ------------------------------------------------------------------ *)
(** ** Keys with free spacing, keys as Python writes them *)

Lemma quotes_digits (s : string) : all_digits s = true -> quotes s = O.
Proof.
  unfold all_digits. induction s as [|a s IH]; simpl; [reflexivity|].
  intros H. apply andb_true_iff in H as [Ha Hs].
  destruct (Ascii.eqb a "'") eqn:E.
  - apply Ascii.eqb_eq in E. subst a. discriminate.
  - now rewrite IH.
Qed.

Lemma digits_first (s t : string) :
  all_digits s = true -> (1 <=? String.length s)%nat = true ->
  first_in is_space (s ++ t) = false.
Proof.
  intros H L. destruct s as [|a s]; [discriminate|].
  simpl in H. apply andb_true_iff in H as [Ha _].
  simpl. now apply digit_not_space.
Qed.

Lemma in_bounds_nonempty lo hi n :
  in_bounds (S lo) hi n = true -> (1 <=? n)%nat = true.
Proof.
  unfold in_bounds. intros H. apply andb_true_iff in H as [H _].
  apply Nat.leb_le in H. apply Nat.leb_le. lia.
Qed.

(** The pattern matches the pair wherever the spacing puts it, whatever
    stands before (without parenthesis) and after. *)
Lemma search_spaced_pair (pre : string) (w : spacing) (symbol ys ms ds post : string) :
  no_paren pre = true -> spaces_only w = true -> no_quote symbol = true ->
  all_digits ys = true -> all_digits ms = true -> all_digits ds = true ->
  in_bounds 4 4 (String.length ys) = true ->
  in_bounds 1 2 (String.length ms) = true ->
  in_bounds 1 2 (String.length ds) = true ->
  re_search pattern (pre ++ spaced_pair w symbol ys ms ds post) =
  Some [symbol; ys; ms; ds].
Proof.
  intros Hpre Hw Hs Hy Hm Hd By Bm Bd.
  unfold spaces_only in Hw.
  repeat (apply andb_true_iff in Hw as [Hw ?]).
  rewrite search_skip by assumption. apply search_hit.
  unfold spaced_pair.
  rewrite head_match by assumption.
  rewrite after_symbol_match;
    try assumption; [|apply digits_first; eauto using in_bounds_nonempty].
  rewrite year_on_match;
    try assumption; [|apply digits_first; eauto using in_bounds_nonempty].
  rewrite By.
  rewrite month_on_match;
    try assumption; [|apply digits_first; eauto using in_bounds_nonempty].
  rewrite Bm.
  rewrite day_on_match by assumption.
  rewrite Bd. reflexivity.
Qed.

Lemma key_text_spaced (symbol ys ms ds : string) :
  key_text symbol ys ms ds = spaced_pair python_spacing symbol ys ms ds "".
Proof. reflexivity. Qed.

(** A key that opens as Python writes it, up to the parenthesis of the
    date: the search is decided by what follows. *)
Lemma key_front (symbol t : string) :
  no_quote symbol = true -> first_in is_space t = false -> quotes t = O ->
  re_search pattern ("('" ++ symbol ++ "', datetime.date(" ++ t) =
  match re_match year_on t with
  | Some gs => Some (symbol :: gs)
  | None => None
  end.
Proof.
  intros Hs Ht Hq.
  change ("('" ++ symbol ++ "', datetime.date(" ++ t)
    with (String "(" (String "'" (symbol ++ String "'"
            (", datetime.date(" ++ t)))).
  rewrite search_at_front; [|assumption|exact Hq].
  change (String "(" (String "'" (symbol ++ String "'" (", datetime.date(" ++ t))))
    with (String "(" ("" ++ String "'" (symbol ++ String "'"
            ("" ++ String "," (" " ++ "datetime.date" ++ ""
               ++ String "(" ("" ++ t)))))).
  rewrite head_match by (reflexivity || assumption).
  rewrite after_symbol_match by (reflexivity || assumption).
  reflexivity.
Qed.

Lemma year_step (ys rest : string) :
  all_digits ys = true -> first_in is_space rest = false ->
  re_match year_on (ys ++ ", " ++ rest) =
  if in_bounds 4 4 (String.length ys)
  then match re_match month_on rest with
       | Some gs => Some (ys :: gs)
       | None => None
       end
  else None.
Proof.
  intros Hy Hr.
  change (ys ++ ", " ++ rest) with (ys ++ "" ++ String "," (" " ++ rest)).
  now apply year_on_match.
Qed.

Lemma month_step (ms rest : string) :
  all_digits ms = true -> first_in is_space rest = false ->
  re_match month_on (ms ++ ", " ++ rest) =
  if in_bounds 1 2 (String.length ms)
  then match re_match day_on rest with
       | Some gs => Some (ms :: gs)
       | None => None
       end
  else None.
Proof.
  intros Hm Hr.
  change (ms ++ ", " ++ rest) with (ms ++ "" ++ String "," (" " ++ rest)).
  now apply month_on_match.
Qed.

Lemma day_step (ds : string) :
  all_digits ds = true ->
  re_match day_on (ds ++ "))") =
  if in_bounds 1 2 (String.length ds) then Some [ds] else None.
Proof.
  intros Hd.
  change (ds ++ "))") with (ds ++ "" ++ String ")" ("" ++ String ")" "")).
  now apply day_on_match.
Qed.

Lemma digits_then_first (s : string) (c : ascii) (r : string) :
  all_digits s = true -> is_space c = false ->
  first_in is_space (s ++ String c r) = false.
Proof.
  intros H Hc. apply first_in_other with (other := is_digit);
    [exact digit_not_space | assumption | exact Hc].
Qed.

(** The search on a key whose three slots hold runs of digits: the lengths
    of the runs decide. *)
Lemma key_text_search (symbol ys ms ds : string) :
  no_quote symbol = true ->
  all_digits ys = true -> all_digits ms = true -> all_digits ds = true ->
  re_search pattern (key_text symbol ys ms ds) =
  if in_bounds 4 4 (String.length ys) && in_bounds 1 2 (String.length ms)
     && in_bounds 1 2 (String.length ds)
  then Some [symbol; ys; ms; ds] else None.
Proof.
  intros Hs Hy Hm Hd. unfold key_text.
  rewrite key_front; [|assumption| |].
  - rewrite year_step; [|assumption|now apply digits_then_first].
    destruct (in_bounds 4 4 (String.length ys)); [|reflexivity].
    rewrite month_step; [|assumption|now apply digits_then_first].
    destruct (in_bounds 1 2 (String.length ms)); [|reflexivity].
    rewrite day_step by assumption.
    destruct (in_bounds 1 2 (String.length ds)); reflexivity.
  - now apply digits_then_first.
  - rewrite !quotes_app.
    rewrite (quotes_digits _ Hy), (quotes_digits _ Hm), (quotes_digits _ Hd).
    reflexivity.
Qed.

(* ================================================================== *)
(** * Numbers and their digits *)

Local Open Scope Z_scope.

Lemma digit_char_is_digit (r : Z) : 0 <= r < 10 -> is_digit (digit_char r) = true.
Proof.
  intros H.
  assert (C : r = 0 \/ r = 1 \/ r = 2 \/ r = 3 \/ r = 4 \/ r = 5 \/ r = 6
              \/ r = 7 \/ r = 8 \/ r = 9) by lia.
  repeat (destruct C as [-> | C]; [reflexivity|]). now subst.
Qed.

Lemma digit_value_char (r : Z) : 0 <= r < 10 -> digit_value (digit_char r) = r.
Proof.
  intros H.
  assert (C : r = 0 \/ r = 1 \/ r = 2 \/ r = 3 \/ r = 4 \/ r = 5 \/ r = 6
              \/ r = 7 \/ r = 8 \/ r = 9) by lia.
  repeat (destruct C as [-> | C]; [reflexivity|]). now subst.
Qed.

Lemma int_digits_app (a : Z) (s t : string) :
  int_digits a (s ++ t) = int_digits (int_digits a s) t.
Proof. revert a. induction s as [|c s IH]; intros a; simpl; [reflexivity|apply IH]. Qed.

Lemma digits_fuel_acc (f : nat) : forall n acc,
  digits_fuel f n acc = (digits_fuel f n "" ++ acc)%string.
Proof.
  induction f as [|f IH]; intros n acc; simpl; [reflexivity|].
  destruct (n <? 10); [reflexivity|].
  rewrite (IH _ (String _ acc)), (IH _ (String _ "")).
  now rewrite append_assoc.
Qed.

(** With fuel for all its digits, a number is written the same whatever the
    fuel. *)
Lemma digits_fuel_enough (f1 : nat) : forall f2 n acc,
  0 <= n -> n < 10 ^ Z.of_nat (S f1) -> n < 10 ^ Z.of_nat (S f2) ->
  digits_fuel (S f1) n acc = digits_fuel (S f2) n acc.
Proof.
  induction f1 as [|f1 IH]; intros f2 n acc Hn H1 H2.
  - change (10 ^ Z.of_nat 1) with 10 in H1.
    apply Z.ltb_lt in H1. simpl. now rewrite H1.
  - cbn [digits_fuel]. destruct (Z.ltb_spec n 10) as [L|L]; [reflexivity|].
    destruct f2 as [|f2]; [change (10 ^ Z.of_nat 1) with 10 in H2; lia|].
    rewrite Nat2Z.inj_succ, Z.pow_succ_r in H1, H2 by lia.
    apply IH.
    + apply Z.div_pos; lia.
    + apply Z.div_lt_upper_bound; lia.
    + apply Z.div_lt_upper_bound; lia.
Qed.

Lemma lt_pow10_succ (n : Z) : 0 <= n -> n < 10 ^ Z.of_nat (S (Z.to_nat n)).
Proof.
  intros Hn. rewrite Nat2Z.inj_succ, Z2Nat.id by lia.
  pose proof (Z.pow_gt_lin_r 10 (Z.succ n)). lia.
Qed.

Lemma py_str_int_fuel (f : nat) (n : Z) :
  0 <= n -> n < 10 ^ Z.of_nat (S f) -> py_str_int n = digits_fuel (S f) n "".
Proof.
  intros Hn Hf. unfold py_str_int.
  apply digits_fuel_enough; auto using lt_pow10_succ.
Qed.

Lemma digits_fuel_digits (f : nat) : forall n,
  0 <= n -> all_digits (digits_fuel f n "") = true.
Proof.
  induction f as [|f IH]; intros n Hn; simpl; [reflexivity|].
  assert (D : is_digit (digit_char (n mod 10)) = true)
    by (apply digit_char_is_digit, Z.mod_pos_bound; lia).
  destruct (n <? 10).
  - unfold all_digits. simpl. now rewrite D.
  - rewrite digits_fuel_acc. unfold all_digits.
    rewrite str_forall_app. simpl. rewrite D.
    fold (all_digits (digits_fuel f (n / 10) "")).
    rewrite IH by (apply Z.div_pos; lia). reflexivity.
Qed.

Lemma digits_fuel_value (f : nat) : forall n,
  0 <= n -> n < 10 ^ Z.of_nat f -> int_digits 0 (digits_fuel f n "") = n.
Proof.
  induction f as [|f IH]; intros n Hn Hf.
  - simpl in *. lia.
  - simpl. destruct (Z.ltb_spec n 10) as [L|L].
    + simpl. rewrite Z.mod_small by lia. rewrite digit_value_char by lia. lia.
    + rewrite digits_fuel_acc, int_digits_app. cbn [int_digits].
      rewrite Nat2Z.inj_succ, Z.pow_succ_r in Hf by lia.
      rewrite IH; [| apply Z.div_pos; lia | apply Z.div_lt_upper_bound; lia].
      rewrite digit_value_char by (apply Z.mod_pos_bound; lia).
      pose proof (Z.div_mod n 10). lia.
Qed.

(** The number of digits of a number between [10 ^ k] and [10 ^ (k + 1)]. *)
Lemma digits_fuel_length (f : nat) : forall n k,
  10 ^ Z.of_nat k <= n -> n < 10 ^ Z.of_nat (S k) -> (k < f)%nat ->
  String.length (digits_fuel f n "") = S k.
Proof.
  induction f as [|f IH]; intros n k Lo Hi Hk; [lia|].
  assert (P : 0 < 10 ^ Z.of_nat k) by (apply Z.pow_pos_nonneg; lia).
  simpl. destruct (Z.ltb_spec n 10) as [L|L].
  - destruct k as [|k]; [reflexivity|].
    rewrite Nat2Z.inj_succ, Z.pow_succ_r in Lo by lia.
    assert (0 < 10 ^ Z.of_nat k) by (apply Z.pow_pos_nonneg; lia). lia.
  - destruct k as [|k].
    + simpl in Hi. lia.
    + rewrite digits_fuel_acc.
      assert (E : forall a b, String.length (a ++ b)
                              = (String.length a + String.length b)%nat).
      { intros a b. induction a as [|x a IHa]; simpl; [reflexivity|].
        now rewrite IHa. }
      rewrite E. simpl String.length.
      rewrite (IH (n / 10) k); [lia | | | lia].
      * rewrite Nat2Z.inj_succ, Z.pow_succ_r in Lo by lia.
        apply Z.div_le_lower_bound; lia.
      * rewrite (Nat2Z.inj_succ (S k)), Z.pow_succ_r in Hi by lia.
        apply Z.div_lt_upper_bound; lia.
Qed.

Lemma py_str_int_digits (n : Z) : 0 <= n -> all_digits (py_str_int n) = true.
Proof. intros H. now apply digits_fuel_digits. Qed.

Lemma py_str_int_value (n : Z) : 0 <= n -> int_digits 0 (py_str_int n) = n.
Proof. intros H. apply digits_fuel_value; auto using lt_pow10_succ. Qed.

Lemma py_str_int_length (n : Z) (k : nat) :
  10 ^ Z.of_nat k <= n -> n < 10 ^ Z.of_nat (S k) ->
  String.length (py_str_int n) = S k.
Proof.
  intros Lo Hi.
  assert (0 < 10 ^ Z.of_nat k) by (apply Z.pow_pos_nonneg; lia).
  rewrite (py_str_int_fuel k) by lia.
  apply digits_fuel_length; auto.
Qed.

Lemma year_has_four_digits (y : Z) :
  1000 <= y <= 9999 -> in_bounds 4 4 (String.length (py_str_int y)) = true.
Proof.
  intros H. rewrite (py_str_int_length y 3); [reflexivity| |];
    change (10 ^ Z.of_nat 3) with 1000 || change (10 ^ Z.of_nat 4) with 10000;
    lia.
Qed.

Lemma small_has_one_or_two_digits (n : Z) :
  0 <= n <= 99 -> in_bounds 1 2 (String.length (py_str_int n)) = true.
Proof.
  intros H. destruct (Z.ltb_spec n 10) as [L|L].
  - rewrite (py_str_int_fuel 0) by (change (10 ^ Z.of_nat 1) with 10; lia).
    simpl. apply Z.ltb_lt in L. now rewrite L.
  - rewrite (py_str_int_length n 1); [reflexivity| |];
      change (10 ^ Z.of_nat 1) with 10 || change (10 ^ Z.of_nat 2) with 100;
      lia.
Qed.

Lemma days_in_month_le (y m : Z) : days_in_month y m <= 31.
Proof.
  unfold days_in_month.
  destruct ((m =? 2) && is_leap y); [lia|].
  destruct (Z.to_nat m) as [|[|[|[|[|[|[|[|[|[|[|[|[|k]]]]]]]]]]]]]; simpl; try lia.
  destruct k; simpl; lia.
Qed.

Lemma check_date_fields_bounds (y m d : Z) :
  check_date_fields y m d = true ->
  1 <= y <= 9999 /\ 1 <= m <= 12 /\ 1 <= d <= 31.
Proof.
  unfold check_date_fields, MINYEAR, MAXYEAR. intros H.
  repeat (apply andb_true_iff in H as [H ?]).
  pose proof (days_in_month_le y m). lia.
Qed.

(* ================================================================== *)
(** * The key parser *)

Local Open Scope string_scope.

Lemma py_int_digits (s : string) :
  all_digits s = true -> (1 <=? String.length s)%nat = true ->
  py_int s = Ok (int_digits 0 s).
Proof.
  destruct s as [|a s]; [discriminate|]. intros H _.
  unfold py_int. unfold all_digits in H. now rewrite H.
Qed.

Lemma py_int_outcome (s : string) :
  py_int s = Raise ValueError \/ exists z, py_int s = Ok z.
Proof.
  unfold py_int. destruct s as [|a s]; [now left|].
  destruct (str_forall is_digit (String a s)); [right; eauto | now left].
Qed.

Lemma parse_no_match (s : string) :
  re_search pattern s = None ->
  parse_datetime_from_string_key s = (Ok (None, None), []).
Proof. intros H. unfold parse_datetime_from_string_key. now rewrite H. Qed.

(** What the parser makes of the four groups of a match. *)
Lemma parse_match (s : string) (gs : list string) (y m d : Z) :
  re_search pattern s = Some gs ->
  py_int (group gs 2) = Ok y -> py_int (group gs 3) = Ok m ->
  py_int (group gs 4) = Ok d ->
  parse_datetime_from_string_key s =
  if check_date_fields y m d
  then (Ok (Some (group gs 1), Some (mkdate y m d)), [])
  else (Ok (None, None),
        [ErrDateComponents s (group gs 2) (group gs 3) (group gs 4)]).
Proof.
  intros H Hy Hm Hd. unfold parse_datetime_from_string_key.
  rewrite H, Hy, Hm, Hd. unfold datetime_date. cbn [lift bind].
  destruct (check_date_fields y m d); reflexivity.
Qed.

Lemma parse_groups (s symbol ys ms ds : string) :
  re_search pattern s = Some [symbol; ys; ms; ds] ->
  all_digits ys = true -> all_digits ms = true -> all_digits ds = true ->
  in_bounds 4 4 (String.length ys) = true ->
  in_bounds 1 2 (String.length ms) = true ->
  in_bounds 1 2 (String.length ds) = true ->
  parse_datetime_from_string_key s =
  if check_date_fields (int_digits 0 ys) (int_digits 0 ms) (int_digits 0 ds)
  then (Ok (Some symbol,
            Some (mkdate (int_digits 0 ys) (int_digits 0 ms) (int_digits 0 ds))),
        [])
  else (Ok (None, None), [ErrDateComponents s ys ms ds]).
Proof.
  intros H Hy Hm Hd By Bm Bd.
  apply (parse_match s _ _ _ _ H); unfold group; simpl nth;
    apply py_int_digits; eauto using in_bounds_nonempty.
Qed.

(** The parser answers with both components or with none, whatever the
    key, and a date it returns passed the checks of the constructor. *)
Lemma parser_outcome (s : string) :
  exists out,
    parse_datetime_from_string_key s = (Ok (None, None), out)
    \/ exists symbol dt,
         parse_datetime_from_string_key s = (Ok (Some symbol, Some dt), out)
         /\ check_date_fields (year dt) (month dt) (day dt) = true.
Proof.
  unfold parse_datetime_from_string_key.
  destruct (re_search pattern s) as [gs|]; [|exists []; now left].
  destruct (py_int_outcome (group gs 2)) as [-> | [y ->]];
    [eexists; left; reflexivity|].
  destruct (py_int_outcome (group gs 3)) as [-> | [m ->]];
    [eexists; left; reflexivity|].
  destruct (py_int_outcome (group gs 4)) as [-> | [d ->]];
    [eexists; left; reflexivity|].
  unfold datetime_date. cbn [lift bind].
  destruct (check_date_fields y m d) eqn:C.
  - exists []. right. exists (group gs 1), (mkdate y m d).
    split; [reflexivity | exact C].
  - eexists. left. reflexivity.
Qed.

(** A key that lacks one of the three integers. *)
Lemma two_components_no_match (symbol a b : string) :
  no_quote symbol = true -> all_digits a = true -> all_digits b = true ->
  re_search pattern ("('" ++ symbol ++ "', datetime.date(" ++ a ++ ", " ++ b ++ "))")
  = None.
Proof.
  intros Hs Ha Hb. rewrite key_front; [|assumption| |].
  - rewrite year_step; [|assumption|now apply digits_then_first].
    destruct (in_bounds 4 4 (String.length a)); [|reflexivity].
    change (b ++ "))") with (b ++ "" ++ String ")" ")").
    now rewrite month_on_bad.
  - now apply digits_then_first.
  - rewrite !quotes_app, (quotes_digits _ Ha), (quotes_digits _ Hb). reflexivity.
Qed.

Lemma non_numeric_spec (c : ascii) :
  non_numeric c = true ->
  is_digit c = false /\ is_space c = false /\ Ascii.eqb c "," = false
  /\ Ascii.eqb c ")" = false /\ Ascii.eqb c "'" = false.
Proof.
  unfold non_numeric. intros H.
  repeat (apply andb_true_iff in H as [H ?]).
  repeat split; now apply negb_true_iff.
Qed.

Lemma quotes_spaces (s : string) : all_spaces s = true -> quotes s = O.
Proof.
  unfold all_spaces. induction s as [|a s IH]; simpl; [reflexivity|].
  intros H. apply andb_true_iff in H as [Ha Hs].
  destruct (Ascii.eqb a "'") eqn:E.
  - apply Ascii.eqb_eq in E. subst a. discriminate.
  - now rewrite IH.
Qed.

Lemma after_symbol_open (w2 w3 w4 t : string) :
  all_spaces w2 = true -> all_spaces w3 = true -> all_spaces w4 = true ->
  re_match after_symbol
    (w2 ++ String "," (w3 ++ "datetime.date" ++ w4 ++ String "(" t)) =
  re_match (ws :: year_on) t.
Proof.
  intros H2 H3 H4. rewrite after_symbol_eq.
  rewrite re_match_ws by side. rewrite re_match_lit.
  rewrite re_match_ws by side.
  cbn [lits app append]. rewrite !re_match_lit.
  rewrite re_match_ws by side. rewrite re_match_lit. reflexivity.
Qed.

(** As [key_front], for any text after the parenthesis of the date. *)
Lemma key_open (symbol t : string) :
  no_quote symbol = true -> quotes t = O ->
  re_search pattern ("('" ++ symbol ++ "', datetime.date(" ++ t) =
  match re_match (ws :: year_on) t with
  | Some gs => Some (symbol :: gs)
  | None => None
  end.
Proof.
  intros Hs Hq.
  change ("('" ++ symbol ++ "', datetime.date(" ++ t)
    with (String "(" (String "'" (symbol ++ String "'"
            (", datetime.date(" ++ t)))).
  rewrite search_at_front; [|assumption|exact Hq].
  change (String "(" (String "'" (symbol ++ String "'" (", datetime.date(" ++ t))))
    with (String "(" ("" ++ String "'" (symbol ++ String "'"
            ("" ++ String "," (" " ++ "datetime.date" ++ ""
               ++ String "(" t))))).
  rewrite head_match by (reflexivity || assumption).
  rewrite after_symbol_open by reflexivity.
  reflexivity.
Qed.

Lemma year_then (ys w6 t : string) :
  all_digits ys = true -> all_spaces w6 = true ->
  re_match year_on (ys ++ w6 ++ String "," t) =
  if in_bounds 4 4 (String.length ys)
  then match re_match (ws :: month_on) t with
       | Some gs => Some (ys :: gs)
       | None => None
       end
  else None.
Proof.
  intros Hy H6. rewrite year_on_eq.
  rewrite re_match_rep by side. unfold in_bounds, fits.
  destruct ((4 <=? String.length ys)%nat && (String.length ys <=? 4)%nat);
    [|reflexivity].
  rewrite re_match_ws by side. rewrite re_match_lit. reflexivity.
Qed.

Lemma month_then (ms w8 t : string) :
  all_digits ms = true -> all_spaces w8 = true ->
  re_match month_on (ms ++ w8 ++ String "," t) =
  if in_bounds 1 2 (String.length ms)
  then match re_match (ws :: day_on) t with
       | Some gs => Some (ms :: gs)
       | None => None
       end
  else None.
Proof.
  intros Hm H8. rewrite month_on_eq.
  rewrite re_match_rep by side. unfold in_bounds, fits.
  destruct ((1 <=? String.length ms)%nat && (String.length ms <=? 2)%nat);
    [|reflexivity].
  rewrite re_match_ws by side. rewrite re_match_lit. reflexivity.
Qed.

Lemma year_comma (ys t : string) :
  all_digits ys = true ->
  re_match year_on (ys ++ "," ++ t) =
  if in_bounds 4 4 (String.length ys)
  then match re_match (ws :: month_on) t with
       | Some gs => Some (ys :: gs)
       | None => None
       end
  else None.
Proof. intros Hy. exact (year_then ys "" t Hy eq_refl). Qed.

Lemma month_comma (ms t : string) :
  all_digits ms = true ->
  re_match month_on (ms ++ "," ++ t) =
  if in_bounds 1 2 (String.length ms)
  then match re_match (ws :: day_on) t with
       | Some gs => Some (ms :: gs)
       | None => None
       end
  else None.
Proof. intros Hm. exact (month_then ms "" t Hm eq_refl). Qed.

(** The text of a slot that holds a stray character: spaces, digits,
    spaces, then a character that is no digit, no space, no separator and
    no quote, then anything without quote. *)
Lemma bad_slot_quotes (w1 dg w2 : string) (c : ascii) (rest : string) :
  all_spaces w1 = true -> all_digits dg = true -> all_spaces w2 = true ->
  Ascii.eqb c "'" = false -> no_quote rest = true ->
  quotes (w1 ++ dg ++ w2 ++ String c rest) = O.
Proof.
  intros H1 Hd H2 Hc Hr. rewrite !quotes_app.
  rewrite (quotes_spaces _ H1), (quotes_digits _ Hd), (quotes_spaces _ H2).
  simpl. now rewrite Hc, (no_quote_quotes _ Hr).
Qed.

Lemma bad_year_no_match (symbol w1 dg w2 : string) (c : ascii) (rest : string) :
  no_quote symbol = true ->
  all_spaces w1 = true -> all_digits dg = true -> all_spaces w2 = true ->
  non_numeric c = true -> no_quote rest = true ->
  re_search pattern
    ("('" ++ symbol ++ "', datetime.date(" ++ w1 ++ dg ++ w2 ++ String c rest)
  = None.
Proof.
  intros Hs H1 Hd H2 Hc Hr.
  apply non_numeric_spec in Hc as (C1 & C2 & C3 & C4 & C5).
  rewrite key_open; [|assumption|now apply bad_slot_quotes].
  rewrite ws_number_bad; try assumption; [reflexivity|vm_compute; reflexivity|].
  intros ds w Dd Dw. now apply year_on_bad.
Qed.

Lemma bad_month_no_match (symbol ys w1 dg w2 : string) (c : ascii)
      (rest : string) :
  no_quote symbol = true -> all_digits ys = true ->
  all_spaces w1 = true -> all_digits dg = true -> all_spaces w2 = true ->
  non_numeric c = true -> no_quote rest = true ->
  re_search pattern
    ("('" ++ symbol ++ "', datetime.date(" ++ ys ++ ","
          ++ w1 ++ dg ++ w2 ++ String c rest)
  = None.
Proof.
  intros Hs Hy H1 Hd H2 Hc Hr.
  apply non_numeric_spec in Hc as (C1 & C2 & C3 & C4 & C5).
  rewrite key_open; [|assumption|].
  - rewrite re_match_ws_none;
      [|vm_compute; reflexivity|now apply (digits_then_first ys ",")].
    rewrite year_comma by assumption.
    destruct (in_bounds 4 4 (String.length ys)); [|reflexivity].
    rewrite ws_number_bad; try assumption; [reflexivity|vm_compute; reflexivity|].
    intros ds w Dd Dw. now apply month_on_bad.
  - rewrite quotes_app, (quotes_digits _ Hy). simpl.
    now apply bad_slot_quotes.
Qed.

Lemma bad_day_no_match (symbol ys ms w1 dg w2 : string) (c : ascii)
      (rest : string) :
  no_quote symbol = true -> all_digits ys = true -> all_digits ms = true ->
  all_spaces w1 = true -> all_digits dg = true -> all_spaces w2 = true ->
  non_numeric c = true -> no_quote rest = true ->
  re_search pattern
    ("('" ++ symbol ++ "', datetime.date(" ++ ys ++ ", " ++ ms ++ ","
          ++ w1 ++ dg ++ w2 ++ String c rest)
  = None.
Proof.
  intros Hs Hy Hm H1 Hd H2 Hc Hr.
  apply non_numeric_spec in Hc as (C1 & C2 & C3 & C4 & C5).
  rewrite key_open; [|assumption|].
  - rewrite re_match_ws_none;
      [|vm_compute; reflexivity|now apply (digits_then_first ys ",")].
    rewrite year_step; [|assumption|now apply (digits_then_first ms ",")].
    destruct (in_bounds 4 4 (String.length ys)); [|reflexivity].
    rewrite month_comma by assumption.
    destruct (in_bounds 1 2 (String.length ms)); [|reflexivity].
    rewrite ws_number_bad; try assumption; [reflexivity|vm_compute; reflexivity|].
    intros ds w Dd Dw. now apply day_on_bad.
  - rewrite !quotes_app, (quotes_digits _ Hy), (quotes_digits _ Hm),
      (quotes_digits _ Hd), (quotes_spaces _ H1), (quotes_spaces _ H2).
    simpl. now rewrite C5, (no_quote_quotes _ Hr).
Qed.

(* ------------------------------------------------------------------ *)
(** ** Keys that Python writes *)

(** C1 (amended).  For a symbol without quote and a valid date whose year
    has four digits (1000 to 9999), the parser returns exactly the symbol
    and the date built from the three components, on the key that Python
    writes for the pair, and prints nothing. *)
Theorem key_parser_returns_pair (symbol : string) (y m d : Z) :
  no_quote symbol = true -> 1000 <= y -> check_date_fields y m d = true ->
  parse_datetime_from_string_key (repr_key symbol y m d) =
  (Ok (Some symbol, Some (mkdate y m d)), []).
Proof.
  intros Hs Hy Hc.
  destruct (check_date_fields_bounds _ _ _ Hc) as (By & Bm & Bd).
  change (repr_key symbol y m d)
    with (key_text symbol (py_str_int y) (py_str_int m) (py_str_int d)).
  assert (Ly := year_has_four_digits y ltac:(lia)).
  assert (Lm := small_has_one_or_two_digits m ltac:(lia)).
  assert (Ld := small_has_one_or_two_digits d ltac:(lia)).
  rewrite (parse_groups _ symbol (py_str_int y) (py_str_int m) (py_str_int d));
    try (apply py_str_int_digits; lia); try assumption.
  - rewrite !py_str_int_value by lia. now rewrite Hc.
  - rewrite key_text_search; try (apply py_str_int_digits; lia); try assumption.
    now rewrite Ly, Lm, Ld.
Qed.

Lemma key_parser_returns_pair_witness :
  parse_datetime_from_string_key (repr_key "MSFT" 2023 12 25) =
  (Ok (Some "MSFT", Some (mkdate 2023 12 25)), []).
Proof.
  apply (key_parser_returns_pair "MSFT" 2023 12 25); [reflexivity | lia | reflexivity].
Defined.

(** C1 as stated fails: 31 December 999 is a valid date, and its key is not
    parsed. *)
Lemma key_parser_misses_year_999 :
  check_date_fields 999 12 31 = true
  /\ repr_key "A" 999 12 31 = "('A', datetime.date(999, 12, 31))"
  /\ parse_datetime_from_string_key (repr_key "A" 999 12 31)
     = (Ok (None, None), []).
Proof. repeat split; vm_compute; reflexivity. Qed.

(** C7 (amended).  The year must be written with exactly four digits: on a
    key with a symbol without quote, a run of digits for the year and one
    or two digits for the month and for the day, the pattern matches if and
    only if the year has four digits; with any other number of digits the
    parser answers no match, and with four digits and a valid date it
    returns the symbol and the date. *)
Theorem year_takes_four_digits (symbol ys ms ds : string) :
  no_quote symbol = true ->
  all_digits ys = true -> all_digits ms = true -> all_digits ds = true ->
  in_bounds 1 2 (String.length ms) = true ->
  in_bounds 1 2 (String.length ds) = true ->
  (re_search pattern (key_text symbol ys ms ds) <> None
   <-> String.length ys = 4%nat)
  /\ (String.length ys <> 4%nat ->
      parse_datetime_from_string_key (key_text symbol ys ms ds)
      = (Ok (None, None), []))
  /\ (String.length ys = 4%nat ->
      check_date_fields (int_digits 0 ys) (int_digits 0 ms) (int_digits 0 ds)
      = true ->
      parse_datetime_from_string_key (key_text symbol ys ms ds)
      = (Ok (Some symbol,
             Some (mkdate (int_digits 0 ys) (int_digits 0 ms) (int_digits 0 ds))),
         [])).
Proof.
  intros Hs Hy Hm Hd Bm Bd.
  pose proof (key_text_search symbol ys ms ds Hs Hy Hm Hd) as S.
  rewrite Bm, Bd, !andb_true_r in S.
  assert (B : in_bounds 4 4 (String.length ys) = true
              <-> String.length ys = 4%nat).
  { unfold in_bounds. rewrite andb_true_iff, !Nat.leb_le. lia. }
  repeat split.
  - intros N. apply B. destruct (in_bounds 4 4 (String.length ys));
      [reflexivity | now rewrite S in N].
  - intros L. apply B in L. rewrite S, L. discriminate.
  - intros N. apply parse_no_match. rewrite S.
    destruct (in_bounds 4 4 (String.length ys)); [|reflexivity].
    exfalso. apply N, B. reflexivity.
  - intros L C. apply B in L. rewrite L in S.
    rewrite (parse_groups _ symbol ys ms ds S); try assumption.
    now rewrite C.
Qed.

Lemma year_takes_four_digits_witness :
  (re_search pattern (key_text "A" "0997" "7" "01") <> None
   <-> String.length "0997" = 4%nat)
  /\ (String.length "0997" <> 4%nat ->
      parse_datetime_from_string_key (key_text "A" "0997" "7" "01")
      = (Ok (None, None), []))
  /\ (String.length "0997" = 4%nat ->
      check_date_fields (int_digits 0 "0997") (int_digits 0 "7")
        (int_digits 0 "01") = true ->
      parse_datetime_from_string_key (key_text "A" "0997" "7" "01")
      = (Ok (Some "A",
             Some (mkdate (int_digits 0 "0997") (int_digits 0 "7")
                     (int_digits 0 "01"))),
         [])).
Proof.
  apply (year_takes_four_digits "A" "0997" "7" "01"); reflexivity.
Defined.

(** C7 as stated fails: 1 January of the year 5 is a valid date with a year
    of one digit, and its key does not match. *)
Lemma key_parser_misses_year_5 :
  check_date_fields 5 1 1 = true
  /\ repr_key "A" 5 1 1 = "('A', datetime.date(5, 1, 1))"
  /\ re_search pattern (repr_key "A" 5 1 1) = None
  /\ parse_datetime_from_string_key (repr_key "A" 5 1 1) = (Ok (None, None), []).
Proof. repeat split; vm_compute; reflexivity. Qed.

(* ------------------------------------------------------------------ *)
(** ** The pattern is searched, not anchored *)

(** C8 (amended).  The pattern is searched for anywhere in the key: when
    the pair stands after any text without opening parenthesis and before
    any text at all, with any run of spaces wherever the pattern allows
    one, the parser returns the symbol and the date of the pair. *)
Theorem key_found_anywhere (pre post : string) (w : spacing)
        (symbol ys ms ds : string) :
  no_paren pre = true -> spaces_only w = true -> no_quote symbol = true ->
  all_digits ys = true -> all_digits ms = true -> all_digits ds = true ->
  in_bounds 4 4 (String.length ys) = true ->
  in_bounds 1 2 (String.length ms) = true ->
  in_bounds 1 2 (String.length ds) = true ->
  check_date_fields (int_digits 0 ys) (int_digits 0 ms) (int_digits 0 ds) = true ->
  parse_datetime_from_string_key (pre ++ spaced_pair w symbol ys ms ds post) =
  (Ok (Some symbol,
       Some (mkdate (int_digits 0 ys) (int_digits 0 ms) (int_digits 0 ds))),
   []).
Proof.
  intros Hp Hw Hs Hy Hm Hd By Bm Bd C.
  rewrite (parse_groups _ symbol ys ms ds); try assumption.
  - now rewrite C.
  - now apply search_spaced_pair.
Qed.

Lemma key_found_anywhere_witness :
  parse_datetime_from_string_key
    ("key: " ++ spaced_pair (mkspacing " " "" " " " " "" " " "" "" " " "" " ")
                  "MSFT" "2023" "12" "25" " # done") =
  (Ok (Some "MSFT", Some (mkdate 2023 12 25)), []).
Proof.
  apply (key_found_anywhere "key: " " # done"
           (mkspacing " " "" " " " " "" " " "" "" " " "" " ")
           "MSFT" "2023" "12" "25"); reflexivity.
Defined.

(** C8 as stated fails: letters before the opening parenthesis and after
    the closing one do not prevent the match. *)
Lemma key_parser_not_anchored :
  parse_datetime_from_string_key "x('A', datetime.date(2023, 1, 1))y"
  = (Ok (Some "A", Some (mkdate 2023 1 1)), []).
Proof. vm_compute. reflexivity. Qed.

(* ------------------------------------------------------------------ *)
(** ** Both components or none *)

(** C4.  On every key the parser returns, without raising, either the
    symbol together with a date that passed the checks of the constructor,
    or [(None, None)].  It returns [(None, None)] when the pattern matches
    but the three integers are no calendar date, when the key lacks one of
    the three integers, and when, where one of the integers is due, a
    character that is no digit, no space, no separator and no quote comes
    first or follows the digits and spaces found there. *)
Theorem key_parser_pair_or_nothing :
  (forall s, exists out,
      parse_datetime_from_string_key s = (Ok (None, None), out)
      \/ exists symbol dt,
           parse_datetime_from_string_key s = (Ok (Some symbol, Some dt), out)
           /\ check_date_fields (year dt) (month dt) (day dt) = true)
  /\ (forall s gs y m d,
        re_search pattern s = Some gs ->
        py_int (group gs 2) = Ok y -> py_int (group gs 3) = Ok m ->
        py_int (group gs 4) = Ok d ->
        check_date_fields y m d = false ->
        fst (parse_datetime_from_string_key s) = Ok (None, None))
  /\ (forall symbol a b,
        no_quote symbol = true -> all_digits a = true -> all_digits b = true ->
        parse_datetime_from_string_key
          ("('" ++ symbol ++ "', datetime.date(" ++ a ++ ", " ++ b ++ "))")
        = (Ok (None, None), []))
  /\ (forall symbol ys ms w1 dg w2 c rest,
        no_quote symbol = true ->
        all_digits ys = true -> all_digits ms = true ->
        all_spaces w1 = true -> all_digits dg = true -> all_spaces w2 = true ->
        non_numeric c = true -> no_quote rest = true ->
        parse_datetime_from_string_key
          ("('" ++ symbol ++ "', datetime.date("
                ++ w1 ++ dg ++ w2 ++ String c rest)
        = (Ok (None, None), [])
        /\ parse_datetime_from_string_key
             ("('" ++ symbol ++ "', datetime.date(" ++ ys ++ ","
                   ++ w1 ++ dg ++ w2 ++ String c rest)
           = (Ok (None, None), [])
        /\ parse_datetime_from_string_key
             ("('" ++ symbol ++ "', datetime.date(" ++ ys ++ ", " ++ ms ++ ","
                   ++ w1 ++ dg ++ w2 ++ String c rest)
           = (Ok (None, None), [])).
Proof.
  split; [exact parser_outcome|]. split; [|split].
  - intros s gs y m d H Hy Hm Hd C.
    rewrite (parse_match s gs y m d H Hy Hm Hd), C. reflexivity.
  - intros symbol a b Hs Ha Hb.
    now apply parse_no_match, two_components_no_match.
  - intros symbol ys ms w1 dg w2 c rest Hs Hy Hm H1 Hd H2 Hc Hr. repeat split.
    + now apply parse_no_match, bad_year_no_match.
    + now apply parse_no_match, bad_month_no_match.
    + now apply parse_no_match, bad_day_no_match.
Qed.

Lemma key_parser_pair_or_nothing_witness :
  fst (parse_datetime_from_string_key "('ERR', datetime.date(2023, 2, 30))")
  = Ok (None, None)
  /\ parse_datetime_from_string_key "('BAD', datetime.date(2023, 12))"
     = (Ok (None, None), [])
  /\ parse_datetime_from_string_key "('BADINT', datetime.date(2023, 12, XX))"
     = (Ok (None, None), []).
Proof.
  destruct key_parser_pair_or_nothing as (_ & Invalid & Missing & Bad).
  split; [|split].
  - apply (Invalid "('ERR', datetime.date(2023, 2, 30))"
             ["ERR"; "2023"; "2"; "30"] 2023 2 30); reflexivity.
  - apply (Missing "BAD" "2023" "12"); reflexivity.
  - exact (proj2 (proj2 (Bad "BADINT" "2023" "12" " " "" "" "X"%char "X))"
                           eq_refl eq_refl eq_refl eq_refl eq_refl eq_refl
                           eq_refl eq_refl))).
Defined.

(* ================================================================== *)
(** * Dictionaries *)

Local Open Scope list_scope.

Section DictFacts.
Variables K V : Type.
Variable eqb : K -> K -> bool.
Hypothesis eqb_eq : forall a b, eqb a b = true <-> a = b.

Lemma eqb_same (k : K) : eqb k k = true.
Proof. now apply eqb_eq. Qed.

Lemma eqb_differ (a b : K) : a <> b -> eqb a b = false.
Proof.
  intros N. destruct (eqb a b) eqn:E; [|reflexivity].
  apply eqb_eq in E. contradiction.
Qed.

Lemma dict_get_set_same (d : dict K V) (k : K) (v : V) :
  dict_get eqb (dict_set eqb d k v) k = Some v.
Proof.
  induction d as [|[k' v'] d IH]; simpl.
  - now rewrite eqb_same.
  - destruct (eqb k' k) eqn:E; simpl; rewrite E; [reflexivity | exact IH].
Qed.

Lemma dict_get_set_other (d : dict K V) (k k' : K) (v : V) :
  k <> k' -> dict_get eqb (dict_set eqb d k v) k' = dict_get eqb d k'.
Proof.
  intros N. induction d as [|[k0 v0] d IH]; simpl.
  - now rewrite eqb_differ.
  - destruct (eqb k0 k) eqn:E; simpl.
    + apply eqb_eq in E. subst k0. now rewrite eqb_differ.
    + now rewrite IH.
Qed.

Lemma dict_set_set (d : dict K V) (k : K) (a b : V) :
  dict_set eqb (dict_set eqb d k a) k b = dict_set eqb d k b.
Proof.
  induction d as [|[k' v'] d IH]; simpl.
  - now rewrite eqb_same.
  - destruct (eqb k' k) eqn:E; simpl; rewrite E; [reflexivity | now rewrite IH].
Qed.

Lemma dict_get_in (d : dict K V) (k : K) (v : V) :
  dict_get eqb d k = Some v -> In (k, v) d.
Proof.
  induction d as [|[k' v'] d IH]; simpl; [discriminate|].
  destruct (eqb k' k) eqn:E.
  - apply eqb_eq in E. subst k'. intros H; inversion H; now left.
  - intros H. right. now apply IH.
Qed.

Lemma dict_get_none (d : dict K V) (k : K) :
  dict_get eqb d k = None <-> ~ In k (dict_keys d).
Proof.
  induction d as [|[k' v'] d IH]; simpl.
  - tauto.
  - destruct (eqb k' k) eqn:E.
    + apply eqb_eq in E. subst k'. split; [discriminate | intros N; tauto].
    + rewrite IH. split.
      * intros N [H|H]; [|tauto]. subst k'. rewrite eqb_same in E. discriminate.
      * tauto.
Qed.

Lemma dict_in_get (d : dict K V) (k : K) (v : V) :
  NoDup (dict_keys d) -> In (k, v) d -> dict_get eqb d k = Some v.
Proof.
  induction d as [|[k' v'] d IH]; simpl; intros N H; [contradiction|].
  inversion N as [|? ? Nk Nd]; subst.
  destruct H as [H|H].
  - inversion H; subst. now rewrite eqb_same.
  - destruct (eqb k' k) eqn:E; [|now apply IH].
    apply eqb_eq in E. subst k'. exfalso. apply Nk.
    change k with (fst (k, v)). now apply in_map.
Qed.

Lemma dict_keys_set (d : dict K V) (k : K) (v : V) :
  dict_keys (dict_set eqb d k v) =
  if dict_mem eqb d k then dict_keys d else dict_keys d ++ [k].
Proof.
  unfold dict_mem. induction d as [|[k' v'] d IH]; simpl; [reflexivity|].
  destruct (eqb k' k) eqn:E; simpl; [reflexivity|].
  rewrite IH. now destruct (dict_get eqb d k).
Qed.

Lemma dict_mem_keys (d : dict K V) (k : K) :
  dict_mem eqb d k = true <-> In k (dict_keys d).
Proof.
  unfold dict_mem. pose proof (dict_get_none d k) as N.
  destruct (dict_get eqb d k).
  - split; [intros _|reflexivity].
    destruct (in_dec (fun a b => Bool.reflect_dec _ _
                (Bool.iff_reflect _ _ (iff_sym (eqb_eq a b)))) k (dict_keys d))
      as [I|I]; [exact I|].
    apply N in I. discriminate.
  - split; [discriminate|]. intros I. exfalso. now apply (proj1 N).
Qed.

Lemma dict_keys_set_nodup (d : dict K V) (k : K) (v : V) :
  NoDup (dict_keys d) -> NoDup (dict_keys (dict_set eqb d k v)).
Proof.
  intros N. rewrite dict_keys_set.
  destruct (dict_mem eqb d k) eqn:M; [exact N|].
  assert (I : ~ In k (dict_keys d)).
  { intros I. apply dict_mem_keys in I. congruence. }
  clear M. induction (dict_keys d) as [|a l IH]; simpl.
  - constructor; [tauto | constructor].
  - inversion N; subst. constructor.
    + rewrite in_app_iff. simpl in *.
      intros [H|[H|[]]]; [tauto | subst; tauto].
    + apply IH; [assumption | simpl in I; tauto].
Qed.

Lemma dict_in_set (d : dict K V) (k : K) (v : V) (x : K * V) :
  In x (dict_set eqb d k v) -> In x d \/ snd x = v.
Proof.
  induction d as [|[k' v'] d IH]; simpl.
  - intros [H|[]]. subst x. now right.
  - destruct (eqb k' k); simpl.
    + intros [H|H]; [subst x; now right | left; now right].
    + intros [H|H]; [left; now left|].
      destruct (IH H); [left; now right | now right].
Qed.

Lemma dict_set_forall (P : V -> Prop) (d : dict K V) (k : K) (v : V) :
  Forall (fun x => P (snd x)) d -> P v ->
  Forall (fun x => P (snd x)) (dict_set eqb d k v).
Proof.
  intros F Pv. apply Forall_forall. intros x I.
  apply dict_in_set in I as [I|I].
  - rewrite Forall_forall in F. now apply F.
  - now rewrite I.
Qed.

Lemma dict_get_forall (P : V -> Prop) (d : dict K V) (k : K) (v : V) :
  Forall (fun x => P (snd x)) d -> dict_get eqb d k = Some v -> P v.
Proof.
  intros F G. apply dict_get_in in G. rewrite Forall_forall in F.
  exact (F _ G).
Qed.

(** [update]: the bindings of [other] win, the rest of [d] stays. *)
Lemma dict_update_get (other : dict K V) : forall (d : dict K V) (k : K),
  NoDup (dict_keys other) ->
  dict_get eqb (dict_update eqb d other) k =
  match dict_get eqb other k with
  | Some v => Some v
  | None => dict_get eqb d k
  end.
Proof.
  unfold dict_update.
  induction other as [|[k0 v0] other IH]; intros d k N; simpl; [reflexivity|].
  inversion N as [|? ? Nk No]; subst.
  rewrite IH by assumption.
  destruct (eqb k0 k) eqn:E.
  - apply eqb_eq in E. subst k0.
    assert (G : dict_get eqb other k = None) by now apply dict_get_none.
    rewrite G. apply dict_get_set_same.
  - destruct (dict_get eqb other k); [reflexivity|].
    apply dict_get_set_other. intros ->. rewrite eqb_same in E. discriminate.
Qed.

Lemma dict_update_nodup (other : dict K V) : forall (d : dict K V),
  NoDup (dict_keys d) -> NoDup (dict_keys (dict_update eqb d other)).
Proof.
  unfold dict_update.
  induction other as [|[k0 v0] other IH]; intros d N; simpl; [exact N|].
  apply IH. now apply dict_keys_set_nodup.
Qed.
End DictFacts.

(* ================================================================== *)
(** * Loops, outcomes and printed lines *)

Lemma for_each_app {A S : Type} (xs ys : list A) (body : A -> S -> io S) (s : S) :
  for_each (xs ++ ys) body s = bind (for_each xs body s) (for_each ys body).
Proof.
  revert s. induction xs as [|x xs IH]; intros s; simpl.
  - destruct (for_each ys body s) as [r out]. reflexivity.
  - destruct (body x s) as [[s'|e] out]; simpl; [|reflexivity].
    rewrite IH. destruct (for_each xs body s') as [[s''|e] out']; simpl.
    + destruct (for_each ys body s'') as [r out'']. now rewrite app_assoc.
    + reflexivity.
Qed.

(** A loop whose body always ends normally is a fold, as far as the
    outcome goes. *)
Lemma for_each_fold_on {A S : Type} (f : S -> A -> S) (body : A -> S -> io S)
      (xs : list A) :
  Forall (fun x => forall s, fst (body x s) = Ok (f s x)) xs ->
  forall s, fst (for_each xs body s) = Ok (fold_left f xs s).
Proof.
  induction xs as [|x xs IH]; intros B s; simpl; [reflexivity|].
  inversion B as [|? ? Bx Bxs]; subst.
  specialize (Bx s). destruct (body x s) as [r out]. simpl in Bx. subst r.
  simpl. specialize (IH Bxs (f s x)).
  destruct (for_each xs body (f s x)) as [r out']. exact IH.
Qed.

Lemma for_each_fold {A S : Type} (f : S -> A -> S) (body : A -> S -> io S)
      (xs : list A) :
  (forall x s, fst (body x s) = Ok (f s x)) ->
  forall s, fst (for_each xs body s) = Ok (fold_left f xs s).
Proof.
  intros B. apply for_each_fold_on. apply Forall_forall. intros x _. apply B.
Qed.

Lemma fst_bind_ok {A B : Type} (m : io A) (a : A) (k : A -> io B) :
  fst m = Ok a -> fst (bind m k) = fst (k a).
Proof.
  destruct m as [r out]. simpl. intros ->. now destruct (k a).
Qed.

Lemma fold_left_flat_map {A B S : Type} (f : S -> B -> S) (g : A -> list B)
      (l : list A) : forall s,
  fold_left f (flat_map g l) s = fold_left (fun s x => fold_left f (g x) s) l s.
Proof.
  induction l as [|x l IH]; intros s; simpl; [reflexivity|].
  now rewrite fold_left_app, IH.
Qed.

(* ================================================================== *)
(** * The history loader when the file is unusable *)

(** C3.  When the file cannot be read or decoded, the loader returns
    [(None, 0, 0)].  When the file decodes to a value that is no object,
    the loader does not report a mismatch: [raw_data.items()] raises
    [AttributeError], nothing is printed, and the exception leaves the
    loader. *)
Theorem history_loader_failure_paths
        (read_json : string -> outcome json) (file_path : string)
        (datetime_parser_func : string -> io parsed_key) :
  (forall e, read_json file_path = Raise e ->
     fst (parse_history_file read_json file_path datetime_parser_func)
     = Ok (None, 0, 0))
  /\ (forall raw_data, read_json file_path = Ok raw_data ->
        is_dict raw_data = false ->
        parse_history_file read_json file_path datetime_parser_func
        = (Raise AttributeError, [])).
Proof.
  unfold parse_history_file. split.
  - intros e ->. destruct (is_FileNotFoundError e); [reflexivity|].
    destruct (is_JSONDecodeError e); reflexivity.
  - intros raw -> D. destruct raw; try discriminate; reflexivity.
Qed.

Lemma history_loader_failure_paths_witness :
  fst (parse_history_file (fun _ => Raise JSONDecodeError) "a_history.json"
         parse_datetime_from_string_key) = Ok (None, 0, 0)
  /\ parse_history_file (fun _ => Ok (JArr [JInt 1; JInt 2])) "a_history.json"
       parse_datetime_from_string_key = (Raise AttributeError, []).
Proof.
  split.
  - apply (proj1 (history_loader_failure_paths
                    (fun _ => Raise JSONDecodeError) "a_history.json"
                    parse_datetime_from_string_key) JSONDecodeError).
    reflexivity.
  - apply (proj2 (history_loader_failure_paths
                    (fun _ => Ok (JArr [JInt 1; JInt 2])) "a_history.json"
                    parse_datetime_from_string_key) (JArr [JInt 1; JInt 2]));
      reflexivity.
Defined.

(* ================================================================== *)
(** * The other-file loader *)

Lemma two_items_not_short (x y : json) (more : list json) :
  (Z.of_nat (List.length (x :: y :: more)) <? 2)%Z = false.
Proof. apply Z.ltb_ge. simpl List.length. lia. Qed.

Lemma validate_other_spec (file_path : string) (raw_data : json) :
  try_except (validate_other file_path raw_data)
    [(is_IndexError_or_TypeError,
      print (ErrUnexpectedStructure file_path) ;;; ret None);
     (is_Exception,
      print (ErrValidation file_path) ;;; ret None)]
  = other_spec file_path raw_data.
Proof.
  destruct raw_data as [ | b | n | m e | s | items | members ];
    try reflexivity.
  destruct items as [|first rest]; [reflexivity|].
  destruct first as [ | b | n | m e | s | inner | members ]; try reflexivity.
  destruct inner as [|x [|y more]]; try reflexivity;
    [destruct x; reflexivity|].
  unfold validate_other.
  cbn -[Z.ltb Z.of_nat List.length].
  rewrite (two_items_not_short x y more).
  destruct x; try reflexivity.
  destruct y; reflexivity.
Qed.

(** C5.  The other-file loader checks, in this order, that the top level is
    a non-empty list, that its first element is a list of at least two
    items, that the first item is a string and that the second is an
    object; the first check that fails is the one reported and the result
    is then [None]; only when all four hold is the pair returned.  A file
    that cannot be read gives [None].  A top-level object, an empty array,
    an inner array of one item and a first item that is no string all give
    [None].  Items after the second of the inner list and elements after
    the first of the outer list do not change the result. *)
Theorem other_loader_validates_in_order
        (read_json : string -> outcome json) (file_path : string) :
  (forall raw_data, read_json file_path = Ok raw_data ->
     parse_other_json_file read_json file_path = other_spec file_path raw_data)
  /\ (forall e, read_json file_path = Raise e ->
        fst (parse_other_json_file read_json file_path) = Ok None)
  /\ (forall raw_data symbol det,
        read_json file_path = Ok raw_data ->
        (fst (parse_other_json_file read_json file_path) = Ok (Some (symbol, det))
         <-> exists more rest,
               raw_data = JArr (JArr (JStr symbol :: JObj det :: more) :: rest)))
  /\ (forall members, other_spec file_path (JObj members)
                      = (Ok None, [ErrExpectedList file_path]))
  /\ other_spec file_path (JArr []) = (Ok None, [ErrExpectedList file_path])
  /\ (forall x rest, other_spec file_path (JArr (JArr [x] :: rest))
                     = (Ok None, [ErrExpectedInnerList file_path]))
  /\ (forall x y more rest,
        (forall s, x <> JStr s) ->
        other_spec file_path (JArr (JArr (x :: y :: more) :: rest))
        = (Ok None, [ErrSymbolNotStr file_path]))
  /\ (forall x y more more' rest rest',
        other_spec file_path (JArr (JArr (x :: y :: more) :: rest))
        = other_spec file_path (JArr (JArr (x :: y :: more') :: rest'))).
Proof.
  assert (Run : forall raw_data, read_json file_path = Ok raw_data ->
            parse_other_json_file read_json file_path
            = other_spec file_path raw_data).
  { intros raw E. unfold parse_other_json_file. rewrite E.
    apply validate_other_spec. }
  split; [exact Run|]. split; [|split].
  - intros e E. unfold parse_other_json_file. rewrite E.
    destruct (is_FileNotFoundError e); [reflexivity|].
    destruct (is_JSONDecodeError e); reflexivity.
  - intros raw symbol det E. rewrite (Run raw E). split.
    + destruct raw as [ | | | | |items| ]; try discriminate.
      destruct items as [|first rest]; [discriminate|].
      destruct first as [ | | | | |inner| ]; try discriminate.
      destruct inner as [|x [|y more]]; try discriminate;
        destruct x; try discriminate.
      destruct y; try discriminate.
      simpl. intros H. inversion H; subst. eexists. eexists. reflexivity.
    + intros (more & rest & ->). reflexivity.
  - split; [reflexivity|]. split; [reflexivity|].
    split; [intros x rest; destruct x; reflexivity|]. split.
    + intros x y more rest N. destruct x; try reflexivity.
      now destruct (N s).
    + intros x y more more' rest rest'. destruct x; reflexivity.
Qed.

Lemma other_loader_validates_in_order_witness :
  parse_other_json_file
    (fun _ => Ok (JArr [JArr [JStr "AAPL"; JObj [("name", JStr "Apple Inc.")]]]))
    "info.json"
  = (Ok (Some ("AAPL", [("name", JStr "Apple Inc.")])), [])
  /\ other_spec "info.json" (JArr [JArr [JInt 7; JInt 8]])
     = (Ok None, [ErrSymbolNotStr "info.json"]).
Proof.
  split.
  - apply (proj1 (other_loader_validates_in_order
                    (fun _ => Ok (JArr [JArr [JStr "AAPL";
                                              JObj [("name", JStr "Apple Inc.")]]]))
                    "info.json")
             (JArr [JArr [JStr "AAPL"; JObj [("name", JStr "Apple Inc.")]]])).
    reflexivity.
  - apply (other_loader_validates_in_order (fun _ => Raise OSError) "info.json").
    intros s. discriminate.
Defined.

(* ================================================================== *)
(** * The three levels of the history mapping *)

Lemma date_eqb_eq (a b : date) : date_eqb a b = true <-> a = b.
Proof.
  destruct a as [y m d], b as [y' m' d']. unfold date_eqb. simpl.
  rewrite !andb_true_iff, !Z.eqb_eq. split.
  - intros [[-> ->] ->]. reflexivity.
  - intros H. inversion H. auto.
Qed.

Lemma pykey_eqb_eq (a b : pykey) : pykey_eqb a b = true <-> a = b.
Proof.
  destruct a as [x|x], b as [y|y]; simpl.
  - rewrite date_eqb_eq. split; [now intros -> | intros H; now inversion H].
  - split; discriminate.
  - split; discriminate.
  - rewrite String.eqb_eq. split; [now intros -> | intros H; now inversion H].
Qed.

(** [if k not in d: d[k] = {}] followed by a read or a write of [d[k]]. *)
Section Ensure.
Variables K X : Type.
Variable eqb : K -> K -> bool.
Hypothesis eqb_eq : forall a b, eqb a b = true <-> a = b.

Lemma ensure_getitem (d : dict K (list X)) (k : K) :
  getitem eqb (if dict_mem eqb d k then d else dict_set eqb d k []) k =
  Ok (match dict_get eqb d k with Some t => t | None => [] end).
Proof.
  unfold getitem, dict_mem. destruct (dict_get eqb d k) eqn:G.
  - now rewrite G.
  - now rewrite (dict_get_set_same _ _ eqb eqb_eq).
Qed.

Lemma ensure_set (d : dict K (list X)) (k : K) (x : list X) :
  dict_set eqb (if dict_mem eqb d k then d else dict_set eqb d k []) k x =
  dict_set eqb d k x.
Proof.
  destruct (dict_mem eqb d k); [reflexivity|].
  apply (dict_set_set _ _ eqb eqb_eq).
Qed.

Lemma ensure_get (d : dict K (list X)) (k k' : K) :
  match dict_get eqb (if dict_mem eqb d k then d else dict_set eqb d k []) k'
  with Some t => t | None => [] end =
  match dict_get eqb d k' with Some t => t | None => [] end.
Proof.
  unfold dict_mem. destruct (dict_get eqb d k) eqn:G; [reflexivity|].
  destruct (eqb k k') eqn:E.
  - apply eqb_eq in E. subst k'.
    now rewrite (dict_get_set_same _ _ eqb eqb_eq), G.
  - rewrite (dict_get_set_other _ _ eqb eqb_eq); [reflexivity|].
    intros ->. rewrite (eqb_same _ eqb eqb_eq) in E. discriminate.
Qed.

Lemma ensure_nodup (d : dict K (list X)) (k : K) :
  NoDup (dict_keys d) ->
  NoDup (dict_keys (if dict_mem eqb d k then d else dict_set eqb d k [])).
Proof.
  intros N. destruct (dict_mem eqb d k); [exact N|].
  now apply (dict_keys_set_nodup _ _ eqb eqb_eq).
Qed.
End Ensure.

Lemma types_of_set (h : history) (s s' : string) (t : by_type) :
  types_of (dict_set String.eqb h s t) s' =
  if String.eqb s s' then t else types_of h s'.
Proof.
  unfold types_of. destruct (String.eqb_spec s s') as [->|N].
  - now rewrite (dict_get_set_same _ _ String.eqb String.eqb_eq).
  - now rewrite (dict_get_set_other _ _ String.eqb String.eqb_eq).
Qed.

Lemma dates_of_set (t : by_type) (c c' : string) (m : by_date) :
  dates_of (dict_set String.eqb t c m) c' =
  if String.eqb c c' then m else dates_of t c'.
Proof.
  unfold dates_of. destruct (String.eqb_spec c c') as [->|N].
  - now rewrite (dict_get_set_same _ _ String.eqb String.eqb_eq).
  - now rewrite (dict_get_set_other _ _ String.eqb String.eqb_eq).
Qed.

(** Replacing the dates of one symbol and one category. *)
Lemma lookup3_put (h : history) (s c : string) (m : by_date)
      (s' c' : string) (k' : pykey) :
  lookup3 (dict_set String.eqb h s (dict_set String.eqb (types_of h s) c m))
          s' c' k' =
  if String.eqb s s' && String.eqb c c'
  then dict_get pykey_eqb m k' else lookup3 h s' c' k'.
Proof.
  unfold lookup3. rewrite types_of_set.
  destruct (String.eqb_spec s s') as [->|N]; [|reflexivity].
  rewrite dates_of_set. now destruct (String.eqb c c').
Qed.

Lemma lookup3_record (h : history) (s c : string) (k : pykey) (v : json)
      (s' c' : string) (k' : pykey) :
  lookup3 (record h s c k v) s' c' k' =
  if String.eqb s s' && String.eqb c c' && pykey_eqb k k'
  then Some v else lookup3 h s' c' k'.
Proof.
  unfold record. rewrite lookup3_put.
  destruct (String.eqb_spec s s') as [->|N]; [|reflexivity].
  destruct (String.eqb_spec c c') as [->|N]; [|reflexivity].
  simpl. destruct (pykey_eqb k k') eqn:E.
  - apply pykey_eqb_eq in E. subst k'.
    apply (dict_get_set_same _ _ pykey_eqb pykey_eqb_eq).
  - rewrite (dict_get_set_other _ _ pykey_eqb pykey_eqb_eq); [reflexivity|].
    intros ->. rewrite (eqb_same _ pykey_eqb pykey_eqb_eq) in E. discriminate.
Qed.

Lemma lookup3_merge_dates (h : history) (s c : string) (m : by_date)
      (s' c' : string) (k' : pykey) :
  NoDup (dict_keys m) ->
  lookup3 (merge_dates h s c m) s' c' k' =
  if String.eqb s s' && String.eqb c c'
  then match dict_get pykey_eqb m k' with
       | Some v => Some v
       | None => lookup3 h s' c' k'
       end
  else lookup3 h s' c' k'.
Proof.
  intros N. unfold merge_dates. rewrite lookup3_put.
  destruct (String.eqb_spec s s') as [->|Ns]; [|reflexivity].
  destruct (String.eqb_spec c c') as [->|Nc]; [|reflexivity].
  simpl. now rewrite (dict_update_get _ _ pykey_eqb pykey_eqb_eq).
Qed.

Lemma types_of_ensure (h : history) (s s' : string) :
  types_of (if dict_mem String.eqb h s then h else dict_set String.eqb h s []) s'
  = types_of h s'.
Proof. exact (ensure_get _ _ String.eqb String.eqb_eq h s s'). Qed.

Lemma dates_of_ensure (t : by_type) (c c' : string) :
  dates_of (if dict_mem String.eqb t c then t else dict_set String.eqb t c []) c'
  = dates_of t c'.
Proof. exact (ensure_get _ _ String.eqb String.eqb_eq t c c'). Qed.

Lemma lookup3_ensure (h : history) (s s' c' : string) (k' : pykey) :
  lookup3 (if dict_mem String.eqb h s then h else dict_set String.eqb h s [])
          s' c' k' = lookup3 h s' c' k'.
Proof. unfold lookup3. now rewrite types_of_ensure. Qed.

Lemma lookup3_absent (h : history) (s c : string) (k : pykey) :
  ~ In s (dict_keys h) -> lookup3 h s c k = None.
Proof.
  intros N. unfold lookup3, types_of.
  apply (dict_get_none _ _ String.eqb String.eqb_eq) in N. now rewrite N.
Qed.

Lemma lookup3_cons (s0 : string) (t0 : by_type) (h : history)
      (s c : string) (k : pykey) :
  lookup3 ((s0, t0) :: h) s c k =
  if String.eqb s0 s then dict_get pykey_eqb (dates_of t0 c) k
  else lookup3 h s c k.
Proof. unfold lookup3, types_of. simpl. now destruct (String.eqb s0 s). Qed.

Lemma dates_of_cons (c0 : string) (m0 : by_date) (t : by_type) (c : string) :
  dates_of ((c0, m0) :: t) c = if String.eqb c0 c then m0 else dates_of t c.
Proof. unfold dates_of. simpl. now destruct (String.eqb c0 c). Qed.

Lemma dates_of_absent (t : by_type) (c : string) :
  ~ In c (dict_keys t) -> dates_of t c = [].
Proof.
  intros N. unfold dates_of.
  apply (dict_get_none _ _ String.eqb String.eqb_eq) in N. now rewrite N.
Qed.

(** Merging the categories of one symbol, then a whole file. *)
Lemma lookup3_merge_types_from (s : string) (t : by_type)
      (s' c' : string) (k' : pykey) : forall h0,
  wf_types t ->
  lookup3 (fold_left (fun h cm => merge_dates h s (fst cm) (snd cm)) t h0)
          s' c' k' =
  if String.eqb s s'
  then match dict_get pykey_eqb (dates_of t c') k' with
       | Some v => Some v
       | None => lookup3 h0 s' c' k'
       end
  else lookup3 h0 s' c' k'.
Proof.
  induction t as [|[c m] t IH]; intros h0 [Nk Fm]; simpl fold_left.
  - unfold dates_of. simpl. now destruct (String.eqb s s').
  - simpl in Nk. inversion Nk as [|? ? Nc Nt]; subst.
    inversion Fm as [|? ? Nm Ft]; subst. simpl in Nm.
    rewrite IH by (split; assumption).
    rewrite lookup3_merge_dates by assumption.
    rewrite dates_of_cons.
    destruct (String.eqb_spec s s') as [->|Ns]; [|reflexivity].
    simpl andb.
    destruct (String.eqb_spec c c') as [->|Ncc]; [|reflexivity].
    now rewrite (dates_of_absent t c' Nc).
Qed.

Lemma lookup3_merge_types (h : history) (s : string) (t : by_type)
      (s' c' : string) (k' : pykey) :
  wf_types t ->
  lookup3 (merge_types h s t) s' c' k' =
  if String.eqb s s'
  then match dict_get pykey_eqb (dates_of t c') k' with
       | Some v => Some v
       | None => lookup3 h s' c' k'
       end
  else lookup3 h s' c' k'.
Proof.
  intros W. unfold merge_types.
  rewrite lookup3_merge_types_from by assumption.
  now rewrite lookup3_ensure.
Qed.

(** Last write wins: after the merge of the mapping [fm] of a file, a
    triple bound in [fm] has the value of [fm], any other keeps its own. *)
Lemma lookup3_merge_all (fm : history) (s c : string) (k : pykey) : forall h,
  wf_history fm ->
  lookup3 (merge_all h fm) s c k =
  match lookup3 fm s c k with
  | Some v => Some v
  | None => lookup3 h s c k
  end.
Proof.
  unfold merge_all.
  induction fm as [|[s0 t0] fm IH]; intros h [Nk Ft]; simpl fold_left.
  - reflexivity.
  - simpl in Nk. inversion Nk as [|? ? Ns Nf]; subst.
    inversion Ft as [|? ? Wt Ff]; subst. simpl in Wt.
    rewrite IH by (split; assumption).
    rewrite lookup3_merge_types by assumption.
    rewrite lookup3_cons.
    destruct (String.eqb_spec s0 s) as [->|N]; [|reflexivity].
    now rewrite (lookup3_absent fm s c k Ns).
Qed.

(* ------------------------------------------------------------------ *)
(** ** One binding per key is kept *)

Lemma wf_types_nil : wf_types [].
Proof. split; constructor. Qed.

Lemma wf_history_nil : wf_history [].
Proof. split; constructor. Qed.

Lemma wf_types_of (h : history) (s : string) :
  wf_history h -> wf_types (types_of h s).
Proof.
  intros [_ F]. unfold types_of.
  destruct (dict_get String.eqb h s) as [t|] eqn:G; [|exact wf_types_nil].
  exact (dict_get_forall _ _ String.eqb String.eqb_eq wf_types h s t F G).
Qed.

Lemma nodup_dates_of (t : by_type) (c : string) :
  wf_types t -> NoDup (dict_keys (dates_of t c)).
Proof.
  intros [_ F]. unfold dates_of.
  destruct (dict_get String.eqb t c) as [m|] eqn:G; [|constructor].
  exact (dict_get_forall _ _ String.eqb String.eqb_eq
           (fun m => NoDup (dict_keys m)) t c m F G).
Qed.

Lemma wf_put (h : history) (s c : string) (m : by_date) :
  wf_history h -> NoDup (dict_keys m) ->
  wf_history (dict_set String.eqb h s (dict_set String.eqb (types_of h s) c m)).
Proof.
  intros W Nm. pose proof (wf_types_of h s W) as [Nt Ft].
  destruct W as [Nh Fh]. split.
  - now apply (dict_keys_set_nodup _ _ String.eqb String.eqb_eq).
  - apply (dict_set_forall _ _ String.eqb wf_types); [exact Fh|].
    split.
    + now apply (dict_keys_set_nodup _ _ String.eqb String.eqb_eq).
    + now apply (dict_set_forall _ _ String.eqb (fun m => NoDup (dict_keys m))).
Qed.

Lemma wf_record (h : history) (s c : string) (k : pykey) (v : json) :
  wf_history h -> wf_history (record h s c k v).
Proof.
  intros W. apply wf_put; [exact W|].
  apply (dict_keys_set_nodup _ _ pykey_eqb pykey_eqb_eq).
  apply nodup_dates_of, wf_types_of, W.
Qed.

Lemma wf_merge_dates (h : history) (s c : string) (m : by_date) :
  wf_history h -> wf_history (merge_dates h s c m).
Proof.
  intros W. apply wf_put; [exact W|].
  apply (dict_update_nodup _ _ pykey_eqb pykey_eqb_eq).
  apply nodup_dates_of, wf_types_of, W.
Qed.

Lemma wf_ensure (h : history) (s : string) :
  wf_history h ->
  wf_history (if dict_mem String.eqb h s then h else dict_set String.eqb h s []).
Proof.
  intros W. destruct (dict_mem String.eqb h s); [exact W|].
  destruct W as [N F]. split.
  - now apply (dict_keys_set_nodup _ _ String.eqb String.eqb_eq).
  - apply (dict_set_forall _ _ String.eqb wf_types); [exact F|exact wf_types_nil].
Qed.

Lemma wf_merge_types (h : history) (s : string) (t : by_type) :
  wf_history h -> wf_history (merge_types h s t).
Proof.
  intros W. unfold merge_types. apply wf_ensure with (s := s) in W.
  revert W.
  generalize (if dict_mem String.eqb h s then h else dict_set String.eqb h s []).
  induction t as [|[c m] t IH]; intros h0 W; simpl; [exact W|].
  apply IH. now apply wf_merge_dates.
Qed.

Lemma wf_merge_all (fm : history) : forall h,
  wf_history h -> wf_history (merge_all h fm).
Proof.
  unfold merge_all. induction fm as [|[s t] fm IH]; intros h W; simpl; [exact W|].
  apply IH. now apply wf_merge_types.
Qed.

(* ------------------------------------------------------------------ *)
(** ** The merge loops of the main block run without [KeyError] *)

Lemma for_each_ret {A S : Type} (I : S -> Prop) (f : S -> A -> S)
      (body : A -> S -> io S) (xs : list A) :
  (forall x s, I s -> body x s = ret (f s x) /\ I (f s x)) ->
  forall s, I s -> for_each xs body s = ret (fold_left f xs s).
Proof.
  intros B. induction xs as [|x xs IH]; intros s Is; simpl; [reflexivity|].
  destruct (B x s Is) as [E If]. rewrite E. simpl.
  rewrite (IH _ If). reflexivity.
Qed.

Lemma mem_types_of (h : history) (s : string) :
  dict_mem String.eqb h s = true ->
  getitem String.eqb h s = Ok (types_of h s).
Proof.
  unfold dict_mem, getitem, types_of.
  now destruct (dict_get String.eqb h s).
Qed.

Lemma getitem_ensure_types (h : history) (s : string) :
  getitem String.eqb
    (if dict_mem String.eqb h s then h else dict_set String.eqb h s []) s
  = Ok (types_of h s).
Proof. exact (ensure_getitem _ _ String.eqb String.eqb_eq h s). Qed.

Lemma getitem_ensure_dates (t : by_type) (c : string) :
  getitem String.eqb
    (if dict_mem String.eqb t c then t else dict_set String.eqb t c []) c
  = Ok (dates_of t c).
Proof. exact (ensure_getitem _ _ String.eqb String.eqb_eq t c). Qed.

Lemma set_ensure_types (h : history) (s : string) (x : by_type) :
  dict_set String.eqb
    (if dict_mem String.eqb h s then h else dict_set String.eqb h s []) s x
  = dict_set String.eqb h s x.
Proof. exact (ensure_set _ _ String.eqb String.eqb_eq h s x). Qed.

Lemma set_ensure_dates (t : by_type) (c : string) (x : by_date) :
  dict_set String.eqb
    (if dict_mem String.eqb t c then t else dict_set String.eqb t c []) c x
  = dict_set String.eqb t c x.
Proof. exact (ensure_set _ _ String.eqb String.eqb_eq t c x). Qed.

Lemma merge_type_run (s : string) (cm : string * by_date) (all : history) :
  dict_mem String.eqb all s = true ->
  merge_type s cm all = ret (merge_dates all s (fst cm) (snd cm))
  /\ dict_mem String.eqb (merge_dates all s (fst cm) (snd cm)) s = true.
Proof.
  intros M. destruct cm as [c m]. split.
  - unfold merge_type. rewrite (mem_types_of all s M). cbn [lift bind].
    rewrite getitem_ensure_dates. cbn [lift bind ret app].
    now rewrite set_ensure_dates.
  - unfold dict_mem, merge_dates.
    now rewrite (dict_get_set_same _ _ String.eqb String.eqb_eq).
Qed.

Lemma merge_symbol_run (st : string * by_type) (all : history) :
  merge_symbol st all = ret (merge_types all (fst st) (snd st)).
Proof.
  destruct st as [s t]. unfold merge_symbol, merge_types. simpl fst. simpl snd.
  apply (for_each_ret (fun h => dict_mem String.eqb h s = true)).
  - intros cm h M. now apply merge_type_run.
  - unfold dict_mem at 1. destruct (dict_mem String.eqb all s) eqn:M.
    + exact M.
    + now rewrite (dict_get_set_same _ _ String.eqb String.eqb_eq).
Qed.

Lemma merge_run (fm all : history) :
  for_each fm merge_symbol all = ret (merge_all all fm).
Proof.
  unfold merge_all.
  apply (for_each_ret (fun _ => True)); [|exact I].
  intros st h _. split; [apply merge_symbol_run | exact I].
Qed.

(* ================================================================== *)
(** * The history loader on a file that decodes to an object *)

Section LoaderFacts.
Variable read_json : string -> outcome json.
Variable file_path : string.
Variable datetime_parser_func : string -> io parsed_key.

(** An entry whose key gives a symbol that is not empty and a date is
    recorded under the three keys and counted. *)
Lemma history_entry_taken (data_type_key key_string : string) (value : json)
      (st : loader_state) (symbol : string) (date_obj : date) (out : list line) :
  datetime_parser_func key_string = (Ok (Some symbol, Some date_obj), out) ->
  symbol <> EmptyString ->
  history_entry file_path datetime_parser_func data_type_key
    (key_string, value) st
  = (Ok (apply_entry st ((symbol, data_type_key, KDate date_obj), value)), out).
Proof.
  intros P N. unfold history_entry. rewrite P. cbn [bind].
  assert (T : truthy_symbol (Some symbol) && truthy_date (Some date_obj) = true).
  { simpl. rewrite andb_true_r. apply negb_true_iff.
    now apply String.eqb_neq. }
  rewrite T. rewrite getitem_ensure_types. cbn [lift bind].
  rewrite getitem_ensure_dates. cbn [lift bind ret].
  rewrite set_ensure_types, set_ensure_dates.
  rewrite !app_nil_r. reflexivity.
Qed.

(** Any other answer of the parser leaves the state as it is and prints
    the warning. *)
Lemma history_entry_skipped (data_type_key key_string : string) (value : json)
      (st : loader_state) (r : parsed_key) (out : list line) :
  datetime_parser_func key_string = (Ok r, out) -> accepted r = None ->
  history_entry file_path datetime_parser_func data_type_key
    (key_string, value) st
  = (Ok st, out ++ [WarnKeySkipped key_string file_path]).
Proof.
  intros P A. unfold history_entry. rewrite P. cbn [bind].
  destruct r as [[symbol|] [date_obj|]]; try reflexivity.
  unfold accepted in A.
  destruct (truthy_symbol (Some symbol) && truthy_date (Some date_obj));
    [discriminate | reflexivity].
Qed.
End LoaderFacts.

Lemma accepted_some (r : parsed_key) (symbol : string) (date_obj : date) :
  accepted r = Some (symbol, date_obj) ->
  r = (Some symbol, Some date_obj) /\ symbol <> EmptyString.
Proof.
  destruct r as [[s|] [d|]]; simpl; try discriminate.
  rewrite andb_true_r. destruct (String.eqb_spec s ""); simpl; [discriminate|].
  intros H. inversion H; subst. now split.
Qed.

Lemma parser_returns (key_string : string) :
  exists r out, parse_datetime_from_string_key key_string = (Ok r, out).
Proof.
  destruct (parser_outcome key_string) as [out [H | (symbol & dt & H & _)]];
    rewrite H; eauto.
Qed.

Section LoaderRuns.
Variable read_json : string -> outcome json.
Variable file_path : string.

Lemma entry_of_taken (data_type_key key_string : string) (value : json)
      (symbol : string) (date_obj : date) (out : list line) :
  parse_datetime_from_string_key key_string
  = (Ok (Some symbol, Some date_obj), out) ->
  symbol <> EmptyString ->
  entry_of data_type_key (key_string, value)
  = [((symbol, data_type_key, KDate date_obj), value)].
Proof.
  intros P N. unfold entry_of, accepted_key. cbn [fst snd]. rewrite P.
  cbn [fst accepted truthy_symbol truthy_date].
  apply String.eqb_neq in N. now rewrite N.
Qed.

Lemma entry_of_skipped (data_type_key key_string : string) (value : json)
      (r : parsed_key) (out : list line) :
  parse_datetime_from_string_key key_string = (Ok r, out) ->
  accepted r = None ->
  entry_of data_type_key (key_string, value) = [].
Proof.
  intros P A. unfold entry_of, accepted_key. cbn [fst snd]. rewrite P.
  cbn [fst]. now rewrite A.
Qed.

Lemma history_entry_fst (data_type_key : string) (kv : string * json)
      (st : loader_state) :
  fst (history_entry file_path parse_datetime_from_string_key data_type_key kv st)
  = Ok (fold_left apply_entry (entry_of data_type_key kv) st).
Proof.
  destruct kv as [key_string value].
  destruct (parser_returns key_string) as (r & out & P).
  destruct (accepted r) as [[symbol date_obj]|] eqn:A.
  - apply accepted_some in A as [-> N].
    rewrite (history_entry_taken file_path _ data_type_key key_string
               value st symbol date_obj out P N).
    now rewrite (entry_of_taken data_type_key key_string value symbol
                   date_obj out P N).
  - rewrite (history_entry_skipped file_path _ data_type_key key_string
               value st r out P A).
    now rewrite (entry_of_skipped data_type_key key_string value r out P A).
Qed.

Lemma history_category_fst (kd : string * json) (st : loader_state) :
  fst (history_category file_path parse_datetime_from_string_key kd st)
  = Ok (fold_left apply_entry (category_entries kd) st).
Proof.
  destruct kd as [data_type_key data_dict]. unfold history_category, category_entries.
  simpl fst. simpl snd.
  destruct data_dict; try reflexivity.
  rewrite fold_left_flat_map.
  apply for_each_fold. intros kv s. apply history_entry_fst.
Qed.

(** The loader on an object: the state after all the entries of the file,
    recorded one after the other. *)
Lemma loader_run (categories : list (string * json)) :
  read_json file_path = Ok (JObj categories) ->
  fst (parse_history_file read_json file_path parse_datetime_from_string_key)
  = let st := fold_left apply_entry (file_entries (JObj categories))
                (mkstate [] [] 0) in
    Ok (Some (parsed_data st),
        Z.of_nat (List.length (symbols_in_file st)),
        items_in_file st).
Proof.
  intros R. unfold parse_history_file. rewrite R. cbn [json_items lift bind].
  pose proof (for_each_fold
                (fun st kd => fold_left apply_entry (category_entries kd) st)
                (history_category file_path parse_datetime_from_string_key)
                categories history_category_fst (mkstate [] [] 0)) as F.
  destruct (for_each categories _ _) as [r out]. simpl in F. subst r.
  cbn [bind ret fst]. unfold file_entries.
  now rewrite fold_left_flat_map.
Qed.
End LoaderRuns.

(* ------------------------------------------------------------------ *)
(** ** The state of the loader after a list of entries *)

Lemma triple_eqb_eq (a b : triple) : triple_eqb a b = true <-> a = b.
Proof.
  destruct a as [[s c] k], b as [[s' c'] k']. unfold triple_eqb.
  rewrite !andb_true_iff, !String.eqb_eq, pykey_eqb_eq. split.
  - intros [[-> ->] ->]. reflexivity.
  - intros H. inversion H. auto.
Qed.

Lemma last_write_app (a b : list (triple * json)) (t : triple) :
  last_write (a ++ b) t =
  match last_write b t with Some v => Some v | None => last_write a t end.
Proof.
  induction a as [|e a IH]; simpl.
  - now destruct (last_write b t).
  - rewrite IH. now destruct (last_write b t).
Qed.

Lemma last_write_in (es : list (triple * json)) (t : triple) :
  last_write es t <> None <-> In t (map fst es).
Proof.
  induction es as [|e es IH]; simpl; [tauto|].
  destruct (last_write es t) as [v|].
  - split; [intros _; right; apply IH; discriminate | discriminate].
  - destruct (triple_eqb (fst e) t) eqn:E.
    + apply triple_eqb_eq in E. split; [now left | discriminate].
    + split; [contradiction|]. intros [H|H].
      * apply triple_eqb_eq in H. congruence.
      * apply IH in H. contradiction.
Qed.

Lemma lookup_triple_record (h : history) (t : triple) (v : json) (t' : triple) :
  lookup_triple (record h (fst (fst t)) (snd (fst t)) (snd t) v) t' =
  if triple_eqb t t' then Some v else lookup_triple h t'.
Proof.
  destruct t as [[s c] k], t' as [[s' c'] k']. simpl. apply lookup3_record.
Qed.

Lemma apply_entry_data (st : loader_state) (e : triple * json) :
  parsed_data (apply_entry st e)
  = record (parsed_data st) (fst (fst (fst e))) (snd (fst (fst e)))
      (snd (fst e)) (snd e).
Proof. now destruct e as [[[s c] k] v]. Qed.

Lemma fold_entries_lookup (es : list (triple * json)) (t : triple) :
  forall st,
    lookup_triple (parsed_data (fold_left apply_entry es st)) t =
    match last_write es t with
    | Some v => Some v
    | None => lookup_triple (parsed_data st) t
    end.
Proof.
  induction es as [|e es IH]; intros st; simpl; [reflexivity|].
  rewrite IH. destruct (last_write es t); [reflexivity|].
  rewrite apply_entry_data, lookup_triple_record.
  now destruct (triple_eqb (fst e) t).
Qed.

Lemma fold_entries_items (es : list (triple * json)) : forall st,
  items_in_file (fold_left apply_entry es st)
  = (items_in_file st + Z.of_nat (List.length es))%Z.
Proof.
  induction es as [|e es IH]; intros st; simpl fold_left.
  - simpl. lia.
  - rewrite IH. destruct e as [[[s c] k] v]. simpl items_in_file.
    simpl List.length. lia.
Qed.

Lemma fold_entries_wf (es : list (triple * json)) : forall st,
  wf_history (parsed_data st) ->
  wf_history (parsed_data (fold_left apply_entry es st)).
Proof.
  induction es as [|e es IH]; intros st W; simpl; [exact W|].
  apply IH. rewrite apply_entry_data. now apply wf_record.
Qed.

Lemma existsb_keys_mem (h : history) (s : string) :
  existsb (String.eqb s) (dict_keys h) = dict_mem String.eqb h s.
Proof.
  unfold dict_mem. induction h as [|[s0 t0] h IH]; simpl; [reflexivity|].
  rewrite String.eqb_sym. destruct (String.eqb s0 s); [reflexivity|exact IH].
Qed.

(** The set of symbols of the loader is the list of the symbols bound in
    its mapping. *)
Lemma fold_entries_symbols (es : list (triple * json)) : forall st,
  symbols_in_file st = dict_keys (parsed_data st) ->
  symbols_in_file (fold_left apply_entry es st)
  = dict_keys (parsed_data (fold_left apply_entry es st)).
Proof.
  induction es as [|e es IH]; intros st E; simpl; [exact E|].
  apply IH. destruct e as [[[s c] k] v]. simpl. unfold record.
  rewrite (dict_keys_set _ _ String.eqb), E. unfold set_add.
  now rewrite existsb_keys_mem.
Qed.

(* ------------------------------------------------------------------ *)
(** ** The history loop of the main block, were the loader bound *)

Section HistoryLoop.
Variable read_json : string -> outcome json.
Variable globals : list string.
Hypothesis loader_bound : is_defined globals "parse_history_file" = true.
Hypothesis parser_bound :
  is_defined globals "parse_datetime_from_string_key" = true.

Lemma history_file_step_fst (f : string) (acc : history_totals) :
  loadable read_json f = true ->
  fst (history_file_step read_json globals f acc)
  = Ok (history_step read_json acc f).
Proof.
  intros L. unfold history_file_step, history_step, lookup_global.
  rewrite loader_bound, parser_bound. unfold loadable in L.
  cbn [print bind ret app].
  destruct (read_json f) as [raw|e] eqn:R.
  - destruct raw as [ | | | | | |categories]; try discriminate.
    pose proof (loader_run read_json f categories R) as Run.
    destruct (parse_history_file read_json f parse_datetime_from_string_key)
      as [r out].
    simpl in Run. subst r. cbn [bind print]. rewrite merge_run. reflexivity.
  - unfold parse_history_file. rewrite R.
    destruct (is_FileNotFoundError e); [reflexivity|].
    destruct (is_JSONDecodeError e); reflexivity.
Qed.

Lemma history_loop_run (files : list string) :
  Forall (fun f => loadable read_json f = true) files ->
  fst (parse_history_files read_json globals files)
  = Ok (fold_left (history_step read_json) files (mktotals [] 0 0)).
Proof.
  intros L. unfold parse_history_files. apply for_each_fold_on.
  apply Forall_forall. intros f I s. apply history_file_step_fst.
  rewrite Forall_forall in L. now apply L.
Qed.

Lemma history_step_lookup (acc : history_totals) (f : string) (t : triple) :
  lookup_triple (all_history_data (history_step read_json acc f)) t =
  match last_write (recorded read_json [f]) t with
  | Some v => Some v
  | None => lookup_triple (all_history_data acc) t
  end.
Proof.
  unfold history_step, recorded. simpl flat_map. rewrite app_nil_r.
  destruct (read_json f) as [raw|e]; [|reflexivity].
  destruct raw; try reflexivity.
  cbn [all_history_data].
  pose proof (fold_entries_lookup (file_entries (JObj members)) t
                (mkstate [] [] 0)) as E.
  pose proof (fold_entries_wf (file_entries (JObj members))
                (mkstate [] [] 0) wf_history_nil) as W.
  destruct t as [[s c] k]. simpl lookup_triple in *.
  rewrite lookup3_merge_all by exact W.
  rewrite E. now destruct (last_write _ _).
Qed.

Lemma recorded_cons (f : string) (files : list string) :
  recorded read_json (f :: files)
  = recorded read_json [f] ++ recorded read_json files.
Proof. unfold recorded. simpl. now rewrite app_nil_r. Qed.

Lemma recorded_app (a b : list string) :
  recorded read_json (a ++ b) = recorded read_json a ++ recorded read_json b.
Proof. unfold recorded. apply flat_map_app. Qed.

(** Last write wins over the whole run: a triple has the value of the last
    entry recorded under it. *)
Lemma history_loop_lookup (files : list string) (t : triple) : forall acc,
  lookup_triple
    (all_history_data (fold_left (history_step read_json) files acc)) t =
  match last_write (recorded read_json files) t with
  | Some v => Some v
  | None => lookup_triple (all_history_data acc) t
  end.
Proof.
  induction files as [|f files IH]; intros acc; simpl fold_left; [reflexivity|].
  rewrite recorded_cons, last_write_app, IH, history_step_lookup.
  now destruct (last_write (recorded read_json files) t).
Qed.

End HistoryLoop.

(* ================================================================== *)
(** * Counting the leaves of a mapping *)

Lemma nodup_flat_map_keyed {K V T : Type} (g : K * V -> list T) (key : T -> K)
      (l : list (K * V)) :
  NoDup (map fst l) ->
  (forall x, In x l -> NoDup (g x)) ->
  (forall x y, In x l -> In y (g x) -> key y = fst x) ->
  NoDup (flat_map g l).
Proof.
  induction l as [|x l IH]; intros N G Key; simpl; [constructor|].
  inversion N as [|? ? Nx Nl]; subst.
  apply NoDup_app.
  - apply G. now left.
  - apply IH; [assumption | |].
    + intros x' I. apply G. now right.
    + intros x' y I. apply Key. now right.
  - intros y Iy Iy'. apply in_flat_map in Iy' as (x' & Ix' & Iy').
    apply Nx. rewrite <- (Key x y (or_introl eq_refl) Iy).
    rewrite (Key x' y (or_intror Ix') Iy').
    now apply in_map.
Qed.

Lemma leaf_keys_nodup (h : history) : wf_history h -> NoDup (leaf_keys h).
Proof.
  intros [Nh Fh]. unfold leaf_keys.
  apply (nodup_flat_map_keyed _ (fun t : triple => fst (fst t))).
  - exact Nh.
  - intros [s t] I. simpl.
    rewrite Forall_forall in Fh. destruct (Fh _ I) as [Nt Ft]. simpl in Nt, Ft.
    apply (nodup_flat_map_keyed _ (fun t : triple => snd (fst t))).
    + exact Nt.
    + intros [c m] Ic. simpl. rewrite Forall_forall in Ft.
      specialize (Ft _ Ic). simpl in Ft.
      clear -Ft. induction m as [|[k v] m IH]; simpl; [constructor|].
      inversion Ft as [|? ? Nk Nm]; subst. constructor; [|now apply IH].
      intros I. apply Nk. apply in_map_iff in I as ([k' v'] & E & I).
      inversion E; subst. change k with (fst (k, v')). now apply in_map.
    + intros [c m] y _ Iy. simpl in *.
      apply in_map_iff in Iy as (kv & <- & _). reflexivity.
  - intros [s t] y _ Iy. simpl in *.
    apply in_flat_map in Iy as ([c m] & _ & Iy). simpl in Iy.
    apply in_map_iff in Iy as (kv & <- & _). reflexivity.
Qed.

Lemma leaf_keys_in (h : history) (t : triple) :
  wf_history h -> (In t (leaf_keys h) <-> lookup_triple h t <> None).
Proof.
  intros [Nh Fh]. destruct t as [[s c] k]. unfold leaf_keys, lookup_triple.
  rewrite Forall_forall in Fh. split.
  - intros I. apply in_flat_map in I as ([s' t'] & Is & I). simpl in I.
    apply in_flat_map in I as ([c' m] & Ic & I). simpl in I.
    apply in_map_iff in I as ([k' v] & E & Ik). inversion E; subst.
    destruct (Fh _ Is) as [Nt Ft]. simpl in Nt, Ft.
    rewrite Forall_forall in Ft. pose proof (Ft _ Ic) as Nm. simpl in Nm.
    unfold lookup3, types_of, dates_of.
    rewrite (dict_in_get string by_type String.eqb String.eqb_eq h s t' Nh Is).
    cbv iota.
    rewrite (dict_in_get string by_date String.eqb String.eqb_eq t' c m Nt Ic).
    cbv iota.
    rewrite (dict_in_get pykey json pykey_eqb pykey_eqb_eq m k v Nm Ik).
    discriminate.
  - unfold lookup3, types_of, dates_of. intros L.
    destruct (dict_get String.eqb h s) as [t'|] eqn:Gs; [|now elim L].
    destruct (dict_get String.eqb t' c) as [m|] eqn:Gc; [|now elim L].
    destruct (dict_get pykey_eqb m k) as [v|] eqn:Gk; [|now elim L].
    apply (dict_get_in _ _ String.eqb String.eqb_eq) in Gs.
    apply (dict_get_in _ _ String.eqb String.eqb_eq) in Gc.
    apply (dict_get_in _ _ pykey_eqb pykey_eqb_eq) in Gk.
    apply in_flat_map. exists (s, t'). split; [exact Gs|]. simpl.
    apply in_flat_map. exists (c, m). split; [exact Gc|]. simpl.
    apply in_map_iff. exists (k, v). now split.
Qed.

(** A list without repetition with the same members as [L] is no longer
    than [L], and as long exactly when [L] has no repetition. *)
Lemma count_distinct {T : Type} (l L : list T) :
  NoDup l -> (forall t, In t l <-> In t L) ->
  (List.length l <= List.length L)%nat
  /\ (List.length l = List.length L <-> NoDup L).
Proof.
  intros N E.
  assert (I1 : incl l L) by (intros t; apply E).
  assert (I2 : incl L l) by (intros t; apply E).
  pose proof (NoDup_incl_length N I1) as Le. split; [exact Le|]. split.
  - intros Eq. apply (NoDup_incl_NoDup N); [lia | exact I1].
  - intros NL. pose proof (NoDup_incl_length NL I2). lia.
Qed.

(** C10 (amended).  For a history file that decodes to an object, the item
    count that the loader returns is the number of entries that it
    recorded; it is at least the number of (symbol, category, date) leaves
    of the mapping that the loader returns; and the two are equal exactly
    when no two recorded entries of the file have the same triple. *)
Theorem item_count_bounds_leaves
        (read_json : string -> outcome json) (file_path : string)
        (categories : list (string * json)) :
  read_json file_path = Ok (JObj categories) ->
  exists m sym_count item_count,
    fst (parse_history_file read_json file_path parse_datetime_from_string_key)
    = Ok (Some m, sym_count, item_count)
    /\ item_count = Z.of_nat (List.length (file_entries (JObj categories)))
    /\ (leaf_count m <= item_count)%Z
    /\ (leaf_count m = item_count
        <-> NoDup (map fst (file_entries (JObj categories)))).
Proof.
  intros R. rewrite (loader_run read_json file_path categories R). cbv zeta.
  set (es := file_entries (JObj categories)).
  set (st := fold_left apply_entry es (mkstate [] [] 0)).
  exists (parsed_data st), (Z.of_nat (List.length (symbols_in_file st))),
    (items_in_file st).
  assert (T : items_in_file st = Z.of_nat (List.length es)).
  { unfold st. rewrite fold_entries_items. simpl. lia. }
  assert (W : wf_history (parsed_data st)).
  { unfold st. apply fold_entries_wf. exact wf_history_nil. }
  assert (M : forall t, In t (leaf_keys (parsed_data st)) <-> In t (map fst es)).
  { intros t. rewrite (leaf_keys_in _ t W). unfold st.
    rewrite fold_entries_lookup, <- last_write_in.
    destruct (last_write es t); [|destruct t as [[s c] k]];
      simpl; split; intros H; try discriminate; now elim H. }
  destruct (count_distinct _ _ (leaf_keys_nodup _ W) M) as [Le Eq].
  rewrite length_map in Le, Eq.
  split; [reflexivity|]. split; [exact T|]. unfold leaf_count. rewrite T.
  split; [lia|]. rewrite <- Eq. lia.
Qed.

Lemma item_count_bounds_leaves_witness :
  exists m sym_count item_count,
    fst (parse_history_file sample_read_json "b_history.json"
           parse_datetime_from_string_key)
    = Ok (Some m, sym_count, item_count)
    /\ item_count
       = Z.of_nat
           (List.length
              (file_entries
                 (JObj [("close",
                         JObj [("('AAPL', datetime.date(2023, 1, 1))",
                                JFloat 151 0)]);
                        ("open",
                         JObj [("('MSFT', datetime.date(2023, 1, 1))",
                                JInt 250)])])))
    /\ (leaf_count m <= item_count)%Z
    /\ (leaf_count m = item_count
        <-> NoDup
              (map fst
                 (file_entries
                    (JObj [("close",
                            JObj [("('AAPL', datetime.date(2023, 1, 1))",
                                   JFloat 151 0)]);
                           ("open",
                            JObj [("('MSFT', datetime.date(2023, 1, 1))",
                                   JInt 250)])])))).
Proof.
  apply (item_count_bounds_leaves sample_read_json "b_history.json").
  reflexivity.
Defined.

(** C10 as stated fails on a directory that holds one history file whose
    two keys differ by a space.  Run as a script, the module reaches the
    history loop with the loaders not yet defined: the loop stops on the
    file with [NameError] and no total is reported.  And the loader, called
    on the file, counts two items for the one leaf of the mapping it
    returns, although no other file shares the triple. *)
Lemma no_total_and_two_items_for_one_leaf :
  parse_history_files twice_read_json globals_at_main ["a_history.json"]
  = (Raise NameError, [ParsingHistoryFile "a_history.json"])
  /\ exists m,
       parse_history_file twice_read_json "a_history.json"
         parse_datetime_from_string_key
       = (Ok (Some m, 1%Z, 2%Z), [])
       /\ leaf_count m = 1%Z.
Proof.
  split; [reflexivity|].
  eexists. split; [vm_compute; reflexivity | reflexivity].
Qed.

(* ================================================================== *)
(** * The two loops of the main block and the value that wins *)

Section LastWrite.
Variable read_json : string -> outcome json.
Variable globals : list string.
Hypothesis loader_bound : is_defined globals "parse_other_json_file" = true.

Lemma file_lookup (f : string) (t : triple) (m : history) (n1 n2 : Z) :
  loadable read_json f = true ->
  fst (parse_history_file read_json f parse_datetime_from_string_key)
  = Ok (Some m, n1, n2) ->
  last_write (recorded read_json [f]) t = lookup_triple m t.
Proof.
  intros L P. unfold recorded. simpl flat_map. rewrite app_nil_r.
  unfold loadable in L. destruct (read_json f) as [raw|e] eqn:R.
  - destruct raw as [ | | | | | |categories]; try discriminate.
    rewrite (loader_run read_json f categories R) in P. cbv zeta in P.
    inversion P; subst.
    rewrite fold_entries_lookup.
    destruct (last_write _ t); [reflexivity|]. now destruct t as [[s c] k].
  - exfalso. unfold parse_history_file in P. rewrite R in P.
    destruct (is_FileNotFoundError e); [discriminate|].
    destruct (is_JSONDecodeError e); discriminate.
Qed.

Lemma file_lookup_none (f : string) (t : triple) :
  loadable read_json f = true ->
  (forall m n1 n2,
     fst (parse_history_file read_json f parse_datetime_from_string_key)
     = Ok (Some m, n1, n2) -> lookup_triple m t = None) ->
  last_write (recorded read_json [f]) t = None.
Proof.
  intros L H. pose proof L as L'. unfold loadable in L'.
  destruct (read_json f) as [raw|e] eqn:R.
  - destruct raw as [ | | | | | |categories]; try discriminate.
    pose proof (loader_run read_json f categories R) as P. cbv zeta in P.
    rewrite (file_lookup f t _ _ _ L P). exact (H _ _ _ P).
  - unfold recorded. simpl. now rewrite R.
Qed.

Lemma files_lookup_none (files : list string) (t : triple) :
  Forall (fun f => loadable read_json f = true) files ->
  (forall g m n1 n2, In g files ->
     fst (parse_history_file read_json g parse_datetime_from_string_key)
     = Ok (Some m, n1, n2) -> lookup_triple m t = None) ->
  last_write (recorded read_json files) t = None.
Proof.
  induction files as [|g files IH]; intros L H; [reflexivity|].
  inversion L as [|? ? Lg Lfs]; subst.
  rewrite recorded_cons, last_write_app.
  rewrite IH; [| assumption | intros g' m n1 n2 I; apply H; now right].
  apply file_lookup_none; [assumption|].
  intros m n1 n2. apply H. now left.
Qed.

Lemma other_spec_returns (file_path : string) (raw_data : json) :
  exists r out, other_spec file_path raw_data = (Ok r, out).
Proof.
  destruct raw_data as [ | | | | |items| ]; simpl; eauto.
  destruct items as [|first rest]; eauto.
  destruct first as [ | | | | |inner| ]; eauto.
  destruct inner as [|x [|y more]]; eauto; destruct x; eauto.
  destruct y; eauto.
Qed.

Lemma other_loader_returns (f : string) :
  exists r out, parse_other_json_file read_json f = (Ok r, out).
Proof.
  unfold parse_other_json_file. destruct (read_json f) as [raw|e].
  - rewrite validate_other_spec. apply other_spec_returns.
  - destruct (is_FileNotFoundError e); [eexists; eexists; reflexivity|].
    destruct (is_JSONDecodeError e); eexists; eexists; reflexivity.
Qed.

Lemma other_file_step_fst (f : string) (acc : other_totals) :
  fst (other_file_step read_json globals f acc)
  = Ok (other_step read_json acc f).
Proof.
  unfold other_file_step, other_step, lookup_global. rewrite loader_bound.
  cbn [print bind ret app].
  destruct (other_loader_returns f) as (r & out & E). rewrite E.
  cbn [bind fst]. destruct r as [[symbol det]|]; reflexivity.
Qed.

Lemma other_loop_run (files : list string) :
  fst (parse_other_files read_json globals files)
  = Ok (fold_left (other_step read_json) files (mkother [] 0)).
Proof.
  unfold parse_other_files. apply for_each_fold.
  intros f s. apply other_file_step_fst.
Qed.

Lemma other_loop_keep (files : list string) (symbol : string) : forall acc,
  (forall g det', In g files ->
     fst (parse_other_json_file read_json g) <> Ok (Some (symbol, det'))) ->
  dict_get String.eqb
    (all_other_data (fold_left (other_step read_json) files acc)) symbol
  = dict_get String.eqb (all_other_data acc) symbol.
Proof.
  induction files as [|g files IH]; intros acc H; simpl; [reflexivity|].
  rewrite IH by (intros g' det' I; apply H; now right).
  unfold other_step.
  destruct (fst (parse_other_json_file read_json g)) as [[[s' det']|]|e] eqn:E;
    try reflexivity.
  cbn [all_other_data].
  apply (dict_get_set_other _ _ String.eqb String.eqb_eq).
  intros ->. exact (H g det' (or_introl eq_refl) E).
Qed.
End LastWrite.

(** What the two loops would leave if they ran with the loaders bound: when
    a history file gives a value for a triple and no file after it gives
    one for the same triple, the aggregated mapping holds that value,
    whatever the files before it gave; so of two files that both give a
    value, the later wins.  Likewise for the other files: the aggregated
    mapping holds, for a symbol, the details of the last file that named
    it. *)
Lemma merge_keeps_later_value
      (read_json : string -> outcome json) (globals : list string) :
  is_defined globals "parse_history_file" = true ->
  is_defined globals "parse_datetime_from_string_key" = true ->
  is_defined globals "parse_other_json_file" = true ->
  (forall before f after m n1 n2 s c k v,
     Forall (fun g => loadable read_json g = true) (before ++ f :: after) ->
     fst (parse_history_file read_json f parse_datetime_from_string_key)
     = Ok (Some m, n1, n2) ->
     lookup3 m s c k = Some v ->
     (forall g m' n1' n2', In g after ->
        fst (parse_history_file read_json g parse_datetime_from_string_key)
        = Ok (Some m', n1', n2') -> lookup3 m' s c k = None) ->
     exists acc,
       fst (parse_history_files read_json globals (before ++ f :: after))
       = Ok acc
       /\ lookup3 (all_history_data acc) s c k = Some v)
  /\ (forall before f after symbol det,
        fst (parse_other_json_file read_json f) = Ok (Some (symbol, det)) ->
        (forall g det', In g after ->
           fst (parse_other_json_file read_json g) <> Ok (Some (symbol, det'))) ->
        exists acc,
          fst (parse_other_files read_json globals (before ++ f :: after))
          = Ok acc
          /\ dict_get String.eqb (all_other_data acc) symbol = Some det).
Proof.
  intros Bh Bp Bo. split.
  - intros before f after m n1 n2 s c k v L P V Later.
    eexists. split; [now apply history_loop_run|].
    change (lookup_triple
              (all_history_data
                 (fold_left (history_step read_json) (before ++ f :: after)
                    (mktotals [] 0 0))) (s, c, k) = Some v).
    rewrite history_loop_lookup, recorded_app, recorded_cons, !last_write_app.
    apply Forall_app in L as [_ L]. inversion L as [|? ? Lf La]; subst.
    rewrite (files_lookup_none read_json after (s, c, k) La Later).
    rewrite (file_lookup read_json f (s, c, k) m n1 n2 Lf P).
    simpl. now rewrite V.
  - intros before f after symbol det P Later.
    eexists. split; [now apply other_loop_run|].
    rewrite fold_left_app. simpl fold_left.
    rewrite (other_loop_keep read_json after symbol _ Later).
    unfold other_step at 1. rewrite P. cbn [all_other_data].
    apply (dict_get_set_same _ _ String.eqb String.eqb_eq).
Qed.

Lemma merge_keeps_later_value_sample :
  (exists acc,
     fst (parse_history_files sample_read_json globals_of_module
            (["a_history.json"] ++ "b_history.json" :: ["c_history.json"]))
     = Ok acc
     /\ lookup3 (all_history_data acc) "AAPL" "close" (KDate (mkdate 2023 1 1))
        = Some (JFloat 151 0))
  /\ (exists acc,
        fst (parse_other_files sample_read_json globals_of_module
               (["info_1.json"] ++ "info_2.json" :: ["missing.json"])) = Ok acc
        /\ dict_get String.eqb (all_other_data acc) "AAPL"
           = Some [("name", JStr "Apple Inc.")]).
Proof.
  split.
  - apply (proj1 (merge_keeps_later_value sample_read_json globals_of_module
                    eq_refl eq_refl eq_refl)
             ["a_history.json"] "b_history.json" ["c_history.json"]
             [("AAPL", [("close", [(KDate (mkdate 2023 1 1), JFloat 151 0)])]);
              ("MSFT", [("open", [(KDate (mkdate 2023 1 1), JInt 250)])])]
             2%Z 2%Z "AAPL" "close" (KDate (mkdate 2023 1 1)) (JFloat 151 0)).
    + repeat constructor.
    + vm_compute. reflexivity.
    + reflexivity.
    + intros g m' n1' n2' [<-|[]]. vm_compute. discriminate.
  - apply (proj2 (merge_keeps_later_value sample_read_json globals_of_module
                    eq_refl eq_refl eq_refl)
             ["info_1.json"] "info_2.json" ["missing.json"] "AAPL"
             [("name", JStr "Apple Inc.")]).
    + reflexivity.
    + intros g det' [<-|[]]. vm_compute. discriminate.
Defined.

(** C6.  When the main block runs, the two loaders are not yet defined:
    the functions bound are [parse_arguments],
    [parse_datetime_from_string_key] and [identify_files].  On a list that
    holds a file, each of the two loops prints the line that announces the
    first file and stops with [NameError] at the call of the loader,
    whatever the files hold: no value is merged, of an earlier file or of a
    later one.  So it is on a directory where two history files give a
    value for the same triple and two other files name the same symbol. *)
Theorem loops_stop_before_merging :
  globals_at_main
  = ["parse_arguments"; "parse_datetime_from_string_key"; "identify_files"]
  /\ (forall (read_json : string -> outcome json) (f : string)
             (files : list string),
        parse_history_files read_json globals_at_main (f :: files)
        = (Raise NameError, [ParsingHistoryFile f])
        /\ parse_other_files read_json globals_at_main (f :: files)
           = (Raise NameError, [ParsingOtherFile f]))
  /\ parse_history_files sample_read_json globals_at_main
       ["a_history.json"; "b_history.json"]
     = (Raise NameError, [ParsingHistoryFile "a_history.json"])
  /\ parse_other_files sample_read_json globals_at_main
       ["info_1.json"; "info_2.json"]
     = (Raise NameError, [ParsingOtherFile "info_1.json"]).
Proof.
  split; [reflexivity|]. split; [|split; reflexivity].
  intros read_json f files. split; reflexivity.
Qed.

(* ================================================================== *)
(** * The history loader and the empty symbol *)

(** What the loader returns for a file that decodes to an object: the
    mapping holds, for every triple, the value of the last entry recorded
    under it; the item count is the number of recorded entries, the keys
    that the loader does not take being passed over; and the symbol count
    is the number of symbols bound in the mapping. *)
Lemma history_loader_result (read_json : string -> outcome json)
      (file_path : string) (categories : list (string * json)) :
  read_json file_path = Ok (JObj categories) ->
  exists m,
    fst (parse_history_file read_json file_path parse_datetime_from_string_key)
    = Ok (Some m,
          Z.of_nat (List.length (dict_keys m)),
          Z.of_nat (List.length (file_entries (JObj categories))))
    /\ NoDup (dict_keys m)
    /\ forall t, lookup_triple m t = last_write (file_entries (JObj categories)) t.
Proof.
  intros R. rewrite (loader_run read_json file_path categories R). cbv zeta.
  set (es := file_entries (JObj categories)).
  exists (parsed_data (fold_left apply_entry es (mkstate [] [] 0))).
  split; [|split].
  - rewrite (fold_entries_symbols es (mkstate [] [] 0) eq_refl).
    rewrite fold_entries_items. reflexivity.
  - apply (fold_entries_wf es (mkstate [] [] 0) wf_history_nil).
  - intros t. rewrite fold_entries_lookup.
    destruct (last_write es t); [reflexivity|]. now destruct t as [[s c] k].
Qed.

(** C2.  The parser succeeds on a key whose symbol is empty, and the loader
    does not record the entry: the empty string is false in
    [if symbol and date_obj], so the entry is passed over with the warning
    of a key that could not be parsed, and the counters stay at zero. *)
Theorem history_loader_skips_empty_symbol :
  parse_datetime_from_string_key "('', datetime.date(2023, 1, 1))"
  = (Ok (Some "", Some (mkdate 2023 1 1)), [])
  /\ parse_history_file empty_symbol_read_json "e_history.json"
       parse_datetime_from_string_key
     = (Ok (Some [], 0%Z, 0%Z),
        [WarnKeySkipped "('', datetime.date(2023, 1, 1))" "e_history.json"]).
Proof. split; vm_compute; reflexivity. Qed.

(* ================================================================== *)
(** * Sorting the keys of a category *)

Lemma py_lt_ok (a b : pykey) (r : bool) :
  py_lt a b = Ok r -> is_date a = is_date b.
Proof. destruct a, b; simpl; intros H; try discriminate; reflexivity. Qed.

Lemma py_lt_raise (a b : pykey) (e : exn) : py_lt a b = Raise e -> e = TypeError.
Proof. destruct a, b; simpl; intros H; inversion H; reflexivity. Qed.

Lemma py_lt_same_kind (a b : pykey) :
  is_date a = is_date b -> exists r, py_lt a b = Ok r.
Proof. destruct a, b; simpl; intros H; try discriminate; eauto. Qed.

Lemma insert_sorted_raise (x : pykey) (l : list pykey) (e : exn) :
  insert_sorted x l = Raise e -> e = TypeError.
Proof.
  induction l as [|y l IH]; simpl; [discriminate|].
  destruct (py_lt x y) as [[|]|e'] eqn:L.
  - discriminate.
  - destruct (insert_sorted x l); [discriminate|].
    intros H. inversion H; subst. now apply IH.
  - intros H. inversion H; subst. now apply py_lt_raise in L.
Qed.

Lemma sorted_raise (l : list pykey) (e : exn) :
  sorted l = Raise e -> e = TypeError.
Proof.
  induction l as [|x l IH]; simpl; [discriminate|].
  destruct (sorted l) as [r|e'].
  - apply insert_sorted_raise.
  - intros H. inversion H; subst. now apply IH.
Qed.

Lemma insert_sorted_perm (x : pykey) (l r : list pykey) :
  insert_sorted x l = Ok r -> Permutation (x :: l) r.
Proof.
  revert r. induction l as [|y l IH]; simpl; intros r H.
  - inversion H. apply Permutation_refl.
  - destruct (py_lt x y) as [[|]|e]; try discriminate.
    + inversion H. apply Permutation_refl.
    + destruct (insert_sorted x l) as [r'|]; [|discriminate].
      inversion H; subst.
      apply Permutation_trans with (y :: x :: l); [apply perm_swap|].
      apply perm_skip. now apply IH.
Qed.

Lemma sorted_perm (l r : list pykey) : sorted l = Ok r -> Permutation l r.
Proof.
  revert r. induction l as [|x l IH]; simpl; intros r H.
  - inversion H. apply Permutation_refl.
  - destruct (sorted l) as [r'|]; [|discriminate].
    apply Permutation_trans with (x :: r').
    + apply perm_skip. now apply IH.
    + now apply insert_sorted_perm.
Qed.

(** A list that [sorted] accepts has keys of one kind. *)
Lemma sorted_same_kind (l r : list pykey) : sorted l = Ok r -> same_kind l.
Proof.
  revert r. induction l as [|x l IH]; simpl; intros r H.
  - intros a b [].
  - destruct (sorted l) as [r'|] eqn:S; [|discriminate].
    pose proof (IH r' eq_refl) as K. pose proof (sorted_perm l r' S) as P.
    assert (X : forall b, In b l -> is_date x = is_date b).
    { intros b Ib. destruct r' as [|y r''].
      - apply Permutation_sym, Permutation_nil in P. subst l. destruct Ib.
      - simpl in H. destruct (py_lt x y) as [q|] eqn:L; [|discriminate].
        apply py_lt_ok in L. rewrite L. apply K; [|exact Ib].
        apply Permutation_sym in P.
        apply (Permutation_in _ P). now left. }
    intros a b [<-|Ia] [<-|Ib]; auto.
    symmetry. now apply X.
Qed.

(** Keys that cannot be compared make [sorted] raise [TypeError]. *)
Lemma sorted_mixed (l : list pykey) (a b : pykey) :
  In a l -> In b l -> py_lt a b = Raise TypeError ->
  sorted l = Raise TypeError.
Proof.
  intros Ia Ib L. destruct (sorted l) as [r|e] eqn:S.
  - pose proof (sorted_same_kind l r S a b Ia Ib) as K.
    destruct (py_lt_same_kind a b K) as [q Q]. congruence.
  - now rewrite (sorted_raise l e S).
Qed.

Lemma insert_sorted_dates (x : pykey) (l : list pykey) :
  is_date x = true -> Forall (fun k => is_date k = true) l ->
  exists r, insert_sorted x l = Ok r /\ Forall (fun k => is_date k = true) r.
Proof.
  intros Dx. induction l as [|y l IH]; intros F; simpl.
  - eexists. split; [reflexivity|]. now constructor.
  - inversion F as [|? ? Dy Fl]; subst.
    destruct (py_lt_same_kind x y) as [q Q]; [congruence|]. rewrite Q.
    destruct q.
    + eexists. split; [reflexivity|]. now repeat constructor.
    + destruct (IH Fl) as (r & -> & Fr). eexists. split; [reflexivity|].
      now constructor.
Qed.

(** Dates can always be sorted. *)
Lemma sorted_dates (l : list pykey) :
  Forall (fun k => is_date k = true) l ->
  exists r, sorted l = Ok r /\ Forall (fun k => is_date k = true) r.
Proof.
  induction l as [|x l IH]; intros F; simpl.
  - eexists. split; [reflexivity | constructor].
  - inversion F as [|? ? Dx Fl]; subst.
    destruct (IH Fl) as (r & -> & Fr). now apply insert_sorted_dates.
Qed.

Lemma date_ltb_asym (a b : date) : date_ltb a b = true -> date_ltb b a = false.
Proof.
  destruct a as [y m d], b as [y' m' d']. unfold date_ltb. simpl.
  intros H. apply not_true_is_false. intros H'.
  repeat (rewrite ?orb_true_iff, ?andb_true_iff, ?Z.ltb_lt, ?Z.eqb_eq in H, H').
  lia.
Qed.

Lemma string_ltb_asym (a b : string) :
  String.ltb a b = true -> String.ltb b a = false.
Proof.
  unfold String.ltb. rewrite (String.compare_antisym a b).
  now destruct (String.compare b a).
Qed.

Lemma py_lt_true_le (x y : pykey) : py_lt x y = Ok true -> pykey_le x y.
Proof.
  destruct x, y; simpl; intros H; inversion H as [E]; try discriminate.
  - now apply date_ltb_asym.
  - now apply string_ltb_asym.
Qed.

Lemma py_lt_false_le (x y : pykey) : py_lt x y = Ok false -> pykey_le y x.
Proof.
  destruct x, y; simpl; intros H; inversion H as [E]; try discriminate;
    reflexivity.
Qed.

Lemma insert_sorted_hd (x y : pykey) (l r : list pykey) :
  HdRel pykey_le y l -> pykey_le y x -> insert_sorted x l = Ok r ->
  HdRel pykey_le y r.
Proof.
  destruct l as [|z l]; simpl; intros Hd Le H.
  - inversion H. now constructor.
  - destruct (py_lt x z) as [[|]|]; try discriminate.
    + inversion H. now constructor.
    + destruct (insert_sorted x l); [|discriminate]. inversion H.
      constructor. now inversion Hd.
Qed.

Lemma insert_sorted_sorted (x : pykey) (l r : list pykey) :
  Sorted pykey_le l -> insert_sorted x l = Ok r -> Sorted pykey_le r.
Proof.
  revert r. induction l as [|y l IH]; simpl; intros r S H.
  - inversion H. repeat constructor.
  - inversion S as [|? ? Sl Hd]; subst.
    destruct (py_lt x y) as [[|]|] eqn:L; try discriminate.
    + inversion H. constructor; [exact S|].
      constructor. now apply py_lt_true_le.
    + destruct (insert_sorted x l) as [r'|] eqn:I; [|discriminate].
      inversion H; subst. constructor; [now apply IH|].
      apply (insert_sorted_hd x y l r' Hd); [|exact I].
      now apply py_lt_false_le.
Qed.

(** What [sorted] returns is in ascending order. *)
Lemma sorted_sorted (l r : list pykey) : sorted l = Ok r -> Sorted pykey_le r.
Proof.
  revert r. induction l as [|x l IH]; simpl; intros r H.
  - inversion H. constructor.
  - destruct (sorted l) as [r'|]; [|discriminate].
    apply (insert_sorted_sorted x r' r); [now apply IH | exact H].
Qed.

(* ================================================================== *)
(** * The summary *)

(** A loop that shows each element and stops with one more line once the
    index reaches the cap. *)
Lemma for_enumerate_capped {A : Type} (cap : nat) (show : A -> list line)
      (more : line) (body : Z -> A -> io bool) (xs : list A) :
  (forall i x, In x xs -> (Z.of_nat cap <=? i)%Z = true ->
     body i x = (Ok true, [more])) ->
  (forall i x, In x xs -> (Z.of_nat cap <=? i)%Z = false ->
     body i x = (Ok false, show x)) ->
  forall n, (n <= cap)%nat ->
    for_enumerate (Z.of_nat n) xs body
    = (Ok tt,
       flat_map show (firstn (cap - n) xs)
       ++ (if (cap - n <? List.length xs)%nat then [more] else [])).
Proof.
  induction xs as [|x xs IH]; intros Stop Go n Le.
  - simpl. rewrite firstn_nil. reflexivity.
  - simpl for_enumerate.
    destruct (Z.leb_spec (Z.of_nat cap) (Z.of_nat n)) as [C|C].
    + assert (E : n = cap) by lia. subst n.
      rewrite (Stop _ x (or_introl eq_refl)) by (apply Z.leb_le; lia).
      rewrite Nat.sub_diag. reflexivity.
    + rewrite (Go _ x (or_introl eq_refl)) by (apply Z.leb_gt; lia).
      cbn [bind].
      replace (Z.of_nat n + 1)%Z with (Z.of_nat (S n)) by lia.
      rewrite IH;
        [ | intros i y I; apply Stop; now right
          | intros i y I; apply Go; now right | lia ].
      destruct (cap - n)%nat as [|k] eqn:K; [lia|].
      replace (cap - S n)%nat with k by lia.
      simpl firstn. simpl flat_map. simpl List.length.
      rewrite <- app_assoc.
      replace (S k <? S (List.length xs))%nat with (k <? List.length xs)%nat
        by reflexivity.
      reflexivity.
Qed.

Lemma for_enumerate_capped_0 {A : Type} (cap : nat) (show : A -> list line)
      (more : Z -> line) (body : Z -> A -> io bool) (xs : list A) :
  (forall i x, In x xs -> (Z.of_nat cap <=? i)%Z = true ->
     body i x
     = (Ok true, [more (Z.of_nat (List.length xs) - Z.of_nat cap)%Z])) ->
  (forall i x, In x xs -> (Z.of_nat cap <=? i)%Z = false ->
     body i x = (Ok false, show x)) ->
  for_enumerate 0 xs body = (Ok tt, capped cap xs show more).
Proof.
  intros Stop Go.
  pose proof (for_enumerate_capped cap show _ body xs Stop Go 0 (Nat.le_0_l _))
    as E.
  rewrite Nat.sub_0_r in E. exact E.
Qed.

Lemma for_each_shown {A : Type} (show : A -> list line)
      (body : A -> unit -> io unit) (xs : list A) :
  (forall x, In x xs -> body x tt = (Ok tt, show x)) ->
  for_each xs body tt = (Ok tt, flat_map show xs).
Proof.
  induction xs as [|x xs IH]; intros B; simpl; [reflexivity|].
  rewrite (B x (or_introl eq_refl)). cbn [bind].
  rewrite IH by (intros y I; apply B; now right). reflexivity.
Qed.

Lemma getitem_value_at (m : by_date) (k : pykey) :
  In k (dict_keys m) -> getitem pykey_eqb m k = Ok (value_at m k).
Proof.
  intros I. unfold getitem, value_at.
  destruct (dict_get pykey_eqb m k) eqn:G; [reflexivity|].
  apply (dict_get_none pykey json pykey_eqb pykey_eqb_eq) in G. contradiction.
Qed.

(** The entries of one category, in a given order of its keys. *)
Lemma print_entries_spec (data_type_key : string) (m : by_date)
      (order : list pykey) :
  Permutation (dict_keys m) order ->
  for_enumerate 0 order (print_entry data_type_key m)
  = (Ok tt, entries_spec data_type_key m order).
Proof.
  intros P. unfold entries_spec. apply for_enumerate_capped_0.
  - intros i k I C. unfold print_entry, max_entries_per_type.
    change (Z.of_nat 2) with 2%Z in C. rewrite C.
    unfold dict_len. rewrite <- (Permutation_length P).
    unfold dict_keys. rewrite length_map. reflexivity.
  - intros i k I C. unfold print_entry, max_entries_per_type.
    change (Z.of_nat 2) with 2%Z in C. rewrite C.
    rewrite getitem_value_at; [reflexivity|].
    apply Permutation_sym in P. exact (Permutation_in _ P I).
Qed.

Lemma print_type_spec (cm : string * by_date) :
  print_type cm tt = (Ok tt, type_spec cm).
Proof.
  destruct cm as [c m]. unfold print_type, type_spec. simpl fst. simpl snd.
  cbn [print bind].
  destruct (sorted (dict_keys m)) as [order|e] eqn:S.
  - cbn [lift try_except bind].
    rewrite (print_entries_spec c m order (sorted_perm _ _ S)). reflexivity.
  - rewrite (sorted_raise _ _ S). cbn [lift try_except select_handler
                                         is_TypeError print bind ret app].
    rewrite (print_entries_spec c m (dict_keys m) (Permutation_refl _)).
    reflexivity.
Qed.

Lemma print_history_section_spec (h : history) :
  print_history_section h = (Ok tt, history_summary_spec h).
Proof.
  unfold print_history_section, history_summary_spec.
  apply for_enumerate_capped_0.
  - intros i [s t] I C. unfold print_symbol, max_symbols_to_print.
    change (Z.of_nat 3) with 3%Z in C. rewrite C. reflexivity.
  - intros i [s t] I C. unfold print_symbol, max_symbols_to_print, symbol_spec.
    change (Z.of_nat 3) with 3%Z in C. rewrite C. cbn [print bind].
    rewrite (for_each_shown type_spec print_type t)
      by (intros cm _; apply print_type_spec).
    cbn [bind ret]. rewrite app_nil_r. reflexivity.
Qed.

Lemma print_other_symbol_returns (o : other_data) (i : Z) (sd : string * details) :
  exists b out, print_other_symbol o i sd = (Ok b, out).
Proof.
  destruct sd as [symbol det]. unfold print_other_symbol.
  destruct (max_symbols_to_print <=? i)%Z; [eexists; eexists; reflexivity|].
  destruct (dict_get String.eqb det "summaryDetail") as [[ | | | | | |sd]|];
    destruct (dict_get String.eqb det "quoteType") as [[ | | | | | |qt]|];
    eexists; eexists; reflexivity.
Qed.

Lemma for_enumerate_returns {A : Type} (body : Z -> A -> io bool) (xs : list A) :
  (forall i x, exists b out, body i x = (Ok b, out)) ->
  forall i, exists out, for_enumerate i xs body = (Ok tt, out).
Proof.
  intros B. induction xs as [|x xs IH]; intros i; simpl.
  - eexists. reflexivity.
  - destruct (B i x) as (b & out & ->). cbn [bind]. destruct b.
    + eexists. reflexivity.
    + destruct (IH (i + 1)%Z) as (out' & ->). eexists. reflexivity.
Qed.

(** C9.  The summary never raises.  Its history part shows the first three
    symbols of the aggregated mapping and, when there are more, one line
    with the number of symbols left; for every category of a shown symbol
    it shows two entries at most, each with its value, and when there are
    more, one line with the number of entries left.  The entries go by
    ascending key when the keys can be sorted, which dates always can; when
    two keys cannot be compared, [sorted] raises [TypeError], the summary
    prints the warning and goes through the keys in the order of the
    dictionary. *)
Theorem summary_is_capped_and_sorted :
  (forall h total o nh no,
     exists rest,
       print_data_summary h total o nh no
       = (Ok tt,
          [SummaryBanner; HistoryHeader; HistoryFilesProcessed nh;
           HistoryFound (dict_len h) total]
          ++ history_summary_spec h
          ++ [OtherHeader; OtherFilesProcessed no; OtherFound (dict_len o)]
          ++ rest))
  /\ (forall keys order,
        sorted keys = Ok order ->
        Permutation keys order /\ Sorted pykey_le order)
  /\ (forall keys,
        Forall (fun k => is_date k = true) keys ->
        exists order, sorted keys = Ok order)
  /\ (forall c m a b,
        In a (dict_keys m) -> In b (dict_keys m) ->
        py_lt a b = Raise TypeError ->
        print_type (c, m) tt
        = (Ok tt, TypeLine c :: CouldNotSort c
                  :: entries_spec c m (dict_keys m))).
Proof.
  split; [|split; [|split]].
  - intros h total o nh no. unfold print_data_summary.
    cbn [print bind]. rewrite print_history_section_spec. cbn [print bind].
    destruct (for_enumerate_returns (print_other_symbol o) o
                (print_other_symbol_returns o) 0%Z) as (out & ->).
    cbn [print bind]. eexists.
    repeat (rewrite <- ?app_assoc; simpl app). reflexivity.
  - intros keys order S.
    split; [now apply sorted_perm | now apply (sorted_sorted keys)].
  - intros keys F. destruct (sorted_dates keys F) as (r & S & _). eauto.
  - intros c m a b Ia Ib L. rewrite print_type_spec. unfold type_spec.
    simpl fst. simpl snd. now rewrite (sorted_mixed _ a b Ia Ib L).
Qed.

Lemma summary_is_capped_and_sorted_witness :
  (Permutation [KDate (mkdate 2023 1 3); KDate (mkdate 2022 5 1);
                KDate (mkdate 2023 1 2)]
     [KDate (mkdate 2022 5 1); KDate (mkdate 2023 1 2); KDate (mkdate 2023 1 3)]
   /\ Sorted pykey_le
        [KDate (mkdate 2022 5 1); KDate (mkdate 2023 1 2);
         KDate (mkdate 2023 1 3)])
  /\ print_type ("close", [(KDate (mkdate 2023 1 3), JInt 1);
                           (KStr "n/a", JInt 2);
                           (KDate (mkdate 2022 5 1), JInt 3)]) tt
     = (Ok tt, [TypeLine "close"; CouldNotSort "close";
                EntryLine (KDate (mkdate 2023 1 3)) (JInt 1);
                EntryLine (KStr "n/a") (JInt 2);
                MoreEntries 1 "close"]).
Proof.
  destruct summary_is_capped_and_sorted as (_ & Asc & _ & Mixed). split.
  - apply (Asc [KDate (mkdate 2023 1 3); KDate (mkdate 2022 5 1);
                KDate (mkdate 2023 1 2)]).
    reflexivity.
  - apply (Mixed "close" [(KDate (mkdate 2023 1 3), JInt 1);
                          (KStr "n/a", JInt 2);
                          (KDate (mkdate 2022 5 1), JInt 3)]
             (KDate (mkdate 2023 1 3)) (KStr "n/a")).
    + simpl. tauto.
    + simpl. tauto.
    + reflexivity.
Defined.

(* ================================================================== *)
(** * The keys that the script tries, and three small directories *)

Example test_key1 :
  parse_datetime_from_string_key "('000001.SS', datetime.date(1997, 7, 1))"
  = (Ok (Some "000001.SS", Some (mkdate 1997 7 1)), []).
Proof. vm_compute. reflexivity. Qed.

Example test_key_invalid_date :
  parse_datetime_from_string_key "('ERR', datetime.date(2023, 2, 30))"
  = (Ok (None, None),
     [ErrDateComponents "('ERR', datetime.date(2023, 2, 30))" "2023" "2" "30"]).
Proof. vm_compute. reflexivity. Qed.

Example test_key_no_date :
  parse_datetime_from_string_key "('NODATE', 123)" = (Ok (None, None), []).
Proof. vm_compute. reflexivity. Qed.

Example test_key_only_symbol :
  parse_datetime_from_string_key "('SYMBOL_ONLY', )" = (Ok (None, None), []).
Proof. vm_compute. reflexivity. Qed.

Example one_history_file :
  parse_history_file
    (fun _ => Ok (JObj [("close",
               JObj [("('AAPL', datetime.date(2023,1,1))", JFloat 150 0)])]))
    "a_history.json" parse_datetime_from_string_key
  = (Ok (Some [("AAPL", [("close", [(KDate (mkdate 2023 1 1), JFloat 150 0)])])],
         1%Z, 1%Z), []).
Proof. vm_compute. reflexivity. Qed.

Example one_other_file :
  parse_other_json_file
    (fun _ => Ok (JArr [JArr [JStr "AAPL"; JObj [("name", JStr "Apple Inc.")]]]))
    "info.json"
  = (Ok (Some ("AAPL", [("name", JStr "Apple Inc.")])), []).
Proof. vm_compute. reflexivity. Qed.

Example one_bad_history_file :
  parse_history_file
    (fun _ => Ok (JObj [("close",
               JObj [("('X', datetime.date(2023,2,30))", JFloat 1 0)])]))
    "bad_history.json" parse_datetime_from_string_key
  = (Ok (Some [], 0%Z, 0%Z),
     [ErrDateComponents "('X', datetime.date(2023,2,30))" "2023" "2" "30";
      WarnKeySkipped "('X', datetime.date(2023,2,30))" "bad_history.json"]).
Proof. vm_compute. reflexivity. Qed.

(* ================================================================== *)
(** * Suffixes and joined paths *)

Local Open Scope string_scope.

Lemma str_length_app (a b : string) :
  String.length (a ++ b) = (String.length a + String.length b)%nat.
Proof. induction a as [|c a IH]; simpl; [reflexivity | now rewrite IH]. Qed.

(** Two ways to cut one string: one of the two prefixes is a prefix of the
    other. *)
Lemma str_app_eq_app (x b y c : string) :
  x ++ b = y ++ c ->
  (exists z, y = x ++ z /\ b = z ++ c) \/ (exists w, x = y ++ w /\ c = w ++ b).
Proof.
  revert y. induction x as [|a x IH]; intros y E.
  - left. exists y. now split.
  - destruct y as [|a' y].
    + right. exists (String a x). now split.
    + simpl in E. inversion E as [[Ea E']]. subst a'.
      destruct (IH y E') as [(z & -> & ->)|(w & -> & ->)].
      * left. now exists z.
      * right. now exists w.
Qed.

Lemma endswith_spec (s suffix : string) :
  endswith s suffix = true <-> exists pre, s = pre ++ suffix.
Proof.
  induction s as [|a s IH].
  - change (endswith "" suffix) with (String.eqb "" suffix || false).
    rewrite orb_false_r. rewrite String.eqb_eq. split.
    + intros <-. now exists "".
    + intros (pre & E). destruct pre; [exact E | discriminate].
  - change (endswith (String a s) suffix)
      with (String.eqb (String a s) suffix || endswith s suffix).
    rewrite orb_true_iff, String.eqb_eq, IH. split.
    + intros [<-|(pre & ->)]; [now exists "" | now exists (String a pre)].
    + intros ([|a' pre] & E); [now left|].
      simpl in E. inversion E; subst. right. now exists pre.
Qed.

Lemma endswith_app (pre s suffix : string) :
  endswith s suffix = true -> endswith (pre ++ s) suffix = true.
Proof.
  rewrite !endswith_spec. intros (z & ->). exists (pre ++ z).
  now rewrite append_assoc.
Qed.

(** A suffix that ends a string also ends every tail of the string that is
    at least as long as the suffix. *)
Lemma endswith_tail (y w suffix : string) :
  endswith (y ++ w) suffix = true ->
  (String.length suffix <= String.length w)%nat ->
  endswith w suffix = true.
Proof.
  rewrite !endswith_spec. intros (p & E) L.
  destruct (str_app_eq_app _ _ _ _ E) as [(z & -> & ->)|(w' & -> & ->)].
  - now exists z.
  - rewrite str_length_app in L. destruct w'; [now exists ""|simpl in L; lia].
Qed.

Lemma no_sep_app (a b : string) : no_sep (a ++ b) = no_sep a && no_sep b.
Proof. apply str_forall_app. Qed.

(** The joined path is the second component after a prefix that is empty or
    ends with the separator. *)
Lemma os_path_join_shape (a b : string) :
  exists pre, os_path_join a b = pre ++ b
              /\ (pre = "" \/ endswith pre "/" = true).
Proof.
  unfold os_path_join. destruct (starts_with_sep b).
  - exists "". now split; [|left].
  - destruct (String.eqb_spec a "") as [->|N].
    + exists "". now split; [|left].
    + simpl. destruct (endswith a "/") eqn:E.
      * exists a. split; [reflexivity | now right].
      * exists (a ++ "/"). split; [now rewrite append_assoc|].
        right. apply endswith_spec. now exists a.
Qed.

(** A suffix without separator that ends the joined path ends its second
    component. *)
Lemma os_path_join_suffix (a b suffix : string) :
  no_sep suffix = true ->
  endswith (os_path_join a b) suffix = true <-> endswith b suffix = true.
Proof.
  intros NS. destruct (os_path_join_shape a b) as (pre & -> & P). split.
  - intros E. apply endswith_spec in E as (y & E).
    destruct (str_app_eq_app _ _ _ _ E) as [(z & -> & ->)|(w & -> & ->)].
    + apply endswith_spec. now exists z.
    + destruct w as [|c w]; [apply endswith_spec; now exists ""|].
      exfalso. destruct P as [P|P].
      * destruct y; discriminate.
      * apply endswith_tail in P; [|simpl; lia].
        apply endswith_spec in P as (q & P). rewrite P in NS.
        rewrite !no_sep_app in NS. simpl in NS.
        rewrite andb_false_r in NS. discriminate.
  - apply endswith_app.
Qed.

(* ================================================================== *)
(** * [identify_files] *)

Local Open Scope list_scope.

Section DirectoryFacts.
Variable isdir : string -> bool.
Variable listdir : string -> outcome (list string).
Variable isfile : string -> bool.

Lemma identify_fold (directory_path : string) (entries : list string) :
  forall history_files other_json_files,
    fold_left (identify_entry isfile directory_path) entries
      (history_files, other_json_files)
    = (history_files
         ++ map (os_path_join directory_path)
              (filter (is_history_entry isfile directory_path) entries),
       other_json_files
         ++ map (os_path_join directory_path)
              (filter (is_other_entry isfile directory_path) entries)).
Proof.
  induction entries as [|e entries IH]; intros h o; simpl.
  - now rewrite !app_nil_r.
  - unfold is_history_entry, is_other_entry.
    destruct (isfile (os_path_join directory_path e)); simpl.
    + destruct (endswith e "_history.json"); simpl.
      * rewrite IH, <- app_assoc. reflexivity.
      * destruct (endswith e ".json"); simpl; rewrite IH.
        -- now rewrite <- app_assoc.
        -- reflexivity.
    + apply IH.
Qed.

(** In a directory that can be listed, the history files are the regular
    files whose name ends with [_history.json], the other files are the
    regular files whose name ends with [.json] but not with
    [_history.json], both as joined paths and in the order of the listing;
    nothing is printed. *)
Theorem identify_files_classifies (directory_path : string)
        (entries : list string) :
  isdir directory_path = true ->
  listdir directory_path = Ok entries ->
  identify_files isdir listdir isfile directory_path
  = ((map (os_path_join directory_path)
        (filter (is_history_entry isfile directory_path) entries),
      map (os_path_join directory_path)
        (filter (is_other_entry isfile directory_path) entries)),
     []).
Proof.
  intros D L. unfold identify_files. rewrite D, L. simpl negb. cbv iota.
  now rewrite identify_fold.
Qed.

Lemma identify_files_members (directory_path : string) :
  let '(history_files, other_json_files) :=
    fst (identify_files isdir listdir isfile directory_path) in
  (forall p, In p history_files ->
     exists e, p = os_path_join directory_path e
               /\ is_history_entry isfile directory_path e = true)
  /\ (forall p, In p other_json_files ->
        exists e, p = os_path_join directory_path e
                  /\ is_other_entry isfile directory_path e = true).
Proof.
  unfold identify_files. destruct (isdir directory_path); simpl.
  - destruct (listdir directory_path) as [entries|e].
    + rewrite identify_fold. simpl. split; intros p I;
        apply in_map_iff in I as (e & <- & I);
        apply filter_In in I as [_ I]; now exists e.
    + destruct (is_FileNotFoundError e); simpl; split; intros p [].
  - split; intros p [].
Qed.

(** Whatever the directory holds and whatever the listing does: every
    path of the first list ends with [_history.json], every path of the
    second list ends with [.json] and not with [_history.json], every
    returned path is a regular file, and no path is in both lists. *)
Theorem identify_files_separates (directory_path : string) :
  let '(history_files, other_json_files) :=
    fst (identify_files isdir listdir isfile directory_path) in
  Forall (fun p => endswith p "_history.json" = true /\ isfile p = true)
         history_files
  /\ Forall (fun p => endswith p ".json" = true
                      /\ endswith p "_history.json" = false
                      /\ isfile p = true)
            other_json_files
  /\ (forall p, In p history_files -> ~ In p other_json_files).
Proof.
  pose proof (identify_files_members directory_path) as M.
  destruct (fst (identify_files isdir listdir isfile directory_path))
    as [history_files other_json_files].
  destruct M as [MH MO].
  assert (H : forall p, In p history_files ->
              endswith p "_history.json" = true /\ isfile p = true).
  { intros p I. destruct (MH p I) as (e & -> & E).
    unfold is_history_entry in E. apply andb_true_iff in E as [F E].
    split; [|exact F]. now apply os_path_join_suffix. }
  assert (O : forall p, In p other_json_files ->
              endswith p ".json" = true
              /\ endswith p "_history.json" = false /\ isfile p = true).
  { intros p I. destruct (MO p I) as (e & -> & E).
    unfold is_other_entry in E. apply andb_true_iff in E as [E J].
    apply andb_true_iff in E as [F N]. apply negb_true_iff in N.
    split; [now apply os_path_join_suffix|]. split; [|exact F].
    destruct (endswith (os_path_join directory_path e) "_history.json") eqn:X;
      [|reflexivity].
    apply os_path_join_suffix in X; [congruence | reflexivity]. }
  split; [|split].
  - apply Forall_forall. exact H.
  - apply Forall_forall. exact O.
  - intros p Ih Io. destruct (H p Ih) as [A _]. destruct (O p Io) as (_ & B & _).
    congruence.
Qed.
End DirectoryFacts.

Lemma identify_files_classifies_witness :
  identify_files sample_isdir sample_listdir sample_isfile "results"
  = ((map (os_path_join "results")
        (filter (is_history_entry sample_isfile "results")
           ["info_1.json"; "a_history.json"; "notes.txt"; "old_history.json";
            "info_2.json"]),
      map (os_path_join "results")
        (filter (is_other_entry sample_isfile "results")
           ["info_1.json"; "a_history.json"; "notes.txt"; "old_history.json";
            "info_2.json"])),
     []).
Proof.
  apply (identify_files_classifies sample_isdir sample_listdir sample_isfile
           "results"); reflexivity.
Defined.

(* ================================================================== *)
(** * What a match of the pattern tells about the key *)

Local Open Scope string_scope.

Lemma re_match_rep_inv (cls : ascii -> bool) (lo : nat) (hi : option nat)
      (cap : bool) (p : list atom) (s : string) (gs : list string) :
  re_match (Rep cls lo hi cap :: p) s = Some gs ->
  exists w s' gs',
    s = w ++ s' /\ re_match p s' = Some gs'
    /\ gs = (if cap then w :: gs' else gs')
    /\ str_forall cls w = true
    /\ (lo <=? String.length w)%nat = true
    /\ fits hi (String.length w) = true.
Proof.
  cbn [re_match]. intros H.
  destruct (rep cls (re_match p) lo hi s) as [[w gs']|] eqn:R; [|discriminate].
  inversion H; subst gs.
  destruct (rep_sound _ cls (re_match p) s lo hi w gs' R)
    as (s' & E & K & C & L & F).
  exists w, s', gs'. repeat split; assumption.
Qed.

Lemma re_search_inv (p : list atom) (s : string) (gs : list string) :
  re_search p s = Some gs ->
  exists pre rest, s = pre ++ rest /\ re_match p rest = Some gs.
Proof.
  induction s as [|a s IH]; rewrite re_search_eq.
  - destruct (re_match p "") eqn:M; [|discriminate].
    intros H. exists "", "". now rewrite M.
  - destruct (re_match p (String a s)) eqn:M.
    + intros H. exists "", (String a s). now rewrite M.
    + intros H. destruct (IH H) as (pre & rest & -> & R).
      now exists (String a pre), rest.
Qed.

Ltac invert_atoms H :=
  repeat
    (first
       [ apply re_match_lit_inv in H; destruct H as (? & -> & H)
       | apply re_match_rep_inv in H;
         let w := fresh "w" in
         let C := fresh "C" in
         let L := fresh "L" in
         let F := fresh "F" in
         destruct H as (w & ? & ? & -> & H & -> & C & L & F) ]).

(** A match of the pattern at the start of a string: the string is a
    pair with spaces where the pattern allows them, and the groups are the
    symbol, four digits, and twice one or two digits. *)
Lemma pattern_match_inv (s : string) (gs : list string) :
  re_match pattern s = Some gs ->
  exists w symbol ys ms ds post,
    s = spaced_pair w symbol ys ms ds post
    /\ gs = [symbol; ys; ms; ds]
    /\ spaces_only w = true /\ no_quote symbol = true
    /\ all_digits ys = true /\ all_digits ms = true /\ all_digits ds = true
    /\ in_bounds 4 4 (String.length ys) = true
    /\ in_bounds 1 2 (String.length ms) = true
    /\ in_bounds 1 2 (String.length ds) = true.
Proof.
  intros H. cbv [pattern lits app ws] in H.
  invert_atoms H.
  cbn [re_match] in H. inversion H; subst.
  exists (mkspacing w w1 w2 w3 w4 w6 w7 w9 w10 w12 w13), w0, w5, w8, w11, x.
  unfold spaces_only, all_spaces, no_quote, all_digits, in_bounds, fits in *.
  cbn [sp1 sp2 sp3 sp4 sp5 sp6 sp7 sp8 sp9 sp10 sp11].
  repeat split; try assumption.
  - now rewrite C, C1, C2, C3, C4, C6, C7, C9, C10, C12, C13.
  - now rewrite L5, F5.
  - now rewrite L8, F8.
  - now rewrite L11, F11.
Qed.

(** The three outcomes of the parser.  No match: nothing is returned and
    nothing is printed.  Else the key holds a pair, somewhere, with spaces
    where the pattern allows them, a symbol without quote, a year of four
    digits, a month and a day of one or two digits; the three calls of
    [int] succeed, and the constructor of the date decides: the symbol and
    the date are returned and nothing is printed, or nothing is returned
    and the one line with the three texts is printed. *)
Lemma parser_inversion (key_string : string) :
  (re_search pattern key_string = None
   /\ parse_datetime_from_string_key key_string = (Ok (None, None), []))
  \/ exists pre w symbol ys ms ds post,
       key_string = pre ++ spaced_pair w symbol ys ms ds post
       /\ spaces_only w = true /\ no_quote symbol = true
       /\ all_digits ys = true /\ all_digits ms = true /\ all_digits ds = true
       /\ in_bounds 4 4 (String.length ys) = true
       /\ in_bounds 1 2 (String.length ms) = true
       /\ in_bounds 1 2 (String.length ds) = true
       /\ parse_datetime_from_string_key key_string =
          if check_date_fields (int_digits 0 ys) (int_digits 0 ms)
               (int_digits 0 ds)
          then (Ok (Some symbol,
                    Some (mkdate (int_digits 0 ys) (int_digits 0 ms)
                            (int_digits 0 ds))), [])
          else (Ok (None, None), [ErrDateComponents key_string ys ms ds]).
Proof.
  destruct (re_search pattern key_string) as [gs|] eqn:S.
  - right. destruct (re_search_inv _ _ _ S) as (pre & rest & E & M).
    destruct (pattern_match_inv _ _ M)
      as (w & symbol & ys & ms & ds & post & -> & -> & W & Q & Y & Mo & D
          & Ly & Lm & Ld).
    exists pre, w, symbol, ys, ms, ds, post.
    repeat (split; [assumption|]).
    now apply parse_groups.
  - left. split; [reflexivity | now apply parse_no_match].
Qed.

(** The parser prints nothing when it returns a symbol and a date. *)
Lemma parser_success_silent (key_string symbol : string) (date_obj : date)
      (out : list line) :
  parse_datetime_from_string_key key_string
  = (Ok (Some symbol, Some date_obj), out) ->
  out = [].
Proof.
  intros P.
  destruct (parser_inversion key_string)
    as [[_ N]|(pre & w & sy & ys & ms & ds & post & _ & _ & _ & _ & _ & _
               & _ & _ & _ & R)].
  - rewrite N in P. discriminate.
  - rewrite R in P. destruct (check_date_fields _ _ _); [|discriminate].
    now inversion P.
Qed.

(** When the parser returns a symbol and a date, the key holds this pair:
    after some text comes an opening parenthesis, the symbol between
    quotes, [datetime.date] and the three numbers of the date between
    parentheses, with spaces only where the pattern allows them.  The
    symbol has no quote, the year is written with four digits, the month
    and the day with one or two, the date passed the checks of the
    constructor, and nothing was printed. *)
Theorem key_parser_sound (key_string symbol : string) (date_obj : date)
        (out : list line) :
  parse_datetime_from_string_key key_string
  = (Ok (Some symbol, Some date_obj), out) ->
  out = []
  /\ no_quote symbol = true
  /\ check_date_fields (year date_obj) (month date_obj) (day date_obj) = true
  /\ exists pre w ys ms ds post,
       key_string = pre ++ spaced_pair w symbol ys ms ds post
       /\ spaces_only w = true
       /\ all_digits ys = true /\ all_digits ms = true /\ all_digits ds = true
       /\ String.length ys = 4%nat
       /\ in_bounds 1 2 (String.length ms) = true
       /\ in_bounds 1 2 (String.length ds) = true
       /\ date_obj = mkdate (int_digits 0 ys) (int_digits 0 ms)
                       (int_digits 0 ds).
Proof.
  intros P.
  destruct (parser_inversion key_string)
    as [[_ N]|(pre & w & sy & ys & ms & ds & post & E & W & Q & Y & Mo & D
               & Ly & Lm & Ld & R)].
  - rewrite N in P. discriminate.
  - rewrite R in P.
    destruct (check_date_fields (int_digits 0 ys) (int_digits 0 ms)
                (int_digits 0 ds)) eqn:C; [|discriminate].
    inversion P; subst sy date_obj out.
    split; [reflexivity|]. split; [assumption|]. split; [exact C|].
    exists pre, w, ys, ms, ds, post.
    repeat (split; [assumption|]). split; [|now repeat split].
    unfold in_bounds in Ly. apply andb_true_iff in Ly as [A B].
    apply Nat.leb_le in A, B. lia.
Qed.

Lemma key_parser_sound_witness :
  @nil line = []
  /\ no_quote "MSFT" = true
  /\ check_date_fields (year (mkdate 2023 12 25)) (month (mkdate 2023 12 25))
       (day (mkdate 2023 12 25)) = true
  /\ exists pre w ys ms ds post,
       "('MSFT', datetime.date(2023, 12, 25))"
       = pre ++ spaced_pair w "MSFT" ys ms ds post
       /\ spaces_only w = true
       /\ all_digits ys = true /\ all_digits ms = true /\ all_digits ds = true
       /\ String.length ys = 4%nat
       /\ in_bounds 1 2 (String.length ms) = true
       /\ in_bounds 1 2 (String.length ds) = true
       /\ mkdate 2023 12 25 = mkdate (int_digits 0 ys) (int_digits 0 ms)
                                (int_digits 0 ds).
Proof.
  apply (key_parser_sound "('MSFT', datetime.date(2023, 12, 25))" "MSFT"
           (mkdate 2023 12 25) []).
  vm_compute. reflexivity.
Defined.

(** The parser prints only when the key holds a pair whose three numbers
    are no calendar date: then it prints one line, which names the key and
    the three texts, and returns nothing.  The three texts are digits, so
    the failure is never one of [int]. *)
Theorem key_parser_prints_on_bad_date (key_string : string) (r : parsed_key)
        (l : line) (out : list line) :
  parse_datetime_from_string_key key_string = (Ok r, l :: out) ->
  r = (None, None) /\ out = []
  /\ exists pre w symbol ys ms ds post,
       key_string = pre ++ spaced_pair w symbol ys ms ds post
       /\ spaces_only w = true /\ no_quote symbol = true
       /\ py_int ys = Ok (int_digits 0 ys)
       /\ py_int ms = Ok (int_digits 0 ms)
       /\ py_int ds = Ok (int_digits 0 ds)
       /\ datetime_date (int_digits 0 ys) (int_digits 0 ms) (int_digits 0 ds)
          = Raise ValueError
       /\ l = ErrDateComponents key_string ys ms ds.
Proof.
  intros P.
  destruct (parser_inversion key_string)
    as [[_ N]|(pre & w & sy & ys & ms & ds & post & E & W & Q & Y & Mo & D
               & Ly & Lm & Ld & R)].
  - rewrite N in P. discriminate.
  - rewrite R in P.
    destruct (check_date_fields (int_digits 0 ys) (int_digits 0 ms)
                (int_digits 0 ds)) eqn:C; [discriminate|].
    inversion P; subst r l out. unfold datetime_date.
    split; [reflexivity|]. split; [reflexivity|].
    exists pre, w, sy, ys, ms, ds, post.
    unfold in_bounds in Ly, Lm, Ld.
    apply andb_true_iff in Ly as [Ly _], Lm as [Lm _], Ld as [Ld _].
    repeat (split; [assumption|]).
    split; [apply py_int_digits; [assumption|]|].
    { apply Nat.leb_le. apply Nat.leb_le in Ly. lia. }
    split; [now apply py_int_digits|].
    split; [now apply py_int_digits|].
    rewrite C. now split.
Qed.

Lemma key_parser_prints_on_bad_date_witness :
  (@None string, @None date) = (None, None) /\ @nil line = []
  /\ exists pre w symbol ys ms ds post,
       "('ERR', datetime.date(2023, 2, 30))"
       = pre ++ spaced_pair w symbol ys ms ds post
       /\ spaces_only w = true /\ no_quote symbol = true
       /\ py_int ys = Ok (int_digits 0 ys)
       /\ py_int ms = Ok (int_digits 0 ms)
       /\ py_int ds = Ok (int_digits 0 ds)
       /\ datetime_date (int_digits 0 ys) (int_digits 0 ms) (int_digits 0 ds)
          = Raise ValueError
       /\ ErrDateComponents "('ERR', datetime.date(2023, 2, 30))" "2023" "2" "30"
          = ErrDateComponents "('ERR', datetime.date(2023, 2, 30))" ys ms ds.
Proof.
  apply (key_parser_prints_on_bad_date "('ERR', datetime.date(2023, 2, 30))"
           (None, None)
           (ErrDateComponents "('ERR', datetime.date(2023, 2, 30))"
              "2023" "2" "30") []).
  vm_compute. reflexivity.
Defined.

(* ================================================================== *)
(** * What the history loader prints, counts and records *)

Local Open Scope list_scope.

Lemma for_each_run {A S : Type} (f : S -> A -> S) (show : A -> list line)
      (body : A -> S -> io S) (xs : list A) :
  (forall x s, body x s = (Ok (f s x), show x)) ->
  forall s, for_each xs body s = (Ok (fold_left f xs s), flat_map show xs).
Proof.
  intros B. induction xs as [|x xs IH]; intros s; simpl; [reflexivity|].
  rewrite B. cbn [bind]. now rewrite IH.
Qed.

Lemma count_lines_app (p : line -> bool) (a b : list line) :
  count_lines p (a ++ b) = (count_lines p a + count_lines p b)%nat.
Proof. unfold count_lines. now rewrite filter_app, length_app. Qed.

Lemma count_lines_flat_map {A : Type} (p : line -> bool) (show : A -> list line)
      (xs : list A) :
  count_lines p (flat_map show xs)
  = list_sum (map (fun x => count_lines p (show x)) xs).
Proof.
  induction xs as [|x xs IH]; simpl; [reflexivity|].
  now rewrite count_lines_app, IH.
Qed.

Lemma length_flat_map_sum {A B : Type} (g : A -> list B) (xs : list A) :
  List.length (flat_map g xs) = list_sum (map (fun x => List.length (g x)) xs).
Proof.
  induction xs as [|x xs IH]; simpl; [reflexivity|].
  now rewrite length_app, IH.
Qed.

Lemma list_sum_add {A : Type} (f g : A -> nat) (xs : list A) :
  (list_sum (map f xs) + list_sum (map g xs))%nat
  = list_sum (map (fun x => (f x + g x)%nat) xs).
Proof. induction xs as [|x xs IH]; simpl; [reflexivity|]. rewrite <- IH. lia. Qed.

Lemma list_sum_ext {A : Type} (f g : A -> nat) (xs : list A) :
  (forall x, In x xs -> f x = g x) ->
  list_sum (map f xs) = list_sum (map g xs).
Proof.
  induction xs as [|x xs IH]; intros E; simpl; [reflexivity|].
  rewrite (E x (or_introl eq_refl)), IH; [reflexivity|].
  intros y I. apply E. now right.
Qed.

(** The parser prints nothing or its one line. *)
Lemma parser_lines (key_string : string) :
  snd (parse_datetime_from_string_key key_string) = []
  \/ exists ys ms ds,
       snd (parse_datetime_from_string_key key_string)
       = [ErrDateComponents key_string ys ms ds].
Proof.
  destruct (parser_inversion key_string)
    as [[_ N]|(pre & w & sy & ys & ms & ds & post & _ & _ & _ & _ & _ & _
               & _ & _ & _ & R)].
  - left. now rewrite N.
  - rewrite R. destruct (check_date_fields _ _ _); [now left|].
    right. now exists ys, ms, ds.
Qed.

Section LoaderLines.
Variable read_json : string -> outcome json.
Variable file_path : string.

Lemma history_entry_run (data_type_key : string) (kv : string * json)
      (st : loader_state) :
  history_entry file_path parse_datetime_from_string_key data_type_key kv st
  = (Ok (fold_left apply_entry (entry_of data_type_key kv) st),
     entry_lines file_path kv).
Proof.
  destruct kv as [key_string value].
  destruct (parse_datetime_from_string_key key_string) as [o out] eqn:P.
  destruct (parser_returns key_string) as (r & out' & P').
  rewrite P in P'. inversion P'; subst o out'.
  unfold entry_lines. cbn [fst snd]. rewrite P. cbn [snd].
  destruct (accepted r) as [[symbol date_obj]|] eqn:A.
  - pose proof A as A'. apply accepted_some in A' as [-> N].
    rewrite (history_entry_taken file_path _ data_type_key key_string
               value st symbol date_obj out P N).
    rewrite (entry_of_taken data_type_key key_string value symbol
               date_obj out P N).
    unfold accepted_key. rewrite P. cbn [fst]. rewrite A.
    now rewrite app_nil_r.
  - rewrite (history_entry_skipped file_path _ data_type_key key_string
               value st r out P A).
    rewrite (entry_of_skipped data_type_key key_string value r out P A).
    unfold accepted_key. rewrite P. cbn [fst]. now rewrite A.
Qed.

Lemma history_category_run (kd : string * json) (st : loader_state) :
  history_category file_path parse_datetime_from_string_key kd st
  = (Ok (fold_left apply_entry (category_entries kd) st),
     category_lines file_path kd).
Proof.
  destruct kd as [data_type_key data_dict].
  unfold history_category, category_entries, category_lines. cbn [fst snd].
  destruct data_dict; try reflexivity.
  rewrite fold_left_flat_map.
  apply for_each_run. intros kv s. apply history_entry_run.
Qed.

(** The loader on an object, result and printed lines. *)
Lemma loader_run_lines (categories : list (string * json)) :
  read_json file_path = Ok (JObj categories) ->
  parse_history_file read_json file_path parse_datetime_from_string_key
  = (let st := fold_left apply_entry (file_entries (JObj categories))
                 (mkstate [] [] 0) in
     Ok (Some (parsed_data st),
         Z.of_nat (List.length (symbols_in_file st)),
         items_in_file st),
     flat_map (category_lines file_path) categories).
Proof.
  intros R. unfold parse_history_file. rewrite R. cbn [json_items lift bind].
  rewrite (for_each_run
             (fun st kd => fold_left apply_entry (category_entries kd) st)
             (category_lines file_path) _ categories history_category_run).
  cbn [bind ret]. unfold file_entries. rewrite fold_left_flat_map.
  now rewrite app_nil_r.
Qed.

Lemma entry_accounted (data_type_key : string) (kv : string * json) :
  (List.length (entry_of data_type_key kv)
   + count_lines is_WarnKeySkipped (entry_lines file_path kv))%nat = 1%nat
  /\ count_lines is_WarnExpectedDict (entry_lines file_path kv) = 0%nat.
Proof.
  unfold entry_of, entry_lines. rewrite !count_lines_app.
  assert (Z : count_lines is_WarnKeySkipped
                (snd (parse_datetime_from_string_key (fst kv))) = 0%nat
              /\ count_lines is_WarnExpectedDict
                   (snd (parse_datetime_from_string_key (fst kv))) = 0%nat).
  { destruct (parser_lines (fst kv)) as [->|(ys & ms & ds & ->)]; now split. }
  destruct Z as [-> ->].
  destruct (accepted_key (fst kv)) as [[symbol date_obj]|]; now split.
Qed.

Lemma category_accounted (kd : string * json) :
  (List.length (category_entries kd)
   + count_lines is_WarnKeySkipped (category_lines file_path kd))%nat
  = List.length (match snd kd with JObj entries => entries | _ => [] end)
  /\ count_lines is_WarnExpectedDict (category_lines file_path kd)
     = (if is_dict (snd kd) then 0 else 1)%nat.
Proof.
  destruct kd as [c d]. unfold category_entries, category_lines. cbn [fst snd].
  destruct d; try (now split). cbn [is_dict].
  rewrite length_flat_map_sum, !count_lines_flat_map. split.
  - rewrite list_sum_add.
    rewrite (list_sum_ext _ (fun _ => 1%nat))
      by (intros kv _; apply (entry_accounted c kv)).
    clear. induction members as [|kv l IH]; simpl; [reflexivity | now rewrite IH].
  - rewrite (list_sum_ext _ (fun _ => 0%nat))
      by (intros kv _; apply (entry_accounted c kv)).
    clear. induction members as [|kv l IH]; simpl; [reflexivity | exact IH].
Qed.
End LoaderLines.

Lemma symbols_bounded (es : list (triple * json)) : forall st,
  (List.length (symbols_in_file (fold_left apply_entry es st))
   <= List.length (symbols_in_file st) + List.length es)%nat.
Proof.
  induction es as [|e es IH]; intros st; simpl fold_left; [simpl; lia|].
  specialize (IH (apply_entry st e)). destruct e as [[[s c] k] v].
  cbn [apply_entry symbols_in_file] in IH. simpl List.length.
  assert (List.length (set_add s (symbols_in_file st))
          <= S (List.length (symbols_in_file st)))%nat.
  { unfold set_add. destruct (existsb _ _); [lia|].
    rewrite length_app. simpl. lia. }
  lia.
Qed.

(** On a file that decodes to an object the loader returns a mapping and
    accounts for every key it is offered: the item count and the number of
    warnings for keys that were passed over add up to the number of keys in
    the categories that are dictionaries; there is one warning for every
    category that is no dictionary; and the symbol count is at most the
    item count. *)
Theorem history_loader_accounts_for_keys
        (read_json : string -> outcome json) (file_path : string)
        (categories : list (string * json)) :
  read_json file_path = Ok (JObj categories) ->
  exists m sym_count item_count out,
    parse_history_file read_json file_path parse_datetime_from_string_key
    = (Ok (Some m, sym_count, item_count), out)
    /\ (item_count + Z.of_nat (count_lines is_WarnKeySkipped out)
        = Z.of_nat (List.length (offered_keys categories)))%Z
    /\ (count_lines is_WarnExpectedDict out
        + List.length (dict_categories categories))%nat
       = List.length categories
    /\ (0 <= sym_count <= item_count)%Z.
Proof.
  intros R. rewrite (loader_run_lines read_json file_path categories R).
  cbv zeta. eexists _, _, _, _. split; [reflexivity|].
  rewrite fold_entries_items. cbn [items_in_file].
  split; [|split].
  - unfold file_entries, offered_keys.
    rewrite !length_flat_map_sum, count_lines_flat_map.
    rewrite Z.add_0_l, <- Nat2Z.inj_add, list_sum_add. f_equal.
    apply list_sum_ext. intros kd _. apply (category_accounted file_path kd).
  - rewrite count_lines_flat_map. unfold dict_categories.
    clear. induction categories as [|kd l IH]; [reflexivity|].
    cbn [map filter].
    change (list_sum (?x :: ?r)) with (x + list_sum r)%nat.
    rewrite (proj2 (category_accounted file_path kd)).
    destruct (is_dict (snd kd)); simpl List.length; lia.
  - pose proof (symbols_bounded (file_entries (JObj categories))
                  (mkstate [] [] 0)) as B.
    cbn [symbols_in_file List.length] in B. lia.
Qed.

Lemma history_loader_accounts_for_keys_witness :
  exists m sym_count item_count out,
    parse_history_file mixed_read_json "m_history.json"
      parse_datetime_from_string_key
    = (Ok (Some m, sym_count, item_count), out)
    /\ (item_count + Z.of_nat (count_lines is_WarnKeySkipped out)
        = Z.of_nat
            (List.length
               (offered_keys
                  [("close",
                    JObj [("('MSFT', datetime.date(2023, 1, 1))", JFloat 250 0);
                          ("('MSFT', datetime.date(2023, 2, 30))", JFloat 251 0);
                          ("('MSFT', 123)", JInt 7)]);
                   ("meta", JStr "daily");
                   ("open",
                    JObj [("('AAPL', datetime.date(2023, 1, 1))", JInt 149)])])))%Z
    /\ (count_lines is_WarnExpectedDict out
        + List.length
            (dict_categories
               [("close",
                 JObj [("('MSFT', datetime.date(2023, 1, 1))", JFloat 250 0);
                       ("('MSFT', datetime.date(2023, 2, 30))", JFloat 251 0);
                       ("('MSFT', 123)", JInt 7)]);
                ("meta", JStr "daily");
                ("open",
                 JObj [("('AAPL', datetime.date(2023, 1, 1))", JInt 149)])]))%nat
       = List.length
           [("close",
             JObj [("('MSFT', datetime.date(2023, 1, 1))", JFloat 250 0);
                   ("('MSFT', datetime.date(2023, 2, 30))", JFloat 251 0);
                   ("('MSFT', 123)", JInt 7)]);
            ("meta", JStr "daily");
            ("open",
             JObj [("('AAPL', datetime.date(2023, 1, 1))", JInt 149)])]
    /\ (0 <= sym_count <= item_count)%Z.
Proof.
  apply (history_loader_accounts_for_keys mixed_read_json "m_history.json").
  reflexivity.
Defined.

Lemma last_write_some_in (es : list (triple * json)) (t : triple) (v : json) :
  last_write es t = Some v -> In (t, v) es.
Proof.
  induction es as [|e es IH]; simpl; [discriminate|].
  destruct (last_write es t) as [v'|].
  - intros H. right. apply IH. exact H.
  - destruct (triple_eqb (fst e) t) eqn:E; [|discriminate].
    apply triple_eqb_eq in E. intros H. inversion H; subst. left.
    now destruct e.
Qed.

(** Where an entry of a file comes from: a key of a category that is a
    dictionary, on which the parser returns the symbol, not empty, and the
    date of the entry; the value is the one the file has under the key. *)
Lemma file_entries_origin (categories : list (string * json))
      (s c : string) (k : pykey) (v : json) :
  In ((s, c, k), v) (file_entries (JObj categories)) ->
  exists entries key_string date_obj,
    In (c, JObj entries) categories /\ In (key_string, v) entries
    /\ parse_datetime_from_string_key key_string
       = (Ok (Some s, Some date_obj), [])
    /\ k = KDate date_obj /\ s <> EmptyString.
Proof.
  unfold file_entries. intros I.
  apply in_flat_map in I as ([c' d] & Ic & I).
  unfold category_entries in I. cbn [fst snd] in I.
  destruct d as [ | | | | | |entries]; try contradiction.
  apply in_flat_map in I as ([key_string v'] & Ik & I).
  unfold entry_of, accepted_key in I. cbn [fst snd] in I.
  destruct (parse_datetime_from_string_key key_string) as [o out] eqn:P.
  cbn [fst] in I. destruct o as [r|e]; [|contradiction].
  destruct (accepted r) as [[symbol date_obj]|] eqn:A; [|contradiction].
  destruct I as [I|[]]. inversion I; subst.
  apply accepted_some in A as [-> N].
  exists entries, key_string, date_obj.
  pose proof (parser_success_silent key_string s date_obj out P) as E.
  subst out. now repeat split.
Qed.

Lemma print_other_symbol_spec (o : other_data) (i : Z) (sd : string * details) :
  print_other_symbol o i sd
  = if (3 <=? i)%Z
    then (Ok true, [MoreSymbols (Z.of_nat (List.length o) - 3)%Z])
    else (Ok false, other_symbol_lines sd).
Proof.
  destruct sd as [symbol det].
  unfold print_other_symbol, max_symbols_to_print, other_symbol_lines,
    detail_lines, dict_len.
  cbn [fst snd].
  destruct (3 <=? i)%Z; [reflexivity|].
  destruct (dict_get String.eqb det "summaryDetail") as [[ | | | | | |sd]|];
    destruct (dict_get String.eqb det "quoteType") as [[ | | | | | |qt]|];
    reflexivity.
Qed.

Lemma print_data_summary_lines (h : history) (total : Z) (o : other_data)
      (nh no : Z) :
  print_data_summary h total o nh no
  = (Ok tt,
     [SummaryBanner; HistoryHeader; HistoryFilesProcessed nh;
      HistoryFound (dict_len h) total]
     ++ history_summary_spec h
     ++ [OtherHeader; OtherFilesProcessed no; OtherFound (dict_len o)]
     ++ capped 3 o other_symbol_lines MoreSymbols
     ++ [SummaryFooter]).
Proof.
  unfold print_data_summary.
  cbn [print bind]. rewrite print_history_section_spec. cbn [print bind].
  rewrite (for_enumerate_capped_0 3 other_symbol_lines MoreSymbols
             (print_other_symbol o) o).
  - cbn [print bind].
    repeat (rewrite <- ?app_assoc; simpl app). reflexivity.
  - intros i x _ C. rewrite print_other_symbol_spec.
    change (Z.of_nat 3) with 3%Z in *. now rewrite C.
  - intros i x _ C. rewrite print_other_symbol_spec.
    change (Z.of_nat 3) with 3%Z in C. now rewrite C.
Qed.

Lemma detail_lines_length (det : details) :
  (List.length (detail_lines det) <= 7)%nat.
Proof.
  unfold detail_lines.
  destruct (dict_get String.eqb det "summaryDetail") as [[ | | | | | |sd]|];
    destruct (dict_get String.eqb det "quoteType") as [[ | | | | | |qt]|];
    simpl; lia.
Qed.

Lemma flat_map_length_bound {A B : Type} (g : A -> list B) (n : nat)
      (xs : list A) :
  (forall x, List.length (g x) <= n)%nat ->
  (List.length (flat_map g xs) <= List.length xs * n)%nat.
Proof.
  intros G. induction xs as [|x xs IH]; simpl; [lia|].
  rewrite length_app. specialize (G x). lia.
Qed.

(** The summary never raises, whatever the two mappings hold, and this is
    all it prints: four lines, the history part, three lines, the part on
    the other data, the closing line.  The part on the other data shows the
    first three symbols in the order of the dictionary, each with the
    selected fields of [summaryDetail] and [quoteType] when these are
    dictionaries, then, when there are more symbols, one line with the
    number left; it has twenty-five lines at most. *)
Theorem summary_other_part_is_capped (h : history) (total : Z)
        (o : other_data) (nh no : Z) :
  print_data_summary h total o nh no
  = (Ok tt,
     [SummaryBanner; HistoryHeader; HistoryFilesProcessed nh;
      HistoryFound (dict_len h) total]
     ++ history_summary_spec h
     ++ [OtherHeader; OtherFilesProcessed no; OtherFound (dict_len o)]
     ++ capped 3 o other_symbol_lines MoreSymbols
     ++ [SummaryFooter])
  /\ (List.length (capped 3 o other_symbol_lines MoreSymbols) <= 25)%nat
  /\ (forall sd, (List.length (other_symbol_lines sd) <= 8)%nat).
Proof.
  split; [apply print_data_summary_lines|].
  assert (B : forall sd, (List.length (other_symbol_lines sd) <= 8)%nat).
  { intros sd. unfold other_symbol_lines. simpl.
    pose proof (detail_lines_length (snd sd)). lia. }
  split; [|exact B].
  - unfold capped. rewrite length_app.
    pose proof (flat_map_length_bound other_symbol_lines 8 (firstn 3 o) B) as F.
    pose proof (firstn_le_length 3 o) as L3.
    rewrite length_firstn in F.
    set (shown := flat_map other_symbol_lines (firstn 3 o)) in *.
    destruct (3 <? List.length o)%nat;
      [change (List.length [MoreSymbols (Z.of_nat (List.length o) - Z.of_nat 3)])
         with 1%nat
      |change (List.length (@nil line)) with 0%nat]; lia.
Qed.

Lemma capped_in {A : Type} (cap : nat) (xs : list A) (show : A -> list line)
      (more : Z -> line) (l : line) :
  In l (capped cap xs show more) ->
  (exists x, In x xs /\ In l (show x)) \/ exists n, l = more n.
Proof.
  unfold capped. intros I. apply in_app_or in I as [I|I].
  - left. apply in_flat_map in I as (x & Ix & I). exists x. split; [|exact I].
    rewrite <- (firstn_skipn cap xs). apply in_or_app. now left.
  - right. destruct (cap <? List.length xs)%nat; [|contradiction].
    destruct I as [<-|[]]. eauto.
Qed.

(** The history part of the summary has no warning about keys that cannot
    be sorted when the innermost keys are all dates. *)
Lemma history_summary_sorted (h : history) (c : string) :
  keys_are_dates h -> ~ In (CouldNotSort c) (history_summary_spec h).
Proof.
  intros K I. unfold history_summary_spec in I.
  apply capped_in in I as [([s t] & Ist & I)|(n & E)]; [|discriminate].
  unfold symbol_spec in I. cbn [fst snd] in I.
  destruct I as [E|I]; [discriminate|].
  apply in_flat_map in I as ([c' m] & Icm & I).
  unfold type_spec in I. cbn [fst snd] in I.
  destruct I as [E|I]; [discriminate|].
  destruct (sorted_dates _ (K s t c' m Ist Icm)) as (order & S & _).
  rewrite S in I. unfold entries_spec in I.
  apply capped_in in I as [(k & _ & [E|[]])|(n & E)]; discriminate.
Qed.

Lemma summary_without_sort_warning (h : history) (total : Z) (o : other_data)
      (nh no : Z) (c : string) :
  keys_are_dates h ->
  ~ In (CouldNotSort c) (snd (print_data_summary h total o nh no)).
Proof.
  intros K. rewrite print_data_summary_lines. cbn [snd]. intros I.
  apply in_app_or in I as [I|I].
  { simpl in I. repeat (destruct I as [I|I]; [discriminate|]). exact I. }
  apply in_app_or in I as [I|I]; [now apply (history_summary_sorted h c K)|].
  apply in_app_or in I as [I|I].
  { simpl in I. repeat (destruct I as [I|I]; [discriminate|]). exact I. }
  apply in_app_or in I as [I|I].
  - apply capped_in in I as [([s det] & _ & I)|(n & E)]; [|discriminate].
    unfold other_symbol_lines, detail_lines in I. cbn [fst snd] in I.
    destruct I as [E|I]; [discriminate|].
    destruct (dict_get String.eqb det "summaryDetail") as [[ | | | | | |sd]|];
      destruct (dict_get String.eqb det "quoteType") as [[ | | | | | |qt]|];
      simpl in I;
      repeat (destruct I as [I|I]; [discriminate|]); exact I.
  - destruct I as [E|[]]. discriminate.
Qed.

(* ================================================================== *)
(** * The mapping that the history loader returns *)

Lemma in_leaf_keys (h : history) (s c : string) (t : by_type) (m : by_date)
      (k : pykey) :
  In (s, t) h -> In (c, m) t -> In k (dict_keys m) -> In (s, c, k) (leaf_keys h).
Proof.
  intros Is Ic Ik. unfold leaf_keys.
  apply in_flat_map. exists (s, t). split; [exact Is|]. cbn [fst snd].
  apply in_flat_map. exists (c, m). split; [exact Ic|]. cbn [fst snd].
  apply in_map_iff in Ik as ([k' v] & <- & Ik).
  apply in_map_iff. now exists (k', v).
Qed.

Section LoadedFacts.
Variable read_json : string -> outcome json.
Variable file_path : string.
Variable m : history.
Variables sym_count item_count : Z.
Hypothesis loaded :
  fst (parse_history_file read_json file_path parse_datetime_from_string_key)
  = Ok (Some m, sym_count, item_count).

(** The loader returns a mapping only for a file that decodes to an
    object, and the mapping is the one left by the entries of the file,
    recorded one after the other. *)
Lemma loaded_inv :
  exists categories,
    read_json file_path = Ok (JObj categories)
    /\ m = parsed_data (fold_left apply_entry (file_entries (JObj categories))
                          (mkstate [] [] 0)).
Proof.
  destruct (read_json file_path) as [raw|e] eqn:R.
  - destruct raw as [ | | | | | |categories];
      try (unfold parse_history_file in loaded; rewrite R in loaded;
           discriminate).
    exists categories. split; [reflexivity|].
    rewrite (loader_run read_json file_path categories R) in loaded.
    cbv zeta in loaded. now inversion loaded.
  - exfalso. unfold parse_history_file in loaded. rewrite R in loaded.
    destruct (is_FileNotFoundError e); [discriminate|].
    destruct (is_JSONDecodeError e); discriminate.
Qed.

Lemma loaded_wf : wf_history m.
Proof.
  destruct loaded_inv as (categories & _ & ->).
  apply fold_entries_wf. exact wf_history_nil.
Qed.

Lemma loaded_origin (s c : string) (k : pykey) (v : json) :
  lookup3 m s c k = Some v ->
  exists categories entries key_string date_obj,
    read_json file_path = Ok (JObj categories)
    /\ In (c, JObj entries) categories /\ In (key_string, v) entries
    /\ parse_datetime_from_string_key key_string
       = (Ok (Some s, Some date_obj), [])
    /\ k = KDate date_obj /\ s <> EmptyString.
Proof.
  intros H. destruct loaded_inv as (categories & R & E).
  change (lookup_triple m (s, c, k) = Some v) in H.
  rewrite E, fold_entries_lookup in H.
  destruct (last_write (file_entries (JObj categories)) (s, c, k)) as [v'|] eqn:W;
    [|discriminate].
  inversion H; subst v'. apply last_write_some_in in W.
  apply file_entries_origin in W
    as (entries & key_string & date_obj & Ic & Ik & P & -> & N).
  now exists categories, entries, key_string, date_obj.
Qed.

Lemma loaded_keys_are_dates : keys_are_dates m.
Proof.
  intros s t c d Is Ic. apply Forall_forall. intros k Ik.
  pose proof (in_leaf_keys _ s c t d k Is Ic Ik) as I.
  apply (leaf_keys_in _ _ loaded_wf) in I. simpl in I.
  destruct (lookup3 m s c k) as [v|] eqn:G; [|now elim I].
  destruct (loaded_origin s c k v G)
    as (_ & _ & _ & date_obj & _ & _ & _ & _ & -> & _).
  reflexivity.
Qed.
End LoadedFacts.

(** The mapping that the history loader returns holds nothing but what the
    file gave: every value found under a symbol, a category and an
    innermost key stands in the file, in the dictionary of that category,
    under a key on which the parser returns this symbol and a date; the
    innermost key is that date, and the symbol is not empty. *)
Theorem loaded_values_come_from_file
        (read_json : string -> outcome json) (file_path : string)
        (m : history) (sym_count item_count : Z) :
  fst (parse_history_file read_json file_path parse_datetime_from_string_key)
  = Ok (Some m, sym_count, item_count) ->
  forall s c k v,
    lookup3 m s c k = Some v ->
    exists categories entries key_string date_obj,
      read_json file_path = Ok (JObj categories)
      /\ In (c, JObj entries) categories /\ In (key_string, v) entries
      /\ parse_datetime_from_string_key key_string
         = (Ok (Some s, Some date_obj), [])
      /\ k = KDate date_obj /\ s <> EmptyString.
Proof.
  intros P s c k v H.
  destruct (loaded_origin read_json file_path m sym_count item_count P s c k v H)
    as (categories & entries & key_string & date_obj & R & Ic & Ik & K & E & N).
  exists categories, entries, key_string, date_obj.
  repeat split; assumption.
Qed.

Lemma loaded_values_come_from_file_witness :
  exists categories entries key_string date_obj,
    mixed_read_json "m_history.json" = Ok (JObj categories)
    /\ In ("close", JObj entries) categories
    /\ In (key_string, JFloat 250 0) entries
    /\ parse_datetime_from_string_key key_string
       = (Ok (Some "MSFT", Some date_obj), [])
    /\ KDate (mkdate 2023 1 1) = KDate date_obj /\ "MSFT" <> EmptyString.
Proof.
  apply (loaded_values_come_from_file mixed_read_json "m_history.json"
           [("MSFT", [("close", [(KDate (mkdate 2023 1 1), JFloat 250 0)])]);
            ("AAPL", [("open", [(KDate (mkdate 2023 1 1), JInt 149)])])]
           2%Z 2%Z).
  - vm_compute. reflexivity.
  - reflexivity.
Defined.

(** Every innermost key of a mapping that the history loader returns is a
    date, so the keys of every category can be sorted, and the summary
    called on such a mapping never prints the warning about keys that
    cannot be sorted: the clause for [TypeError] around [sorted] is not
    entered. *)
Theorem summary_sorts_loaded_dates
        (read_json : string -> outcome json) (file_path : string)
        (m : history) (sym_count item_count : Z) :
  fst (parse_history_file read_json file_path parse_datetime_from_string_key)
  = Ok (Some m, sym_count, item_count) ->
  keys_are_dates m
  /\ (forall s t c d,
        In (s, t) m -> In (c, d) t ->
        exists order,
          sorted (dict_keys d) = Ok order
          /\ Permutation (dict_keys d) order /\ Sorted pykey_le order)
  /\ (forall total o nh no c,
        ~ In (CouldNotSort c) (snd (print_data_summary m total o nh no))).
Proof.
  intros P.
  pose proof (loaded_keys_are_dates read_json file_path m sym_count item_count P)
    as K.
  split; [exact K|]. split.
  - intros s t c d Is Ic.
    destruct (sorted_dates _ (K s t c d Is Ic)) as (order & S & _).
    exists order. split; [exact S|].
    split; [now apply sorted_perm | now apply (sorted_sorted (dict_keys d))].
  - intros total o nh no c. now apply summary_without_sort_warning.
Qed.

Lemma summary_sorts_loaded_dates_witness :
  keys_are_dates
    [("AAPL", [("close", [(KDate (mkdate 2023 1 1), JFloat 150 0);
                          (KDate (mkdate 2023 1 2), JFloat 305 (-1))])])]
  /\ (forall s t c d,
        In (s, t)
           [("AAPL", [("close", [(KDate (mkdate 2023 1 1), JFloat 150 0);
                                 (KDate (mkdate 2023 1 2), JFloat 305 (-1))])])] ->
        In (c, d) t ->
        exists order,
          sorted (dict_keys d) = Ok order
          /\ Permutation (dict_keys d) order /\ Sorted pykey_le order)
  /\ (forall total o nh no c,
        ~ In (CouldNotSort c)
            (snd (print_data_summary
                    [("AAPL",
                      [("close", [(KDate (mkdate 2023 1 1), JFloat 150 0);
                                  (KDate (mkdate 2023 1 2), JFloat 305 (-1))])])]
                    total o nh no))).
Proof.
  apply (summary_sorts_loaded_dates sample_read_json "a_history.json" _ 1%Z 2%Z).
  vm_compute. reflexivity.
Defined.

(* ================================================================== *)
(** * The symbols of the mapping that the history loader returns *)

Lemma keys_set_in {V : Type} (d : dict string V) (k : string) (v : V)
      (x : string) :
  In x (dict_keys (dict_set String.eqb d k v)) <-> In x (dict_keys d) \/ x = k.
Proof.
  rewrite (dict_keys_set _ _ String.eqb).
  destruct (dict_mem String.eqb d k) eqn:M.
  - apply (dict_mem_keys _ _ String.eqb String.eqb_eq) in M.
    split; [now left | intros [I| ->]; assumption].
  - rewrite in_app_iff. simpl. split.
    + intros [I|[<-|[]]]; [now left | now right].
    + intros [I| ->]; [now left | right; now left].
Qed.

Lemma keys_fold_entries (es : list (triple * json)) (x : string) : forall st,
  In x (dict_keys (parsed_data (fold_left apply_entry es st)))
  <-> In x (dict_keys (parsed_data st)) \/ In x (map entry_symbol es).
Proof.
  induction es as [|e es IH]; intros st; simpl fold_left.
  - simpl. tauto.
  - rewrite IH, apply_entry_data. unfold record. rewrite keys_set_in.
    simpl map. simpl In.
    change (entry_symbol e) with (fst (fst (fst e))). intuition congruence.
Qed.

Lemma same_members_length {T : Type} (a b : list T) :
  NoDup a -> NoDup b -> (forall x, In x a <-> In x b) ->
  List.length a = List.length b.
Proof.
  intros Na Nb E. apply Nat.le_antisymm; apply NoDup_incl_length;
    try assumption; intros x; apply E.
Qed.

Lemma keys_set_add {V : Type} (d : dict string V) (k : string) (v : V) :
  dict_keys (dict_set String.eqb d k v) = set_add k (dict_keys d).
Proof.
  rewrite (dict_keys_set _ _ String.eqb). unfold set_add.
  replace (existsb (String.eqb k) (dict_keys d)) with (dict_mem String.eqb d k);
    [reflexivity|].
  unfold dict_mem. induction d as [|[k0 v0] d IH]; simpl; [reflexivity|].
  rewrite String.eqb_sym. destruct (String.eqb k k0); [reflexivity|exact IH].
Qed.

Lemma keys_fold_entries_order (es : list (triple * json)) : forall st,
  dict_keys (parsed_data (fold_left apply_entry es st))
  = first_seen_from (dict_keys (parsed_data st)) (map entry_symbol es).
Proof.
  induction es as [|e es IH]; intros st; [reflexivity|].
  simpl fold_left. rewrite IH, apply_entry_data. unfold record.
  now rewrite keys_set_add.
Qed.

(** The symbols of the mapping that the history loader returns are the
    symbols of the entries it recorded, each once, in the order in which
    they first appear in the file; the symbol count it returns is the
    number of different symbols among the recorded entries; and every
    symbol of the mapping holds at least one value. *)
Theorem loaded_symbols_in_order_of_first_entry
        (read_json : string -> outcome json) (file_path : string)
        (categories : list (string * json)) :
  read_json file_path = Ok (JObj categories) ->
  exists m sym_count item_count,
    fst (parse_history_file read_json file_path parse_datetime_from_string_key)
    = Ok (Some m, sym_count, item_count)
    /\ dict_keys m
       = first_seen (map entry_symbol (file_entries (JObj categories)))
    /\ sym_count
       = Z.of_nat
           (List.length
              (nodup string_dec
                 (map entry_symbol (file_entries (JObj categories)))))
    /\ NoDup (dict_keys m)
    /\ (forall s, In s (dict_keys m) ->
          exists c k v, lookup3 m s c k = Some v).
Proof.
  intros R. rewrite (loader_run read_json file_path categories R). cbv zeta.
  set (es := file_entries (JObj categories)).
  set (st := fold_left apply_entry es (mkstate [] [] 0)).
  exists (parsed_data st), (Z.of_nat (List.length (symbols_in_file st))),
    (items_in_file st).
  assert (W : wf_history (parsed_data st)).
  { unfold st. apply fold_entries_wf. exact wf_history_nil. }
  split; [reflexivity|]. split; [apply keys_fold_entries_order|].
  split; [|split].
  - f_equal. unfold st at 1.
    rewrite (fold_entries_symbols es (mkstate [] [] 0) eq_refl).
    fold st. apply same_members_length.
    + exact (proj1 W).
    + apply NoDup_nodup.
    + intros x. rewrite nodup_In. unfold st. rewrite keys_fold_entries.
      simpl. tauto.
  - exact (proj1 W).
  - intros s I. unfold st in I. apply keys_fold_entries in I as [[]|I].
    apply in_map_iff in I as ([[[s' c] k] v] & E & I).
    unfold entry_symbol in E. cbn [fst] in E. subst s'.
    assert (N : last_write es (s, c, k) <> None).
    { apply last_write_in. apply in_map_iff. now exists ((s, c, k), v). }
    pose proof (fold_entries_lookup es (s, c, k) (mkstate [] [] 0)) as L.
    fold st in L. simpl in L.
    destruct (last_write es (s, c, k)) as [v'|]; [|now elim N].
    now exists c, k, v'.
Qed.

Lemma loaded_symbols_in_order_of_first_entry_witness :
  exists m sym_count item_count,
    fst (parse_history_file mixed_read_json "m_history.json"
           parse_datetime_from_string_key)
    = Ok (Some m, sym_count, item_count)
    /\ dict_keys m
       = first_seen
           (map entry_symbol
              (file_entries
                 (JObj [("close",
                         JObj [("('MSFT', datetime.date(2023, 1, 1))", JFloat 250 0);
                               ("('MSFT', datetime.date(2023, 2, 30))", JFloat 251 0);
                               ("('MSFT', 123)", JInt 7)]);
                        ("meta", JStr "daily");
                        ("open",
                         JObj [("('AAPL', datetime.date(2023, 1, 1))",
                                JInt 149)])])))
    /\ sym_count
       = Z.of_nat
           (List.length
              (nodup string_dec
                 (map entry_symbol
                    (file_entries
                       (JObj [("close",
                               JObj [("('MSFT', datetime.date(2023, 1, 1))", JFloat 250 0);
                                     ("('MSFT', datetime.date(2023, 2, 30))", JFloat 251 0);
                                     ("('MSFT', 123)", JInt 7)]);
                              ("meta", JStr "daily");
                              ("open",
                               JObj [("('AAPL', datetime.date(2023, 1, 1))",
                                      JInt 149)])])))))
    /\ NoDup (dict_keys m)
    /\ (forall s, In s (dict_keys m) ->
          exists c k v, lookup3 m s c k = Some v).
Proof.
  apply (loaded_symbols_in_order_of_first_entry mixed_read_json "m_history.json").
  reflexivity.
Defined.

(* ================================================================== *)
(** * The other-file loader reports every file it rejects *)

Lemma other_spec_reports (file_path : string) (raw_data : json) :
  exists r out,
    other_spec file_path raw_data = (Ok r, out)
    /\ match r with
       | Some _ => out = []
       | None => exists l, out = [l]
       end.
Proof.
  assert (F : forall l : line,
             exists r out,
               (@Ok (option (string * details)) None, [l]) = (Ok r, out)
               /\ match r with
                  | Some _ => out = []
                  | None => exists l', out = [l']
                  end).
  { intros l. exists None, [l]. split; [reflexivity | now exists l]. }
  destruct raw_data as [ | | | | |items| ]; simpl; try apply F.
  destruct items as [|first rest]; try apply F.
  destruct first as [ | | | | |inner| ]; try apply F.
  destruct inner as [|x inner]; try apply F.
  destruct x; destruct inner as [|y more]; try apply F;
    destruct y; try apply F.
  eexists _, _. split; reflexivity.
Qed.

(** The other-file loader never raises and never fails in silence: it
    either returns a pair and prints nothing, or returns [None] and prints
    exactly one line, whatever the file holds and whatever reading it
    raises. *)
Theorem other_loader_reports_once
        (read_json : string -> outcome json) (file_path : string) :
  exists r out,
    parse_other_json_file read_json file_path = (Ok r, out)
    /\ match r with
       | Some _ => out = []
       | None => exists l, out = [l]
       end.
Proof.
  unfold parse_other_json_file. destruct (read_json file_path) as [raw|e].
  - rewrite validate_other_spec. apply other_spec_reports.
  - destruct (is_FileNotFoundError e);
      [eexists _, _; split; [reflexivity | eexists; reflexivity]|].
    destruct (is_JSONDecodeError e);
      eexists _, _; split; try reflexivity; eexists; reflexivity.
Qed.
